(** * Dual-store query federation and synchronisation layer

    A shallow embedding of the resolvers ([queryWithFallback],
    [buildWhereClause], [buildElasticSearchQuery], [buildOrderByClause],
    [Query.compensations], [Query.locationStats]) and of the streamer
    ([transformRecord], [streamDataToElasticSearch], the notification handler
    of [setupRealTimeStreaming]), with the properties of the specification
    stated over it; then of the other resolvers ([Query.compensation],
    [Query.compensationStats], [Query.engineerCompensationStats],
    [Query.health], [aggregateWithFallback]), of [transaction] and of the
    loader ([normalizeRecord], [insertBatch], [loadAllCSVData]), with
    properties read off the code.

    Conventions.
    - A JavaScript number that holds an amount of cents, a count, an offset or
      a limit is a [Z]; a number that may be fractional (dollars, years,
      averages) is a [Q].  Doubles are exact on the integers and on the
      comparisons used here below 2^53; rounding of doubles is not modelled.
    - A BIGINT column reaches the code as a text in a row read from the
      relational store and as a number in the payload of a change
      notification: a money column is an [Amount], a number or a text, and
      [+] on it adds numbers and concatenates as soon as one side is a text.
    - A property that may be [undefined], [null] or present is a [jsopt];
      where the code only tests truthiness, [option] is used and [None]
      stands for both [undefined] and [null].
    - A JavaScript object used as a dictionary (a result row, the search
      index) is a [gmap] with string keys.
    - Code that awaits a store and may throw runs in the monad [M]: a state
      (the log of effects, the stores) is threaded and the outcome is either
      [Returned] or [Thrown]. *)

From Stdlib Require Import ZArith QArith Qround Ascii Lia Lqa.
From stdpp Require Import base option list strings gmap pretty.

Local Open Scope Z_scope.

(** ** JavaScript values *)

Module Js.

Inductive jsopt (A : Type) : Type :=
| Undefined
| Null
| Val (a : A).
Arguments Undefined {A}.
Arguments Null {A}.
Arguments Val {A} a.

(** [x !== undefined] *)
Definition defined {A} (x : jsopt A) : bool :=
  match x with Undefined => false | _ => true end.

(** A value as it travels in query parameters, rows and documents. *)
Inductive Value : Type :=
| VNull
| VBool (b : bool)
| VNum (q : Q)
| VStr (s : string).

Definition of_jsopt {A} (inj : A -> Value) (x : jsopt A) : Value :=
  match x with Val a => inj a | _ => VNull end.

Definition VInt (z : Z) : Value := VNum (inject_Z z).

(** Truthiness of a string: the empty string is falsy. *)
Definition truthy_string (s : option string) : option string :=
  match s with
  | Some s' => if String.eqb s' "" then None else Some s'
  | None => None
  end.

(** [x || d] on an integer that may be absent: [undefined], [null] and [0]
    all give [d]. *)
Definition or_default (x : option Z) (d : Z) : Z :=
  match x with
  | Some n => if n =? 0 then d else n
  | None => d
  end.

Definition or_defaultQ (x : option Q) (d : Q) : Q :=
  match x with
  | Some q => if Qeq_bool q 0 then d else q
  | None => d
  end.

(** [x < y] on numbers. *)
Definition Qltb (x y : Q) : bool :=
  (Qnum x * Z.pos (Qden y) <? Qnum y * Z.pos (Qden x)).

(** An amount of cents as the code receives it: a number, as in the JSON of
    a change notification, or a text, as the relational driver delivers a
    BIGINT column when no type parser is set. *)
Inductive Amount : Type :=
| ANum (n : Z)
| AText (s : string).

(** Truthiness of an amount that may be [null]: the number 0 and the empty
    text are falsy, the text "0" is truthy. *)
Definition truthy_amount (x : option Amount) : bool :=
  match x with
  | Some (ANum n) => negb (n =? 0)
  | Some (AText s) => negb (String.eqb s "")
  | None => false
  end.

(** [x || 0] *)
Definition or_zero (x : option Amount) : Amount :=
  match x with
  | Some a => if truthy_amount x then a else ANum 0
  | None => ANum 0
  end.

(** The text an amount becomes when it is joined to a text: a whole
    number is written in decimal. *)
Definition text_of (a : Amount) : string :=
  match a with ANum n => pretty n | AText s => s end.

(** [a + b]: the sum of two numbers, the concatenation as soon as one of
    them is a text. *)
Definition plus (a b : Amount) : Amount :=
  match a, b with
  | ANum x, ANum y => ANum (x + y)
  | _, _ => AText (text_of a +:+ text_of b)
  end.

Definition digit_of (c : ascii) : option Z :=
  let n := nat_of_ascii c in
  if ((48 <=? n)%nat && (n <=? 57)%nat)%bool then Some (Z.of_nat n - 48) else None.

Fixpoint digits_from (acc : Z) (l : list ascii) : option Z :=
  match l with
  | [] => Some acc
  | c :: l' =>
      match digit_of c with
      | Some d => digits_from (10 * acc + d) l'
      | None => None
      end
  end.

(** The number a text is converted to in arithmetic, for the texts that
    occur here: the texts of BIGINT columns and their concatenations, made
    of decimal digits and signs.  The empty text is 0; a sign followed by
    digits, or digits alone, is that number; every other text of this kind
    is NaN ([None]).  Texts with blanks, a fraction or an exponent do not
    occur and are not read. *)
Definition number_of_text (s : string) : option Z :=
  match String.list_ascii_of_string s with
  | [] => Some 0
  | c :: l =>
      if Ascii.eqb c "-" then
        match l with [] => None | _ => Z.opp <$> digits_from 0 l end
      else if Ascii.eqb c "+" then
        match l with [] => None | _ => digits_from 0 l end
      else digits_from 0 (c :: l)
  end.

(** The number of an amount in arithmetic; [None] is NaN. *)
Definition to_number (a : Amount) : option Z :=
  match a with ANum n => Some n | AText s => number_of_text s end.

(** [x < y] where [x] may be NaN. *)
Definition lt_num (x : option Q) (y : Q) : bool :=
  match x with Some q => Qltb q y | None => false end.

End Js.
Import Js.

(** ** The monad of effectful code *)

Module Eff.

Definition Error := string.

Inductive Outcome (A : Type) : Type :=
| Returned (a : A)
| Thrown (e : Error).
Arguments Returned {A} a.
Arguments Thrown {A} e.

Definition M (S A : Type) : Type := S -> S * Outcome A.

Definition ret {S A} (a : A) : M S A := fun s => (s, Returned a).

Definition throw {S A} (e : Error) : M S A := fun s => (s, Thrown e).

Definition bind {S A B} (m : M S A) (k : A -> M S B) : M S B :=
  fun s =>
    match m s with
    | (s', Returned a) => k a s'
    | (s', Thrown e) => (s', Thrown e)
    end.

(** [try { m } catch (e) { h e }] *)
Definition try_catch {S A} (m : M S A) (h : Error -> M S A) : M S A :=
  fun s =>
    match m s with
    | (s', Returned a) => (s', Returned a)
    | (s', Thrown e) => h e s'
    end.

Definition get {S} : M S S := fun s => (s, Returned s).
Definition modify {S} (f : S -> S) : M S unit := fun s => (f s, Returned tt).

(** An awaited call whose result the environment decides. *)
Definition lift_outcome {S A} (o : Outcome A) : M S A := fun s => (s, o).

End Eff.
Import Eff.

Notation "'let!' x ':=' m 'in' k" := (bind m (fun x => k))
  (at level 10, x name, m at level 100, k at level 200).
Notation "'run!' m 'in' k" := (bind m (fun _ => k))
  (at level 10, m at level 100, k at level 200).

(** ** Record transformer: [transformRecord] *)

Module Transformer.

(** One row as [transformRecord] receives it.  A money column is [null], a
    number (in the payload of a change notification) or a text (in a row
    read from the relational store); the experience column is years or NULL;
    [other] carries the remaining columns, which [transformRecord] copies
    unchanged. *)
Record CompensationRecord : Type := {
  id : string;
  annual_base_pay : option Amount;
  annual_bonus : option Amount;
  stock_value : option Amount;
  years_experience_industry : option Q;
  location : option string;
  other : gmap string Value
}.

(** [{ ...record, total_compensation, compensation_range, experience_level }] *)
Record SearchDocument : Type := {
  source : CompensationRecord;
  total_compensation : Amount;
  compensation_range : string;
  experience_level : string
}.

Definition transformRecord (record : CompensationRecord) : SearchDocument :=
  let basePay := or_zero (annual_base_pay record) in
  let bonus := or_zero (annual_bonus record) in
  let stock := or_zero (stock_value record) in
  let total := plus (plus basePay bonus) stock in
  let totalInDollars := (fun n => inject_Z n / 100)%Q <$> to_number total in
  let range :=
    if lt_num totalInDollars 50000 then "Entry Level"
    else if lt_num totalInDollars 100000 then "Mid Level"
    else if lt_num totalInDollars 200000 then "Senior Level"
    else "Executive Level" in
  let experience := or_defaultQ (years_experience_industry record) 0 in
  let level :=
    if Qltb experience 2 then "Junior"
    else if Qltb experience 5 then "Mid-Level"
    else if Qltb experience 10 then "Senior"
    else "Expert" in
  {| source := record;
     total_compensation := total;
     compensation_range := range;
     experience_level := level |}.

(** A money column that holds the number [n], an absent one counting as
    zero. *)
Definition holds_number (x : option Amount) (n : Z) : Prop :=
  (x = None /\ n = 0) \/ x = Some (ANum n).

(** The integers that a JavaScript number holds exactly whatever the
    arithmetic: those up to 2^53 in size. *)
Definition safe (n : Z) : Prop := - 2 ^ 53 <= n <= 2 ^ 53.

(** Cents in whole currency units. *)
Definition units (cents : Z) : Q := (inject_Z cents / 100)%Q.

End Transformer.

(** ** Filter translator: [buildWhereClause], [buildElasticSearchQuery],
       [buildOrderByClause] *)

Module Translator.

(** [{ min, max }] of a range slot; each bound may be [undefined]. *)
Record Range (A : Type) : Type := { min : jsopt A; max : jsopt A }.
Arguments min {A} _.
Arguments max {A} _.

(** The slots of the filter that the two translators read. *)
Record Filter : Type := {
  employer : option string;
  jobTitleContains : option string;
  locationContains : option string;
  industry : option string;
  gender : option string;
  annualBasePay : option (Range Z);
  yearsExperienceIndustry : option (Range Q);
  timestampAfter : option Z;
  timestampBefore : option Z;
  healthInsuranceOffered : jsopt bool;
  dataQualityScoreMin : jsopt Q
}.

(** The slots matched as substrings (relational) or fuzzily (search). *)
Definition has_fuzzy_slot (f : Filter) : bool :=
  bool_decide (is_Some (truthy_string (employer f)))
  || bool_decide (is_Some (truthy_string (jobTitleContains f)))
  || bool_decide (is_Some (truthy_string (locationContains f))).

Record SortItem : Type := { field : string; direction : string }.

Record Pagination : Type := { limit : option Z; offset : option Z }.

(** *** Relational side *)

Inductive SqlOp : Type := ILIKE | EQ | GE | LE.

(** One entry of [conditions]: [`${column} ${op} $${param}`]. *)
Record Condition : Type := { column : string; op : SqlOp; param : nat }.

Definition op_text (o : SqlOp) : string :=
  match o with ILIKE => "ILIKE" | EQ => "=" | GE => ">=" | LE => "<=" end.

Definition render (c : Condition) : string :=
  column c +:+ " " +:+ op_text (op c) +:+ " $" +:+ pretty (param c).

(** [conditions], [params] and [paramIndex] while the clause is built. *)
Record Acc : Type := {
  conditions : list Condition;
  params : list Value;
  paramIndex : nat
}.

(** [conditions.push(...); params.push(v); paramIndex++] *)
Definition push (col : string) (o : SqlOp) (v : Value) (acc : Acc) : Acc :=
  {| conditions := conditions acc ++ [{| column := col; op := o; param := paramIndex acc |}];
     params := params acc ++ [v];
     paramIndex := S (paramIndex acc) |}.

Definition when_truthy (s : option string) (k : string -> Acc -> Acc) (acc : Acc) : Acc :=
  match truthy_string s with Some s' => k s' acc | None => acc end.

Definition when_defined {A} (x : jsopt A) (k : Value -> Acc -> Acc)
    (inj : A -> Value) (acc : Acc) : Acc :=
  if defined x then k (of_jsopt inj x) acc else acc.

Definition range_conditions {A} (col : string) (r : option (Range A))
    (inj : A -> Value) (acc : Acc) : Acc :=
  match r with
  | Some r' =>
      let acc1 := when_defined (min r') (push col GE) inj acc in
      when_defined (max r') (push col LE) inj acc1
  | None => acc
  end.

Definition buildConditions (filter : Filter) : Acc :=
  let acc := {| conditions := []; params := []; paramIndex := 1 |} in
  (* Text searches *)
  let acc := when_truthy (employer filter)
               (fun s => push "employer" ILIKE (VStr ("%" +:+ s +:+ "%"))) acc in
  let acc := when_truthy (jobTitleContains filter)
               (fun s => push "job_title" ILIKE (VStr ("%" +:+ s +:+ "%"))) acc in
  let acc := when_truthy (locationContains filter)
               (fun s => push "location" ILIKE (VStr ("%" +:+ s +:+ "%"))) acc in
  (* Exact matches *)
  let acc := when_truthy (industry filter)
               (fun s => push "industry" EQ (VStr s)) acc in
  let acc := when_truthy (gender filter)
               (fun s => push "gender" ILIKE (VStr s)) acc in
  (* Range filters *)
  let acc := range_conditions "annual_base_pay" (annualBasePay filter) VInt acc in
  let acc := range_conditions "years_experience_industry"
               (yearsExperienceIndustry filter) VNum acc in
  (* Date filters *)
  let acc := match timestampAfter filter with
             | Some t => push "timestamp" GE (VInt t) acc
             | None => acc
             end in
  let acc := match timestampBefore filter with
             | Some t => push "timestamp" LE (VInt t) acc
             | None => acc
             end in
  (* Boolean filters *)
  let acc := when_defined (healthInsuranceOffered filter)
               (push "health_insurance_offered" EQ) VBool acc in
  (* Data quality filter *)
  when_defined (dataQualityScoreMin filter)
    (push "data_quality_score" GE) VNum acc.

Record WhereClause : Type := {
  whereClause : string;
  whereConditions : list Condition;
  whereParams : list Value
}.

(** [whereConditions] keeps the entries of [conditions] that the text of
    [whereClause] joins with [' AND ']. *)
Definition buildWhereClause (filter : option Filter) : WhereClause :=
  match filter with
  | None => {| whereClause := ""; whereConditions := []; whereParams := [] |}
  | Some f =>
      let acc := buildConditions f in
      {| whereClause :=
           match conditions acc with
           | [] => ""
           | _ => "WHERE " +:+ String.concat " AND " (map render (conditions acc))
           end;
         whereConditions := conditions acc;
         whereParams := params acc |}
  end.

Definition order_field (f : string) : string :=
  if String.eqb f "TIMESTAMP" then "timestamp"
  else if String.eqb f "ANNUAL_BASE_PAY" then "annual_base_pay"
  else if String.eqb f "ANNUAL_BONUS" then "annual_bonus"
  else if String.eqb f "YEARS_EXPERIENCE_INDUSTRY" then "years_experience_industry"
  else if String.eqb f "YEARS_EXPERIENCE_COMPANY" then "years_experience_company"
  else if String.eqb f "CREATED_AT" then "created_at"
  else "created_at".

Definition buildOrderByClause (sort : option (list SortItem)) : string :=
  match sort with
  | None | Some [] => "ORDER BY created_at DESC"
  | Some items =>
      let orderItems :=
        map (fun sortItem =>
               let dir := if String.eqb (direction sortItem) "DESC" then "DESC" else "ASC" in
               order_field (field sortItem) +:+ " " +:+ dir) items in
      "ORDER BY " +:+ String.concat ", " orderItems
  end.

(** *** Search side *)

Inductive Clause : Type :=
| Match (fld : string) (query : string) (fuzziness : string)
| Term (fld : string) (v : Value)
| RangeClause (fld : string) (gte lte : option Value).

Inductive QueryDsl : Type :=
| Bool_must (must : list Clause)
| Match_all
| Term_id (i : string).

Record Body : Type := {
  query : QueryDsl;
  sort : list (string * string);
  from : Z;
  size : Z
}.

Record EsQuery : Type := { index : string; body : Body }.

Definition lower (c : ascii) : ascii :=
  let n := nat_of_ascii c in
  if ((65 <=? n)%nat && (n <=? 90)%nat)%bool then ascii_of_nat (n + 32) else c.

Fixpoint toLowerCase (s : string) : string :=
  match s with
  | EmptyString => EmptyString
  | String c s' => String (lower c) (toLowerCase s')
  end.

(** [s.replace('_', '')]: only the first underscore is removed. *)
Fixpoint remove_first_underscore (s : string) : string :=
  match s with
  | EmptyString => EmptyString
  | String c s' =>
      if Ascii.eqb c "_" then s' else String c (remove_first_underscore s')
  end.

Definition es_range {A} (r : Range A) (inj : A -> Value) : option Value * option Value :=
  (if defined (min r) then Some (of_jsopt inj (min r)) else None,
   if defined (max r) then Some (of_jsopt inj (max r)) else None).

Definition opt_clause (s : option string) (k : string -> Clause) : list Clause :=
  match truthy_string s with Some s' => [k s'] | None => [] end.

Definition buildMust (filter : Filter) : list Clause :=
  (* Text searches with fuzzy matching *)
  opt_clause (employer filter) (fun s => Match "employer" s "AUTO")
  ++ opt_clause (jobTitleContains filter) (fun s => Match "job_title" s "AUTO")
  ++ opt_clause (locationContains filter) (fun s => Match "location" s "AUTO")
  (* Exact matches *)
  ++ opt_clause (industry filter) (fun s => Term "industry.keyword" (VStr s))
  ++ opt_clause (gender filter) (fun s => Term "gender" (VStr s))
  (* Range filters *)
  ++ match annualBasePay filter with
     | Some r => let '(g, l) := es_range r VInt in [RangeClause "annual_base_pay" g l]
     | None => []
     end
  ++ match yearsExperienceIndustry filter with
     | Some r =>
         let '(g, l) := es_range r VNum in [RangeClause "years_experience_industry" g l]
     | None => []
     end.

Definition es_sort (sort : option (list SortItem)) : list (string * string) :=
  match sort with
  | None | Some [] => [("created_at", "desc")]
  | Some items =>
      map (fun sortItem =>
             (remove_first_underscore (toLowerCase (field sortItem)),
              if String.eqb (direction sortItem) "DESC" then "desc" else "asc")) items
  end.

Definition pageOffset (pagination : option Pagination) : Z :=
  or_default (p ← pagination; offset p) 0.

Definition pageLimit (pagination : option Pagination) : Z :=
  Z.min (or_default (p ← pagination; limit p) 20) 100.

Definition buildElasticSearchQuery (filter : option Filter)
    (sort : option (list SortItem)) (pagination : option Pagination) : EsQuery :=
  let from' := pageOffset pagination in
  let size' := Z.min (or_default (p ← pagination; limit p) 20) 100 in
  match filter with
  | None =>
      {| index := "compensation_data";
         body := {| query := Match_all; sort := []; from := from'; size := size' |} |}
  | Some f =>
      {| index := "compensation_data";
         body := {| query := Bool_must (buildMust f); sort := es_sort sort;
                    from := from'; size := size' |} |}
  end.

End Translator.

(** ** Fallback query router: [search], [queryWithFallback],
       [Query.compensations] *)

Module Router.
Import Translator.

(** A result row or a document source: a JavaScript object. *)
Abbreviation Row := (gmap string Value).

Record Hit : Type := { _id : string; _source : Row }.

(** [hits.total] is either [{ value, relation }] or a plain number. *)
Inductive Total : Type :=
| TotalObject (value : Z)
| TotalNumber (n : Z).

Record Hits : Type := { hits : list Hit; total : option Total }.

(** The response of the search client; [None] is a missing [hits]. *)
Record EsResult : Type := { hits_of : option Hits }.

Record PgResult : Type := { pg_rows : list Row; pg_rowCount : Z }.

(** What [queryWithFallback] returns; [source] is absent on the path that
    hands the relational result back as it is. *)
Record QueryResult : Type := {
  rows : list Row;
  rowCount : Z;
  source : option string
}.

Record Connection : Type := {
  data : list Row;
  totalCount : option Z;   (* [None] is NaN *)
  hasNextPage : bool;
  hasPreviousPage : bool;
  conn_source : string
}.

(** The stores contacted, in order. *)
Inductive Event : Type :=
| EsSearch (q : EsQuery)
| PgQuery (text : string) (params : list Value).

Abbreviation Trace := (list Event).

(** [{ ...hit._source, id: hit._id }] *)
Definition hit_row (h : Hit) : Row := <["id" := VStr (_id h)]> (_source h).

Definition truthy_total (t : option Total) : bool :=
  match t with
  | Some (TotalObject _) => true
  | Some (TotalNumber n) => negb (n =? 0)
  | None => false
  end.

Definition total_value (t : Total) : Z :=
  match t with TotalObject v => v | TotalNumber n => n end.

Definition skip_space (s : string) : string :=
  (fix go (s : string) : string :=
     match s with
     | String c s' => if Ascii.eqb c " " then go s' else s
     | EmptyString => s
     end) s.

Definition digit (c : ascii) : option Z :=
  let n := nat_of_ascii c in
  if ((48 <=? n)%nat && (n <=? 57)%nat)%bool then Some (Z.of_nat n - 48) else None.

Fixpoint digits (s : string) (acc : option Z) : option Z :=
  match s with
  | String c s' =>
      match digit c with
      | Some d => digits s' (Some (10 * default 0 acc + d))
      | None => acc
      end
  | EmptyString => acc
  end.

(** [parseInt] on what a count column holds: the decimal prefix of a
    string after blanks and a sign, the integer part of a number;
    [None] is NaN. *)
Definition parseInt (v : option Value) : option Z :=
  match v with
  | Some (VStr s) =>
      match skip_space s with
      | String "-" s' => Z.opp <$> digits s' None
      | String "+" s' => digits s' None
      | s' => digits s' None
      end
  | Some (VNum q) => Some (Z.quot (Qnum q) (Z.pos (Qden q)))
  | _ => None
  end.

(** [a < b] where [b] may be NaN. *)
Definition lt_nan (a : Z) (b : option Z) : bool :=
  match b with Some b' => a <? b' | None => false end.

Section WithStores.

(** [process.env.ENABLE_FALLBACK === 'true'] *)
Variable ENABLE_FALLBACK : bool.
(** What the search client answers to a search request. *)
Variable client_search : EsQuery -> Outcome EsResult.
(** What the relational pool answers to a statement. *)
Variable pool_query : string -> list Value -> Outcome PgResult.

Definition record (e : Event) : M Trace unit := modify (fun t => t ++ [e]).

(** [search] of the search module: the response is handed back after its
    [hits.total.value] has been read for the log, and an error is thrown
    again. *)
Definition search (q : EsQuery) : M Trace EsResult :=
  try_catch
    (run! record (EsSearch q) in
     let! response := lift_outcome (client_search q) in
     match hits_of response with
     | Some h =>
         match total h with
         | Some _ => ret response
         | None => throw "TypeError: Cannot read properties of undefined"
         end
     | None => throw "TypeError: Cannot read properties of undefined"
     end)
    (fun error => throw error).

(** [query] of the connection module. *)
Definition query (text : string) (params : list Value) : M Trace PgResult :=
  try_catch
    (run! record (PgQuery text params) in
     lift_outcome (pool_query text params))
    (fun error => throw error).

Definition queryWithFallback (esQuery : EsQuery) (pgQuery : string)
    (pgParams : list Value) : M Trace QueryResult :=
  if negb ENABLE_FALLBACK then
    let! r := query pgQuery pgParams in
    ret {| rows := pg_rows r; rowCount := pg_rowCount r; source := None |}
  else
    let! fromSearch :=
      try_catch
        (let! esResult := search esQuery in
         match hits_of esResult with
         | Some h =>
             if (0 <? length (hits h))%nat then
               ret (Some {| rows := map hit_row (hits h);
                            rowCount := Z.of_nat (length (hits h));
                            source := Some "elasticsearch" |})
             else ret None
         | None => ret None
         end)
        (fun error => ret None) in
    match fromSearch with
    | Some r => ret r
    | None =>
        (* Fallback to PostgreSQL *)
        try_catch
          (let! pgResult := query pgQuery pgParams in
           ret {| rows := pg_rows pgResult; rowCount := pg_rowCount pgResult;
                  source := Some "postgresql" |})
          (fun error => throw error)
    end.

Definition countQuery (w : WhereClause) : string :=
  "SELECT COUNT(*) as total FROM compensation_data " +:+ whereClause w.

Definition dataQuery (w : WhereClause) (orderByClause : string) : string :=
  "SELECT * FROM compensation_data " +:+ whereClause w +:+ " " +:+ orderByClause
  +:+ " LIMIT $" +:+ pretty (length (whereParams w) + 1)%nat
  +:+ " OFFSET $" +:+ pretty (length (whereParams w) + 2)%nat.

Definition page (data' : list Row) (totalCount' : option Z) (limit' offset' : Z)
    (src : string) : Connection :=
  {| data := data';
     totalCount := totalCount';
     hasNextPage := lt_nan (offset' + limit') totalCount';
     hasPreviousPage := 0 <? offset';
     conn_source := src |}.

Definition compensations (filter : option Filter) (sort : option (list SortItem))
    (pagination : option Pagination) : M Trace Connection :=
  try_catch
    (let w := buildWhereClause filter in
     let orderByClause := buildOrderByClause sort in
     let limit' := Z.min (or_default (p ← pagination; limit p) 20) 100 in
     let offset' := or_default (p ← pagination; offset p) 0 in
     let esQuery := buildElasticSearchQuery filter sort pagination in
     let! fromSearch :=
       try_catch
         (if ENABLE_FALLBACK then
            let! esResult := search esQuery in
            match hits_of esResult with
            | Some h =>
                if truthy_total (total h) then
                  ret (Some (page (map hit_row (hits h))
                               (total_value <$> total h) limit' offset'
                               "elasticsearch"))
                else ret None
            | None => ret None
            end
          else ret None)
         (fun esError => ret None) in
     match fromSearch with
     | Some c => ret c
     | None =>
         (* Fallback to PostgreSQL *)
         let! countResult := query (countQuery w) (whereParams w) in
         match pg_rows countResult with
         | [] => throw "TypeError: Cannot read properties of undefined"
         | row0 :: _ =>
             let totalCount' := parseInt (row0 !! "total") in
             let! dataResult :=
               query (dataQuery w orderByClause)
                 (whereParams w ++ [VInt limit'; VInt offset']) in
             ret (page (pg_rows dataResult) totalCount' limit' offset' "postgresql")
         end
     end)
    (fun error => throw "Failed to fetch compensations").

End WithStores.

End Router.

(** ** Bulk synchronisation and change capture: [streamDataToElasticSearch],
       the notification handler of [setupRealTimeStreaming] *)

Module Streamer.
Import Transformer.

Definition BATCH_SIZE : Z := 1000.
Definition INDEX_NAME : string := "compensation_data".
Definition MAX_RETRIES : Z := 3.

(** The body of a bulk request: an action line, then the document. *)
Inductive BulkOp : Type :=
| IndexAction (_index : string) (_id : string)
| Document (d : SearchDocument).

(** [item.index && item.index.error] of one item of the bulk response. *)
Record BulkItem : Type := { index_error : bool }.

Record BulkResponse : Type := { errors : bool; items : list BulkItem }.

Inductive Event : Type :=
| PgCount
| PgFetch (limit offset : Z)
| EsBulk (body : list BulkOp)
| Sleep (ms : Z)
| EsRefresh
| EsCount.

Abbreviation Trace := (list Event).

Definition is_bulk (e : Event) : bool :=
  match e with EsBulk _ => true | _ => false end.

Record Counters : Type := {
  offset : Z;
  processedRecords : Z;
  failedRecords : Z
}.

(** What the run logs when it ends: nothing to stream, or the counters and
    the document count read back from the index. *)
Inductive SyncResult : Type :=
| NoData
| Synced (processed failed : Z) (indexed : Z).

Definition record (e : Event) : M Trace unit := modify (fun t => t ++ [e]).

Definition bulkOps_of (records : list CompensationRecord) : list BulkOp :=
  flat_map (fun r => [IndexAction INDEX_NAME (id r); Document (transformRecord r)]) records.

Section WithStores.

(** The relational table, in [ORDER BY id] order, as it is when the pages
    are read. *)
Variable table : list CompensationRecord.
(** What [SELECT COUNT( * )] answers when the run starts; rows may have come
    or gone since. *)
Variable pool_total : Z.
(** What the search client answers to the [n]-th bulk request. *)
Variable bulk_reply : nat -> list BulkOp -> Outcome BulkResponse.
Variable refresh_reply : Outcome unit.
Variable count_reply : Outcome Z.

(** [SELECT COUNT( * ) FROM compensation_data] *)
Definition pool_count : M Trace Z :=
  run! record PgCount in ret pool_total.

(** [SELECT * FROM compensation_data ORDER BY id LIMIT $1 OFFSET $2] *)
Definition pool_fetch (limit offset : Z) : M Trace (list CompensationRecord) :=
  run! record (PgFetch limit offset) in
  ret (take (Z.to_nat limit) (drop (Z.to_nat offset) table)).

Definition esClient_bulk (body : list BulkOp) : M Trace BulkResponse :=
  let! t := get in
  run! record (EsBulk body) in
  lift_outcome (bulk_reply (length (filter (fun e => is_bulk e = true) t)) body).

Definition sleep (ms : Z) : M Trace unit := record (Sleep ms).

(** One pass of the [try]/[catch] inside the retry loop: [inl] when
    [success] was set, [inr] with the new [retries] otherwise. *)
Definition attempt (records : list CompensationRecord) (bulkOps : list BulkOp)
    (retries : Z) (c : Counters) : M Trace (Counters + Z * Counters) :=
  try_catch
    (let! bulkResponse := esClient_bulk bulkOps in
     let errorCount :=
       Z.of_nat (length (filter (fun item => index_error item = true)
                           (items bulkResponse))) in
     let failed :=
       if (errors bulkResponse && (0 <? errorCount))%bool
       then failedRecords c + errorCount else failedRecords c in
     ret (inl {| offset := offset c;
                 processedRecords := processedRecords c + Z.of_nat (length records);
                 failedRecords := failed |}))
    (fun error =>
       let retries' := retries + 1 in
       if MAX_RETRIES <=? retries' then
         ret (inr (retries',
                   {| offset := offset c;
                      processedRecords := processedRecords c;
                      failedRecords := failedRecords c + Z.of_nat (length records) |}))
       else
         run! sleep (retries' * 1000) in
         ret (inr (retries', c))).

(** [while (retries < MAX_RETRIES && !success)]; [None] when the fuel is
    used up. *)
Fixpoint retry_loop (fuel : nat) (records : list CompensationRecord)
    (bulkOps : list BulkOp) (retries : Z) (c : Counters)
    : M Trace (option Counters) :=
  if retries <? MAX_RETRIES then
    match fuel with
    | O => ret None
    | S fuel' =>
        let! r := attempt records bulkOps retries c in
        match r with
        | inl c' => ret (Some c')
        | inr (retries', c') => retry_loop fuel' records bulkOps retries' c'
        end
    end
  else ret (Some c).

(** [while (offset < totalRecords)]; [None] when the fuel is used up. *)
Fixpoint stream_loop (fuel : nat) (totalRecords : Z) (c : Counters)
    : M Trace (option Counters) :=
  if offset c <? totalRecords then
    match fuel with
    | O => ret None
    | S fuel' =>
        let! records := pool_fetch BATCH_SIZE (offset c) in
        if (length records =? 0)%nat then ret (Some c)
        else
          let bulkOps := bulkOps_of records in
          let! r := retry_loop (Z.to_nat MAX_RETRIES) records bulkOps 0 c in
          match r with
          | None => ret None
          | Some c' =>
              let c'' := {| offset := offset c' + BATCH_SIZE;
                            processedRecords := processedRecords c';
                            failedRecords := failedRecords c' |} in
              run! sleep 100 in
              stream_loop fuel' totalRecords c''
          end
    end
  else ret (Some c).

Definition streamDataToElasticSearch (fuel : nat) : M Trace (option SyncResult) :=
  try_catch
    (let! totalRecords := pool_count in
     if totalRecords =? 0 then ret (Some NoData)
     else
       let! r := stream_loop fuel totalRecords
                   {| offset := 0; processedRecords := 0; failedRecords := 0 |} in
       match r with
       | None => ret None
       | Some c =>
           run! record EsRefresh in
           run! lift_outcome refresh_reply in
           run! record EsCount in
           let! n := lift_outcome count_reply in
           ret (Some (Synced (processedRecords c) (failedRecords c) n))
       end)
    (fun error => throw error).

End WithStores.

(** *** Change capture *)

(** The search index: documents by key. *)
Abbreviation EsStore := (gmap string SearchDocument).

Inductive LogEntry : Type :=
| LogDebug (message : string)
| LogError (message : string) (error : Error).

Record HState : Type := { store : EsStore; log : list LogEntry }.

(** [JSON.parse(msg.payload)] gives [{ operation, id, data }]. *)
Record Payload : Type := {
  operation : string;
  payload_id : string;
  payload_data : option CompensationRecord
}.

Definition logger (e : LogEntry) : M HState unit :=
  modify (fun s => {| store := store s; log := log s ++ [e] |}).

Section WithClient.

(** [esClient.index] and [esClient.delete] on the index. *)
Variable esClient_index : string -> SearchDocument -> EsStore -> EsStore * Outcome unit.
Variable esClient_delete : string -> EsStore -> EsStore * Outcome unit.

Definition on_store (f : EsStore -> EsStore * Outcome unit) : M HState unit :=
  fun s => let '(st, o) := f (store s) in ({| store := st; log := log s |}, o).

(** The listener of ['notification']; [None] is a payload that
    [JSON.parse] rejects. *)
Definition on_notification (msg : option Payload) : M HState unit :=
  try_catch
    (let! payload :=
       match msg with
       | Some p => ret p
       | None => throw "SyntaxError: Unexpected token"
       end in
     if (String.eqb (operation payload) "INSERT"
         || String.eqb (operation payload) "UPDATE")%bool then
       let! transformed :=
         match payload_data payload with
         | Some r => ret (transformRecord r)
         | None => throw "TypeError: Cannot read properties of null"
         end in
       run! on_store (esClient_index (payload_id payload) transformed) in
       logger (LogDebug ("Real-time indexed document ID: " +:+ payload_id payload))
     else if String.eqb (operation payload) "DELETE" then
       run! on_store (esClient_delete (payload_id payload)) in
       logger (LogDebug ("Real-time deleted document ID: " +:+ payload_id payload))
     else ret tt)
    (fun error => logger (LogError "Failed to process real-time update:" error)).

End WithClient.

(** The search store as the client sees it: indexing overwrites the
    document of the key; deleting a key that has no document is answered
    with 404, which the client throws. *)
Definition es_index (k : string) (d : SearchDocument) (st : EsStore)
    : EsStore * Outcome unit :=
  (<[k := d]> st, Returned tt).

Definition es_delete (k : string) (st : EsStore) : EsStore * Outcome unit :=
  match st !! k with
  | Some _ => (delete k st, Returned tt)
  | None => (st, Thrown "ResponseError: not_found (404)")
  end.

End Streamer.

(** ** The two stores as the statements see them

    The translators emit statements; what a statement selects is decided by
    the store.  This module gives the emitted statements their meaning over a
    table of rows: SQL comparisons are false on NULL, [ILIKE] is a
    case-insensitive pattern match with [%] and [_], a [term] clause is exact
    equality, a [range] clause is inclusive, [bool.must] is a conjunction and
    an empty one matches every document.  Fuzzy [match] clauses are given no
    meaning here. *)

Module Stores.
Import Translator Router.

Definition col (r : Row) (c : string) : Value := default VNull (r !! c).

Definition value_eq (a b : Value) : bool :=
  match a, b with
  | VBool x, VBool y => Bool.eqb x y
  | VNum x, VNum y => Qeq_bool x y
  | VStr x, VStr y => String.eqb x y
  | _, _ => false
  end.

Definition value_le (a b : Value) : bool :=
  match a, b with
  | VNum x, VNum y => Qle_bool x y
  | _, _ => false
  end.

Fixpoint like (p s : list ascii) : bool :=
  match p with
  | [] => match s with [] => true | _ => false end
  | c :: p' =>
      if Ascii.eqb c "%" then
        (fix star (s : list ascii) : bool :=
           like p' s || match s with [] => false | _ :: s' => star s' end) s
      else
        match s with
        | [] => false
        | d :: s' =>
            (Ascii.eqb c "_" || Ascii.eqb (lower c) (lower d)) && like p' s'
        end
  end.

Definition value_ilike (a pat : Value) : bool :=
  match a, pat with
  | VStr s, VStr p => like (String.list_ascii_of_string p) (String.list_ascii_of_string s)
  | _, _ => false
  end.

(** [column op $param] on one row; [$n] is [params[n-1]]. *)
Definition holds (params : list Value) (r : Row) (c : Condition) : bool :=
  match params !! (param c - 1)%nat with
  | Some v =>
      match op c with
      | ILIKE => value_ilike (col r (column c)) v
      | EQ => value_eq (col r (column c)) v
      | GE => value_le v (col r (column c))
      | LE => value_le (col r (column c)) v
      end
  | None => false
  end.

(** The rows a [WHERE] clause keeps. *)
Definition pg_select (w : WhereClause) (table : list Row) : list Row :=
  filter (fun r => forallb (holds (whereParams w) r) (whereConditions w) = true) table.

(** A [.keyword] sub-field holds the value of its field. *)
Definition es_field (f : string) : string :=
  let n := String.length f in
  if (8 <=? n)%nat && String.eqb (String.substring (n - 8) 8 f) ".keyword"
  then String.substring 0 (n - 8) f else f.

Definition bound_ok (le : Value -> Value -> bool) (b : option Value) (v : Value) : bool :=
  match b with
  | None | Some VNull => match v with VNull => false | _ => true end
  | Some b' => le b' v
  end.

(** [None]: the clause is a fuzzy match. *)
Definition matches_clause (d : Row) (c : Clause) : option bool :=
  match c with
  | Match _ _ _ => None
  | Term f v => Some (value_eq (col d (es_field f)) v)
  | RangeClause f gte lte =>
      Some (bound_ok value_le gte (col d f)
            && bound_ok (fun b v => value_le v b) lte (col d f))
  end.

Definition matches (d : Row) (q : QueryDsl) : option bool :=
  match q with
  | Match_all => Some true
  | Term_id i => Some (value_eq (col d "id") (VStr i))
  | Bool_must must =>
      foldr (fun c acc => b1 ← matches_clause d c; b2 ← acc; Some (b1 && b2))
        (Some true) must
  end.

(** The documents a search query keeps. *)
Definition es_select (q : EsQuery) (docs : list Row) : option (list Row) :=
  if forallb (fun d => bool_decide (is_Some (matches d (Translator.query (body q))))) docs
  then Some (filter (fun d => matches d (Translator.query (body q)) = Some true) docs)
  else None.

Definition keys (rows : list Row) : list Value := map (fun r => col r "id") rows.

(** *** The location statistics statement *)

Record StatRow : Type := {
  st_location : string;
  st_count : Z;
  average_salary : Q;
  min_salary : Q;
  max_salary : Q;
  median_salary : Q
}.

Fixpoint insert_sorted {A} (le : A -> A -> bool) (x : A) (l : list A) : list A :=
  match l with
  | [] => [x]
  | y :: l' => if le x y then x :: l else y :: insert_sorted le x l'
  end.

Definition sort_by {A} (le : A -> A -> bool) (l : list A) : list A :=
  foldr (insert_sorted le) [] l.

Definition Qsum (l : list Q) : Q := foldr Qplus 0%Q l.

Definition Qavg (l : list Q) : Q := (Qsum l / inject_Z (Z.of_nat (length l)))%Q.

Definition Qmin_list (l : list Q) : Q :=
  match sort_by Qle_bool l with x :: _ => x | [] => 0%Q end.

Definition Qmax_list (l : list Q) : Q :=
  match sort_by (fun a b => Qle_bool b a) l with x :: _ => x | [] => 0%Q end.

(** [PERCENTILE_CONT(0.5)]: the middle value, or the mean of the two
    middle values. *)
Definition Qmedian (l : list Q) : Q :=
  let s := sort_by Qle_bool l in
  let n := length s in
  if Nat.even n
  then ((nth (n / 2 - 1) s 0 + nth (n / 2) s 0) / 2)%Q
  else nth (n / 2) s 0%Q.

(** [annual_base_pay::DECIMAL / 100] of a row that passes
    [location IS NOT NULL AND annual_base_pay IS NOT NULL AND annual_base_pay > 0]. *)
Definition salary_at (r : Row) : option (string * Q) :=
  match col r "location", col r "annual_base_pay" with
  | VStr l, VNum p => if Qltb 0 p then Some (l, (p / 100)%Q) else None
  | _, _ => None
  end.

(** [GROUP BY location], groups in order of first appearance. *)
Fixpoint group_by (l : list (string * Q)) : list (string * list Q) :=
  match l with
  | [] => []
  | (k, v) :: l' =>
      let g := group_by l' in
      match List.find (fun kv => String.eqb (fst kv) k) g with
      | Some _ =>
          map (fun kv => if String.eqb (fst kv) k then (k, v :: snd kv) else kv) g
      | None => (k, [v]) :: g
      end
  end.

Definition stat_row (g : string * list Q) : StatRow :=
  {| st_location := fst g;
     st_count := Z.of_nat (length (snd g));
     average_salary := Qavg (snd g);
     min_salary := Qmin_list (snd g);
     max_salary := Qmax_list (snd g);
     median_salary := Qmedian (snd g) |}.

(** [LIMIT $n]: NULL is no limit, a negative limit is an error. *)
Definition sql_limit {A} (v : option Value) (l : list A) : Outcome (list A) :=
  match v with
  | Some VNull => Returned l
  | Some (VNum n) =>
      if Qltb n 0 then Thrown "LIMIT must not be negative"
      else Returned (take (Z.to_nat (Qfloor n)) l)
  | _ => Thrown "invalid input syntax for type bigint"
  end.

(** The statement of [Query.locationStats] over [table]; its last
    parameter is the limit. *)
Definition location_stats (table : list Row) (w : WhereClause)
    (params : list Value) : Outcome (list StatRow) :=
  let kept :=
    filter (fun r => forallb (holds params r) (whereConditions w) = true) table in
  let groups := group_by (omap salary_at kept) in
  let having := filter (fun g => (3 <=? length (snd g))%nat = true) groups in
  let ordered :=
    sort_by (fun a b => Qle_bool (average_salary b) (average_salary a))
      (map stat_row having) in
  sql_limit (last params) ordered.

End Stores.

(** ** Aggregates: [Query.locationStats] *)

Module Aggregates.
Import Translator Stores.

Record LocationStats : Type := {
  location : string;
  count : Z;
  averageSalary : Q;
  medianSalary : Q;
  minSalary : Z;
  maxSalary : Z
}.

(** [Math.round] *)
Definition round (q : Q) : Z := Qfloor (q + (1 # 2))%Q.

Section WithPool.

(** What the pool answers to the statistics statement built from a
    [WHERE] clause and the parameters. *)
Variable query : WhereClause -> list Value -> Outcome (list StatRow).

(** The [limit] argument defaults to 10 when it is [undefined]. *)
Definition locationStats (filter : option Filter) (limit : jsopt Z)
    : Outcome (list LocationStats) :=
  let limit' := match limit with Undefined => VInt 10 | l => of_jsopt VInt l end in
  let w := buildWhereClause filter in
  match query w (whereParams w ++ [limit']) with
  | Returned rows =>
      Returned
        (map (fun row =>
                {| location := st_location row;
                   count := st_count row;
                   averageSalary := average_salary row;
                   medianSalary := median_salary row;
                   minSalary := round (min_salary row * 100);
                   maxSalary := round (max_salary row * 100) |}) rows)
  | Thrown _ => Thrown "Failed to fetch location statistics"
  end.

End WithPool.

End Aggregates.

(** * Runs, observations and fixtures

    What the properties below say about a run is read off its trace and its
    outcome with the functions of this part; the fixtures are the concrete
    stores and requests of the scenarios. *)

Module TransformerFixtures.
Import Transformer.

(** A row with the given base pay and bonus in cents and no stock, the
    amounts being numbers. *)
Definition paid (base : Z) (bonus : option Z) : CompensationRecord :=
  {| id := "k1"; annual_base_pay := Some (ANum base); annual_bonus := ANum <$> bonus;
     stock_value := None; years_experience_industry := None;
     location := None; other := ∅ |}.

(** A row as it is read from the relational store: the base pay is a text,
    bonus and stock are NULL. *)
Definition stored (base : string) : CompensationRecord :=
  {| id := "k1"; annual_base_pay := Some (AText base); annual_bonus := None;
     stock_value := None; years_experience_industry := None;
     location := None; other := ∅ |}.

(** A row paid 1 unit of currency (100 cents) and nothing else. *)
Definition entry_record : CompensationRecord := paid 100 None.

End TransformerFixtures.

Module RouterRuns.
Import Translator Router.

Definition outcome_map {A B} (f : A -> B) (o : Outcome A) : Outcome B :=
  match o with Returned a => Returned (f a) | Thrown e => Thrown e end.

Definition untagged (r : PgResult) : QueryResult :=
  {| rows := pg_rows r; rowCount := pg_rowCount r; source := None |}.

Definition from_relational (r : PgResult) : QueryResult :=
  {| rows := pg_rows r; rowCount := pg_rowCount r; source := Some "postgresql" |}.

Definition from_search (h : Hits) : QueryResult :=
  {| rows := map hit_row (hits h);
     rowCount := Z.of_nat (length (hits h));
     source := Some "elasticsearch" |}.

(** A response is clean when [search] hands it back: it has [hits] and
    [hits.total]. *)
Definition clean_hits (r : EsResult) : option Hits :=
  h ← hits_of r; _ ← total h; Some h.

Section Runs.
Variable client_search : EsQuery -> Outcome EsResult.
Variable pool_query : string -> list Value -> Outcome PgResult.
Variable filter : option Filter.
Variable sort : option (list SortItem).
Variable pagination : option Pagination.

(** What [search] gives its caller. *)
Definition search_outcome (q : EsQuery) : Outcome EsResult :=
  match client_search q with
  | Returned r =>
      match clean_hits r with
      | Some _ => Returned r
      | None => Thrown "TypeError: Cannot read properties of undefined"
      end
  | Thrown e => Thrown e
  end.

Definition esQuery : EsQuery := buildElasticSearchQuery filter sort pagination.

Definition count_request : Event :=
  let w := buildWhereClause filter in
  PgQuery (countQuery w) (whereParams w).

Definition data_request : Event :=
  let w := buildWhereClause filter in
  PgQuery (dataQuery w (buildOrderByClause sort))
    (whereParams w ++ [VInt (pageLimit pagination); VInt (pageOffset pagination)]).

(** The page the search answer becomes, when it is taken. *)
Definition search_page : option Connection :=
  match search_outcome esQuery with
  | Returned r =>
      match hits_of r with
      | Some h =>
          if truthy_total (total h)
          then Some (page (map hit_row (hits h)) (total_value <$> total h)
                       (pageLimit pagination) (pageOffset pagination)
                       "elasticsearch")
          else None
      | None => None
      end
  | Thrown _ => None
  end.

(** The relational path of the resolver, from the trace [t1]. *)
Definition relational_page (t1 : Trace) : Trace * Outcome Connection :=
  let w := buildWhereClause filter in
  match pool_query (countQuery w) (whereParams w) with
  | Thrown _ => (t1 ++ [count_request], Thrown "Failed to fetch compensations")
  | Returned countResult =>
      match pg_rows countResult with
      | [] => (t1 ++ [count_request], Thrown "Failed to fetch compensations")
      | row0 :: _ =>
          (t1 ++ [count_request; data_request],
           match pool_query (dataQuery w (buildOrderByClause sort))
                   (whereParams w
                    ++ [VInt (pageLimit pagination); VInt (pageOffset pagination)]) with
           | Returned dataResult =>
               Returned (page (pg_rows dataResult) (parseInt (row0 !! "total"))
                           (pageLimit pagination) (pageOffset pagination)
                           "postgresql")
           | Thrown _ => Thrown "Failed to fetch compensations"
           end)
      end
  end.

End Runs.

End RouterRuns.

Module RouterFixtures.
Import Translator Router.

Definition row1 : Row := {["id" := VStr "r1"]}.

(** The search request for one record by key; of the body only [query] is
    sent, the page fields are placeholders. *)
Definition by_id : EsQuery :=
  {| index := "compensation_data";
     body := {| Translator.query := Term_id "r1"; sort := []; from := 0; size := 10 |} |}.

(** A search store that is down. *)
Definition search_down : EsQuery -> Outcome EsResult :=
  fun _ => Thrown "ConnectionError: connect ECONNREFUSED".

(** A search store that answers cleanly with no hit, the total given as an
    object or as a number. *)
Definition search_empty : EsQuery -> Outcome EsResult :=
  fun _ => Returned {| hits_of := Some {| hits := []; total := Some (TotalObject 0) |} |}.

Definition search_empty_number : EsQuery -> Outcome EsResult :=
  fun _ => Returned {| hits_of := Some {| hits := []; total := Some (TotalNumber 0) |} |}.

(** A search store that answers with one hit of 101 matches. *)
Definition search_one_hit : EsQuery -> Outcome EsResult :=
  fun _ => Returned {| hits_of := Some {| hits := [{| _id := "r1"; _source := ∅ |}];
                                          total := Some (TotalObject 101) |} |}.

(** A relational store that holds [row1]. *)
Definition pool_one_row : string -> list Value -> Outcome PgResult :=
  fun text _ =>
    if String.prefix "SELECT COUNT" text
    then Returned {| pg_rows := [{["total" := VStr "1"]}]; pg_rowCount := 1 |}
    else Returned {| pg_rows := [row1]; pg_rowCount := 1 |}.

Definition pool_down : string -> list Value -> Outcome PgResult :=
  fun _ _ => Thrown "Connection terminated unexpectedly".

Definition by_id_text : string := "SELECT * FROM compensation_data WHERE id = $1".

Definition page500 : option Pagination := Some {| limit := Some 500; offset := None |}.

End RouterFixtures.

Module StreamerRuns.
Import Transformer Streamer.

(** The number of bulk requests in a trace: the index of the next one. *)
Definition nb (t : Trace) : nat := length (filter (fun e => is_bulk e = true) t).

Definition fetches (t : Trace) : list (Z * Z) :=
  omap (fun e => match e with PgFetch l o => Some (l, o) | _ => None end) t.

Definition bulks (t : Trace) : list (list BulkOp) :=
  omap (fun e => match e with EsBulk b => Some b | _ => None end) t.

Definition counts (t : Trace) : list unit :=
  omap (fun e => match e with PgCount => Some tt | _ => None end) t.

Definition sleeps (t : Trace) : list Z :=
  omap (fun e => match e with Sleep ms => Some ms | _ => None end) t.

(** The window that starts at row [1000 * k]. *)
Definition window (table : list CompensationRecord) (k : nat) : list CompensationRecord :=
  take (Z.to_nat BATCH_SIZE) (drop (Z.to_nat (BATCH_SIZE * Z.of_nat k)) table).

(** The number of windows over [n] rows. *)
Definition window_count (n : nat) : nat :=
  Z.to_nat ((Z.of_nat n + (BATCH_SIZE - 1)) / BATCH_SIZE).

Definition succeeded (records : list CompensationRecord) (resp : BulkResponse)
    (c : Counters) : Counters :=
  let errorCount :=
    Z.of_nat (length (filter (fun item => index_error item = true) (items resp))) in
  {| offset := offset c;
     processedRecords := processedRecords c + Z.of_nat (length records);
     failedRecords :=
       if (errors resp && (0 <? errorCount))%bool
       then failedRecords c + errorCount else failedRecords c |}.

Definition gave_up (records : list CompensationRecord) (c : Counters) : Counters :=
  {| offset := offset c;
     processedRecords := processedRecords c;
     failedRecords := failedRecords c + Z.of_nat (length records) |}.


(** The number of the offsets 0, 1000, 2000, ... that lie below [total]. *)
Definition offsets_below (total : Z) : nat :=
  Z.to_nat ((total + (BATCH_SIZE - 1)) / BATCH_SIZE).

(** No bulk request meets a transport error. *)
Definition never_throws (bulk_reply : nat -> list BulkOp -> Outcome BulkResponse) : Prop :=
  forall m b, exists r, bulk_reply m b = Returned r.

(** 2,500 rows with distinct keys. *)
Definition table2500 : list CompensationRecord :=
  map (fun i => {| id := pretty i; annual_base_pay := Some (AText "12000000");
                   annual_bonus := None; stock_value := None;
                   years_experience_industry := None; location := None;
                   other := ∅ |}) (seq 0 2500).

(** The first 1,500 of them: what is left when 1,000 rows were deleted
    after the count. *)
Definition table1500 : list CompensationRecord := take 1500 table2500.

Definition bulk_ok : nat -> list BulkOp -> Outcome BulkResponse :=
  fun _ _ => Returned {| errors := false; items := [] |}.

(** The first three bulk requests meet a transport error. *)
Definition bulk_first_window_down : nat -> list BulkOp -> Outcome BulkResponse :=
  fun n _ =>
    if (n <? 3)%nat then Thrown "ConnectionError: socket hang up"
    else Returned {| errors := false; items := [] |}.

End StreamerRuns.

Module CaptureRuns.
Import Transformer Streamer.

Definition delete_event (k : string) (data : option CompensationRecord) : option Payload :=
  Some {| operation := "DELETE"; payload_id := k; payload_data := data |}.

(** A document held under the key k1. *)
Definition k1_doc : SearchDocument := transformRecord TransformerFixtures.entry_record.

End CaptureRuns.

Module EquivalenceFixtures.
Import Translator Router Stores.

(** A filter with the boolean slot only. *)
Definition insured_only : Filter :=
  {| employer := None; jobTitleContains := None; locationContains := None;
     industry := None; gender := None; annualBasePay := None;
     yearsExperienceIndustry := None; timestampAfter := None;
     timestampBefore := None; healthInsuranceOffered := Val true;
     dataQualityScoreMin := Undefined |}.

(** Two rows, held by both stores. *)
Definition r1 : Row :=
  {["id" := VStr "r1"; "health_insurance_offered" := VBool true]}.
Definition r2 : Row :=
  {["id" := VStr "r2"; "health_insurance_offered" := VBool false]}.

Definition by_base_pay : option (list SortItem) :=
  Some [{| field := "ANNUAL_BASE_PAY"; direction := "DESC" |}].

End EquivalenceFixtures.

Module AggregateFixtures.
Import Translator Router Stores Aggregates.

Definition sf_row (key : string) (cents : Z) : Row :=
  {["id" := VStr key; "location" := VStr "San Francisco";
    "annual_base_pay" := VInt cents]}.

(** The three rows of the scenario. *)
Definition sf_table : list Row :=
  [sf_row "a" 12000000; sf_row "b" 11000000; sf_row "c" 9500000].

(** [locationStats] with no filter and the default limit, over a table. *)
Definition stats_of (table : list Row) : Outcome (list LocationStats) :=
  locationStats (location_stats table) None Undefined.

End AggregateFixtures.

(** ** More resolvers: [centsToDollars], [Query.compensation],
       [aggregate], [aggregateWithFallback], [Query.compensationStats],
       [Query.health] *)

Module Resolvers.
Import Translator Router.

(** What [centsToDollars] returns: [null], NaN or a whole number. *)
Inductive Dollars : Type :=
| DNull
| DNaN
| DWhole (d : Z).

(** [cents ? Math.round(cents / 100) : null] *)
Definition centsToDollars (cents : option Amount) : Dollars :=
  match cents with
  | Some a =>
      if truthy_amount cents then
        match to_number a with
        | Some n => DWhole (Aggregates.round (inject_Z n / 100))
        | None => DNaN
        end
      else DNull
  | None => DNull
  end.

(** The [totalCompensation] field of [CompensationData]. *)
Definition totalCompensation (parent : Transformer.CompensationRecord) : Dollars :=
  let base := or_zero (Transformer.annual_base_pay parent) in
  let bonus := or_zero (Transformer.annual_bonus parent) in
  let stock := or_zero (Transformer.stock_value parent) in
  centsToDollars (Some (plus (plus base bonus) stock)).



(** A value of an aggregation answer: [null], a number or an object. *)
#[warnings="-register-all"]
Inductive Json : Type :=
| JNull
| JNum (q : Q)
| JObj (fields : list (string * Json)).

(** Truthiness; [None] is [undefined]. *)
Definition truthy (x : option Json) : bool :=
  match x with
  | Some (JNum q) => negb (Qeq_bool q 0)
  | Some (JObj _) => true
  | _ => false
  end.

Definition field (k : string) (fields : list (string * Json)) : option Json :=
  snd <$> List.find (fun kv => String.eqb (fst kv) k) fields.

(** [x.k]: a TypeError on [undefined] and [null], [undefined] on a number. *)
Definition prop {S} (x : option Json) (k : string) : M S (option Json) :=
  match x with
  | Some (JObj fields) => ret (field k fields)
  | Some (JNum _) => ret None
  | _ => throw "TypeError: Cannot read properties of undefined"
  end.

(** A number or NaN ([None]). *)
Abbreviation Num := (option Q).

(** The number a value becomes in arithmetic: [null] is 0, [undefined] and
    objects are NaN. *)
Definition toNumber (x : option Json) : Num :=
  match x with
  | Some JNull => Some 0%Q
  | Some (JNum q) => Some q
  | _ => None
  end.

(** [parseFloat] and [parseInt] of a value: only a number is read back. *)
Definition parseFloatJ (x : option Json) : Num :=
  match x with Some (JNum q) => Some q | _ => None end.

Definition parseIntJ (x : option Json) : option Z :=
  match x with Some (JNum q) => Some (Z.quot (Qnum q) (Z.pos (Qden q))) | _ => None end.

Definition div100 (x : Num) : Num := (fun q => q / 100)%Q <$> x.

(** [Math.round(x * 100)] *)
Definition round100 (x : Num) : option Z := (fun q => Aggregates.round (q * 100)) <$> x.

(** The request of [compensationStats] to the search store. *)
Record EsAggQuery : Type := {
  agg_index : string;
  agg_query : QueryDsl;
  agg_size : Z;
  aggs : list (string * (string * string))
}.

(** The row of the relational statistics statement; [None] is NULL. *)
Record StatsRow : Type := {
  r_count : Z;
  r_average_salary : Num;
  r_min_salary : Num;
  r_max_salary : Num;
  r_q1_salary : Num;
  r_median_salary : Num;
  r_q3_salary : Num;
  r_standard_deviation : Num;
  r_average_experience : Num;
  r_min_experience : Num;
  r_max_experience : Num;
  r_median_experience : Num
}.

(** What [aggregateWithFallback] returns: [{ source: 'elasticsearch',
    aggregations }], or the relational result with or without a source. *)
Inductive AggResult : Type :=
| FromSearch (aggregations : option Json)
| FromPool (rows : list StatsRow) (source : option string).

Inductive AggEvent : Type :=
| EsAggregate (q : EsAggQuery)
| PgAggregate (w : WhereClause) (params : list Value).

Record CompensationStats : Type := {
  count : option Z;
  averageSalary : Num;
  medianSalary : Num;
  minSalary : option Z;
  maxSalary : option Z;
  q1Salary : Num;
  q3Salary : Num;
  standardDeviation : Num;
  averageExperience : Num;
  medianExperience : Num;
  minExperience : Num;
  maxExperience : Num
}.

(** What [Query.health] returns, without the clock and the version. *)
Record Health : Type := {
  status : string;
  postgres : string;
  elasticsearch : string;
  redis : string;
  fallbackEnabled : bool
}.

Section WithStores.

Variable ENABLE_FALLBACK : bool.
Variable client_search : EsQuery -> Outcome EsResult.
Variable pool_query : string -> list Value -> Outcome PgResult.
(** [response.aggregations] of the search client for an aggregation request;
    [None] is [undefined]. *)
Variable client_aggregations : EsAggQuery -> Outcome (option Json).
(** What the pool answers to the statistics statement built from a [WHERE]
    clause and the parameters. *)
Variable pool_stats : WhereClause -> list Value -> Outcome (list StatsRow).
Variable client_ping : Outcome unit.


Definition note (e : AggEvent) : M (list AggEvent) unit := modify (fun t => t ++ [e]).

(** [aggregate] of the search module: it hands back [response.aggregations]. *)
Definition aggregate (q : EsAggQuery) : M (list AggEvent) (option Json) :=
  try_catch
    (run! note (EsAggregate q) in
     lift_outcome (client_aggregations q))
    (fun error => throw error).

Definition query_stats (w : WhereClause) (params : list Value)
    : M (list AggEvent) (list StatsRow) :=
  try_catch
    (run! note (PgAggregate w params) in
     lift_outcome (pool_stats w params))
    (fun error => throw error).

Definition aggregateWithFallback (esAggQuery : EsAggQuery) (pgAggQuery : WhereClause)
    (pgParams : list Value) : M (list AggEvent) AggResult :=
  if negb ENABLE_FALLBACK then
    let! r := query_stats pgAggQuery pgParams in
    ret (FromPool r None)
  else
    let! fromSearch :=
      try_catch
        (let! esResult := aggregate esAggQuery in
         if truthy esResult then
           let! inner := prop esResult "aggregations" in
           if truthy inner then ret (Some (FromSearch inner)) else ret None
         else ret None)
        (fun error => ret None) in
    match fromSearch with
    | Some r => ret r
    | None =>
        (* Fallback to PostgreSQL *)
        let! pgResult := query_stats pgAggQuery pgParams in
        ret (FromPool pgResult (Some "postgresql"))
    end.

Definition statsQuery (filter : option Filter) : EsAggQuery :=
  {| agg_index := "compensation_data";
     agg_query :=
       match filter with
       | Some f => Translator.query (body (buildElasticSearchQuery (Some f) None None))
       | None => Match_all
       end;
     agg_size := 0;
     aggs := [("stats", ("extended_stats", "annual_base_pay"));
              ("experience_stats", ("extended_stats", "years_experience_industry"))] |}.

(** The statistics read off the answer of the search store: the mean stands
    for the median and the quartiles. *)
Definition stats_of_search {S} (aggregations : option Json) : M S CompensationStats :=
  let! salaryStats := prop aggregations "stats" in
  let! expStats := prop aggregations "experience_stats" in
  let! s_count := prop salaryStats "count" in
  let! s_avg := prop salaryStats "avg" in
  let! s_min := prop salaryStats "min" in
  let! s_max := prop salaryStats "max" in
  let! s_std := prop salaryStats "std_deviation" in
  let! e_avg := prop expStats "avg" in
  let! e_min := prop expStats "min" in
  let! e_max := prop expStats "max" in
  ret {| count := parseIntJ s_count;
         averageSalary := div100 (toNumber s_avg);
         medianSalary := div100 (toNumber s_avg);
         minSalary := round100 (div100 (toNumber s_min));
         maxSalary := round100 (div100 (toNumber s_max));
         q1Salary := div100 (toNumber s_avg);
         q3Salary := div100 (toNumber s_avg);
         standardDeviation := div100 (toNumber s_std);
         averageExperience := parseFloatJ e_avg;
         medianExperience := parseFloatJ e_avg;
         minExperience := parseFloatJ e_min;
         maxExperience := parseFloatJ e_max |}.

(** The statistics read off [result.rows[0]]. *)
Definition stats_of_pool {S} (rows : list StatsRow) : M S CompensationStats :=
  match rows with
  | [] => throw "TypeError: Cannot read properties of undefined"
  | stats :: _ =>
      ret {| count := Some (r_count stats);
             averageSalary := r_average_salary stats;
             medianSalary := r_median_salary stats;
             minSalary := round100 (Some (default 0%Q (r_min_salary stats)));
             maxSalary := round100 (Some (default 0%Q (r_max_salary stats)));
             q1Salary := r_q1_salary stats;
             q3Salary := r_q3_salary stats;
             standardDeviation := r_standard_deviation stats;
             averageExperience := r_average_experience stats;
             medianExperience := r_median_experience stats;
             minExperience := r_min_experience stats;
             maxExperience := r_max_experience stats |}
  end.

Definition compensationStats (filter : option Filter)
    : M (list AggEvent) CompensationStats :=
  try_catch
    (let w := buildWhereClause filter in
     let! result := aggregateWithFallback (statsQuery filter) w (whereParams w) in
     match result with
     | FromSearch aggregations => stats_of_search aggregations
     | FromPool rows _ => stats_of_pool rows
     end)
    (fun error => throw "Failed to calculate compensation statistics").

(** [Query.health]; the relational probe is [query('SELECT 1')]. *)
Definition health : M Trace Health :=
  try_catch
    (let! pgResult := query pool_query "SELECT 1" [] in
     let pgStatus :=
       if (0 <? length (pg_rows pgResult))%nat then "connected" else "disconnected" in
     let! esStatus :=
       try_catch (run! lift_outcome client_ping in ret "connected")
         (fun esError => ret "disconnected") in
     ret {| status := "healthy"; postgres := pgStatus; elasticsearch := esStatus;
            redis := "optional"; fallbackEnabled := ENABLE_FALLBACK |})
    (fun error =>
       ret {| status := "unhealthy"; postgres := "disconnected";
              elasticsearch := "unknown"; redis := "unknown";
              fallbackEnabled := ENABLE_FALLBACK |}).

End WithStores.

End Resolvers.

(** ** Observations on the translators *)

Module TranslatorRuns.
Import Translator.


(** The columns [buildOrderByClause] can name. *)
Definition allow_list : list string :=
  ["timestamp"; "annual_base_pay"; "annual_bonus"; "years_experience_industry";
   "years_experience_company"; "created_at"].

End TranslatorRuns.

(** ** The slots both translators read alike *)

Module EquivalenceRuns.
Import Translator.

(** A range slot with at least one bound, none of them [null]. *)
Definition plain_range {A} (r : option (Range A)) : bool :=
  match r with
  | None => true
  | Some r' =>
      match min r', max r' with
      | Null, _ | _, Null => false
      | Undefined, Undefined => false
      | _, _ => true
      end
  end.

(** Filters that set only the industry slot and range slots with plain
    bounds: no fuzzy-text slot, no gender, no date, boolean or quality slot. *)
Definition common_fragment (f : Filter) : bool :=
  negb (has_fuzzy_slot f)
  && negb (bool_decide (is_Some (truthy_string (gender f))))
  && plain_range (annualBasePay f)
  && plain_range (yearsExperienceIndustry f)
  && match timestampAfter f, timestampBefore f,
           healthInsuranceOffered f, dataQualityScoreMin f with
     | None, None, Undefined, Undefined => true
     | _, _, _, _ => false
     end.

(** A filter of the fragment: an industry and a range of base pay. *)
Definition tech_paid (lo hi : Z) : Filter :=
  {| employer := None; jobTitleContains := None; locationContains := None;
     industry := Some "Tech"; gender := None;
     annualBasePay := Some {| min := Val lo; max := Val hi |};
     yearsExperienceIndustry := None; timestampAfter := None;
     timestampBefore := None; healthInsuranceOffered := Undefined;
     dataQualityScoreMin := Undefined |}.

End EquivalenceRuns.

Module ResolverFixtures.
Import Translator Router Resolvers.

Definition tech_row (key : string) (industry' : string) (cents : Value) : Row :=
  {["id" := VStr key; "industry" := VStr industry'; "annual_base_pay" := cents]}.

(** A table with a row inside the range, one outside it, one of another
    industry and one without base pay. *)
Definition tech_table : list Row :=
  [tech_row "a" "Tech" (VInt 12000000); tech_row "b" "Tech" (VInt 20000000);
   tech_row "c" "Retail" (VInt 12000000); tech_row "d" "Tech" VNull].

(** An extended-statistics answer with the given mean. *)
Definition extended (n mean lo hi : Q) : Json :=
  JObj [("count", JNum n); ("min", JNum lo); ("max", JNum hi); ("avg", JNum mean);
        ("std_deviation", JNum 0%Q)].

(** The answer of the search store to the statistics request, under the
    names the request gives its aggregations. *)
Definition named_answer : Json :=
  JObj [("stats", extended 3%Q 10833333%Q 9500000%Q 12000000%Q);
        ("experience_stats", extended 3%Q 5%Q 2%Q 8%Q)].

(** The same answer wrapped in a member named [aggregations]. *)
Definition wrapped_answer : Json := JObj [("aggregations", named_answer)].

Definition stats_row : StatsRow :=
  {| r_count := 3; r_average_salary := Some (325000 # 3)%Q;
     r_min_salary := Some 95000%Q; r_max_salary := Some 120000%Q;
     r_q1_salary := Some 102500%Q; r_median_salary := Some 110000%Q;
     r_q3_salary := Some 115000%Q; r_standard_deviation := Some 12583%Q;
     r_average_experience := Some 5%Q; r_min_experience := Some 2%Q;
     r_max_experience := Some 8%Q; r_median_experience := Some 5%Q |}.

Definition pool_stats_one : WhereClause -> list Value -> Outcome (list StatsRow) :=
  fun _ _ => Returned [stats_row].

Definition pool_stats_down : WhereClause -> list Value -> Outcome (list StatsRow) :=
  fun _ _ => Thrown "Connection terminated unexpectedly".

(** The member the router looks for in the answer of [aggregate]. *)
Definition taken (answer : Outcome (option Json)) : option Json :=
  match answer with
  | Returned (Some (JObj fields)) =>
      if truthy (field "aggregations" fields) then field "aggregations" fields else None
  | _ => None
  end.

End ResolverFixtures.

(** ** Observations on the streamer *)

Module StreamerObs.
Import Transformer Streamer.

(** Years of experience with an absent value counted as zero. *)
Definition experience (r : CompensationRecord) : Q :=
  default 0%Q (years_experience_industry r).


(** The store after a notification, with the search store of [es_index] and
    [es_delete]. *)
Definition after (msg : option Payload) (s : HState) : HState :=
  (on_notification es_index es_delete msg s).1.

Definition event (op : string) (k : string) (data : option CompensationRecord)
    : option Payload :=
  Some {| operation := op; payload_id := k; payload_data := data |}.

(** Three rows, and a bulk answer that rejects one item. *)
Definition three_rows : list CompensationRecord :=
  [TransformerFixtures.paid 100 None; TransformerFixtures.paid 200 None;
   TransformerFixtures.paid 300 None].


End StreamerObs.

(** ** Engineer statistics: [Query.engineerCompensationStats] *)

Module Engineer.
Import Translator.

(** [{ ...filter, jobTitleContains: 'engineer' }]; [filter] may be
    [undefined]. *)
Definition engineerFilter (filter : option Filter) : Filter :=
  match filter with
  | Some f =>
      {| employer := employer f; jobTitleContains := Some "engineer";
         locationContains := locationContains f; industry := industry f;
         gender := gender f; annualBasePay := annualBasePay f;
         yearsExperienceIndustry := yearsExperienceIndustry f;
         timestampAfter := timestampAfter f; timestampBefore := timestampBefore f;
         healthInsuranceOffered := healthInsuranceOffered f;
         dataQualityScoreMin := dataQualityScoreMin f |}
  | None =>
      {| employer := None; jobTitleContains := Some "engineer";
         locationContains := None; industry := None; gender := None;
         annualBasePay := None; yearsExperienceIndustry := None;
         timestampAfter := None; timestampBefore := None;
         healthInsuranceOffered := Undefined; dataQualityScoreMin := Undefined |}
  end.

Definition engineerWhere (filter : option Filter) : WhereClause :=
  buildWhereClause (Some (engineerFilter filter)).

(** [whereClause ? 'AND' : 'WHERE'] before the conditions on the base pay. *)
Definition engineerJoin (filter : option Filter) : string :=
  if String.eqb (whereClause (engineerWhere filter)) "" then "WHERE" else "AND".

(** The filter with another value in the slot of the job title. *)
Definition with_job_title (x : option string) (f : Filter) : Filter :=
  {| employer := employer f; jobTitleContains := x;
     locationContains := locationContains f; industry := industry f;
     gender := gender f; annualBasePay := annualBasePay f;
     yearsExperienceIndustry := yearsExperienceIndustry f;
     timestampAfter := timestampAfter f; timestampBefore := timestampBefore f;
     healthInsuranceOffered := healthInsuranceOffered f;
     dataQualityScoreMin := dataQualityScoreMin f |}.

(** The condition at position [i] and its parameter. *)
Definition has (i : nat) (c : Condition) (v : Value) (acc : Acc) : Prop :=
  conditions acc !! i = Some c /\ params acc !! i = Some v.

End Engineer.

(** ** Transactions on the pool: [transaction] *)

Module Connection.

Inductive TxEvent : Type :=
| Acquire
| Stmt (text : string)
| Release.

Abbreviation TxTrace := (list TxEvent).

(** [try { m } finally { f }]: [f] runs whatever [m] did; what [f] throws
    replaces the outcome of [m]. *)
Definition try_finally {S A} (m : M S A) (f : M S unit) : M S A :=
  fun s =>
    match m s with
    | (s1, o) =>
        match f s1 with
        | (s2, Returned _) => (s2, o)
        | (s2, Thrown e) => (s2, Thrown e)
        end
    end.

Section WithPool.

Variable pool_connect : Outcome unit.
(** What the client answers to a statement. *)
Variable client_reply : string -> Outcome unit.

Definition connect : M TxTrace unit :=
  fun t =>
    match pool_connect with
    | Returned _ => (t ++ [Acquire], Returned tt)
    | Thrown e => (t, Thrown e)
    end.

Definition client_query (text : string) : M TxTrace unit :=
  run! modify (fun t => t ++ [Stmt text]) in
  lift_outcome (client_reply text).

Definition release : M TxTrace unit := modify (fun t => t ++ [Release]).

Definition transaction {A} (callback : M TxTrace A) : M TxTrace A :=
  run! connect in
  try_finally
    (try_catch
       (run! client_query "BEGIN" in
        let! result := callback in
        run! client_query "COMMIT" in
        ret result)
       (fun error =>
          run! client_query "ROLLBACK" in
          throw error))
    release.

End WithPool.

(** A callback that issues one statement on the client and returns 1. *)
Definition one_update (client_reply : string -> Outcome unit) : M TxTrace Z :=
  run! client_query client_reply "UPDATE compensation_data SET gender = NULL" in
  ret 1.

Definition all_fine : string -> Outcome unit := fun _ => Returned tt.

Definition commit_fails : string -> Outcome unit :=
  fun text => if String.eqb text "COMMIT" then Thrown "deadlock detected" else Returned tt.

End Connection.

(** ** Loader: [insertBatch] and [loadAllCSVData] *)

Module Loader.

(** What [normalizeRecord] returns.  The amounts of money are cents,
    [null] is [None]; the three dates are kept as text. *)
Record LoadRecord : Type := {
  timestamp : string;
  employer : string;
  location : string;
  job_title : string;
  years_experience_industry : option Q;
  years_experience_company : option Q;
  annual_base_pay : option Z;
  signing_bonus : option Z;
  annual_bonus : option Z;
  stock_value : option Z;
  health_insurance_offered : option bool;
  annual_vacation_weeks : option Q;
  industry : string;
  employment_type : string;
  required_hours_per_week : option Q;
  actual_hours_per_week : option Q;
  education_level : string;
  gender : string;
  additional_comments : string;
  data_quality_score : Z;
  source_file : string;
  row_number : Z;
  created_at : string;
  updated_at : string
}.

(** [if (x && x > 99999999999) x = 99999999999] *)
Definition cap_money (x : option Z) : option Z :=
  match x with
  | Some c => if negb (c =? 0) && (99999999999 <? c) then Some 99999999999 else Some c
  | None => None
  end.

(** [if (x && x > 99) x = 50; if (x && x < 0) x = null] *)
Definition cap_years (x : option Q) : option Q :=
  let x1 :=
    match x with
    | Some y => if negb (Qeq_bool y 0) && Qltb 99 y then Some 50%Q else Some y
    | None => None
    end in
  match x1 with
  | Some y => if negb (Qeq_bool y 0) && Qltb y 0 then None else Some y
  | None => None
  end.

(** The callback of [records.map] in [insertBatch]; the warnings it logs
    are left out. *)
Definition validate (index : nat) (record : LoadRecord) : LoadRecord :=
  {| timestamp := timestamp record;
     employer := employer record;
     location := location record;
     job_title := job_title record;
     years_experience_industry := cap_years (years_experience_industry record);
     years_experience_company := cap_years (years_experience_company record);
     annual_base_pay := cap_money (annual_base_pay record);
     signing_bonus := cap_money (signing_bonus record);
     annual_bonus := cap_money (annual_bonus record);
     stock_value := cap_money (stock_value record);
     health_insurance_offered := health_insurance_offered record;
     annual_vacation_weeks := annual_vacation_weeks record;
     industry := industry record;
     employment_type := employment_type record;
     required_hours_per_week := required_hours_per_week record;
     actual_hours_per_week := actual_hours_per_week record;
     education_level := education_level record;
     gender := gender record;
     additional_comments := additional_comments record;
     data_quality_score := data_quality_score record;
     source_file := source_file record;
     row_number := Z.of_nat index + 1;
     created_at := created_at record;
     updated_at := updated_at record |}.

Definition num (x : option Q) : Value :=
  match x with Some q => VNum q | None => VNull end.

Definition cents (x : option Z) : Value :=
  match x with Some c => VInt c | None => VNull end.

Definition flag (x : option bool) : Value :=
  match x with Some b => VBool b | None => VNull end.

(** What [values.push] appends for one record. *)
Definition values_of (record : LoadRecord) : list Value :=
  [VStr (timestamp record); VStr (employer record); VStr (location record);
   VStr (job_title record);
   num (years_experience_industry record); num (years_experience_company record);
   cents (annual_base_pay record); cents (signing_bonus record);
   cents (annual_bonus record);
   cents (stock_value record); flag (health_insurance_offered record);
   num (annual_vacation_weeks record); VStr (industry record);
   VStr (employment_type record);
   num (required_hours_per_week record); num (actual_hours_per_week record);
   VStr (education_level record); VStr (gender record);
   VStr (additional_comments record);
   VInt (data_quality_score record); VStr (source_file record);
   VInt (row_number record);
   VStr (created_at record); VStr (updated_at record)].

(** The numbers [baseIndex + 1] to [baseIndex + 24] of one entry of
    [placeholders]. *)
Definition slots (baseIndex : nat) : list nat :=
  map (fun j => (baseIndex + j)%nat) (seq 1 24).

(** [`($${baseIndex + 1}, ..., $${baseIndex + 24})`] *)
Definition placeholder (numbers : list nat) : string :=
  "(" +:+ String.concat ", " (map (fun n => "$" +:+ pretty n) numbers) +:+ ")".

(** The insert statement: the numbers of its placeholders, one list for
    each record, and its values. *)
Record Statement : Type := {
  placeholders : list (list nat);
  values : list Value
}.

Definition columns : string :=
  "timestamp, employer, location, job_title, years_experience_industry, "
  +:+ "years_experience_company, annual_base_pay, signing_bonus, annual_bonus, "
  +:+ "stock_value, health_insurance_offered, annual_vacation_weeks, industry, "
  +:+ "employment_type, required_hours_per_week, actual_hours_per_week, "
  +:+ "education_level, gender, additional_comments, data_quality_score, "
  +:+ "source_file, row_number, created_at, updated_at".

Definition statement_text (st : Statement) : string :=
  "INSERT INTO compensation_data (" +:+ columns +:+ ") VALUES "
  +:+ String.concat ", " (map placeholder (placeholders st)).

Definition insert_statement (records : list LoadRecord) : Statement :=
  let validatedRecords := imap validate records in
  {| placeholders := imap (fun index _ => slots (index * 24)) validatedRecords;
     values := flat_map values_of validatedRecords |}.

Inductive Event : Type :=
| PgConnect
| PgInsert (st : Statement)
| PgAnalyze
| PgCount
| LogTotal (totalRecords : Z)
| PgSample.

Abbreviation Trace := (list Event).

Definition record (e : Event) : M Trace unit := modify (fun t => t ++ [e]).

Definition batchSize : nat := 100.

Definition csvFiles : list string :=
  ["salary_survey-1.csv"; "salary_survey-2.csv"; "salary_survey-3.csv"].

Section WithPool.

Variable pool_connect : Outcome unit.
(** What the pool answers to an insert statement. *)
Variable pool_insert : Statement -> Outcome unit.
Variable analyze_reply : Outcome unit.
Variable count_reply : Outcome unit.
Variable sample_reply : Outcome unit.
(** [fs.existsSync] on the path of a file, and the records [loadCSVFile]
    resolves with, or the error it rejects with. *)
Variable existsSync : string -> bool.
Variable loadCSVFile : string -> Outcome (list LoadRecord).

Definition insertBatch (records : list LoadRecord) : M Trace unit :=
  if (length records =? 0)%nat then ret tt
  else
    let st := insert_statement records in
    try_catch
      (run! record (PgInsert st) in
       lift_outcome (pool_insert st))
      (fun error => throw error).

(** [for (let i = 0; i < records.length; i += batchSize)]; [None] when the
    fuel is used up. *)
Fixpoint insert_batches (fuel : nat) (records : list LoadRecord) (i : nat)
    : M Trace (option unit) :=
  if (i <? length records)%nat then
    match fuel with
    | O => ret None
    | S fuel' =>
        let batch := take batchSize (drop i records) in
        run! insertBatch batch in
        insert_batches fuel' records (i + batchSize)
    end
  else ret (Some tt).

(** The body of [for (const fileName of csvFiles)]; it gives the new
    [totalRecords]. *)
Definition load_file (fuel : nat) (fileName : string) (totalRecords : Z)
    : M Trace (option Z) :=
  if negb (existsSync fileName) then ret (Some totalRecords)
  else
    try_catch
      (let! records := lift_outcome (loadCSVFile fileName) in
       if (length records =? 0)%nat then ret (Some totalRecords)
       else
         let! r := insert_batches fuel records 0 in
         match r with
         | None => ret None
         | Some _ => ret (Some (totalRecords + Z.of_nat (length records)))
         end)
      (fun error => ret (Some totalRecords)).

Fixpoint load_files (fuel : nat) (files : list string) (totalRecords : Z)
    : M Trace (option Z) :=
  match files with
  | [] => ret (Some totalRecords)
  | fileName :: rest =>
      let! r := load_file fuel fileName totalRecords in
      match r with
      | None => ret None
      | Some totalRecords' => load_files fuel rest totalRecords'
      end
  end.

(** [loadAllCSVData]: the trace and the code the process exits with, 0 at
    the end of the [try] block and 1 in the [catch] block; [None] when the
    fuel is used up.  Both blocks end the process, so the [finally] block
    is not reached. *)
Definition loadAllCSVData (fuel : nat) : Trace -> Trace * option Z :=
  fun t =>
    match
      (run! record PgConnect in
       run! lift_outcome pool_connect in
       let! r := load_files fuel csvFiles 0 in
       match r with
       | None => ret None
       | Some totalRecords =>
           run! record PgAnalyze in
           run! lift_outcome analyze_reply in
           run! record PgCount in
           run! lift_outcome count_reply in
           run! record (LogTotal totalRecords) in
           run! record PgSample in
           run! lift_outcome sample_reply in
           ret (Some tt)
       end) t
    with
    | (t', Returned (Some _)) => (t', Some 0)
    | (t', Returned None) => (t', None)
    | (t', Thrown _) => (t', Some 1)
    end.

End WithPool.

End Loader.

(** ** Observations on the loader *)

Module LoaderRuns.
Import Loader.

(** The amounts of money and the years of a record. *)
Definition amounts (r : LoadRecord) : list (option Z) :=
  [annual_base_pay r; signing_bonus r; annual_bonus r; stock_value r].

Definition years (r : LoadRecord) : list (option Q) :=
  [years_experience_industry r; years_experience_company r].

(** Batch [j] of the records of a file, and the number of batches. *)
Definition batch (records : list LoadRecord) (j : nat) : list LoadRecord :=
  take batchSize (drop (j * batchSize) records).

Definition batch_count (n : nat) : nat := ((n + 99) / 100)%nat.

(** The statements of the batches [j] to [j + k - 1]. *)
Definition sent (records : list LoadRecord) (j k : nat) : Trace :=
  map (fun i => PgInsert (insert_statement (batch records i))) (seq j k).

Definition inserts (t : Trace) : list Statement :=
  omap (fun e => match e with PgInsert st => Some st | _ => None end) t.

(** A record with a base pay and years of experience, the rest fixed. *)
Definition sample (pay : option Z) (exp : option Q) : LoadRecord :=
  {| timestamp := "2019-04-24T11:43:21.000Z"; employer := "Acme";
     location := "Berlin"; job_title := "Engineer";
     years_experience_industry := exp; years_experience_company := None;
     annual_base_pay := pay; signing_bonus := None; annual_bonus := None;
     stock_value := None; health_insurance_offered := None;
     annual_vacation_weeks := None; industry := "Unknown Industry";
     employment_type := "Unknown"; required_hours_per_week := None;
     actual_hours_per_week := None; education_level := "Unknown";
     gender := "Unknown"; additional_comments := EmptyString;
     data_quality_score := 100; source_file := "salary_survey-3.csv";
     row_number := 1; created_at := "2024-01-01T00:00:00.000Z";
     updated_at := "2024-01-01T00:00:00.000Z" |}.

(** A file of 250 records, and a pool that rejects the statements that
    carry the number 123456. *)
Definition file250 : list LoadRecord := replicate 250 (sample (Some 100) None).

Definition accept_all : Statement -> Outcome unit := fun _ => Returned tt.

Definition reject_marked : Statement -> Outcome unit :=
  fun st =>
    if existsb (fun v => Stores.value_eq v (VInt 123456)) (values st)
    then Thrown "value out of range"
    else Returned tt.

End LoaderRuns.

(** ** Loader: the fields of [normalizeRecord]

    The strings of a CSV row are taken to be ASCII. *)

Module Normalizer.

(** The characters [trim] removes and [\s] matches. *)
Definition is_space (c : ascii) : bool :=
  let n := nat_of_ascii c in
  ((9 <=? n)%nat && (n <=? 13)%nat) || (n =? 32)%nat.

Definition is_digit (c : ascii) : bool :=
  let n := nat_of_ascii c in
  (48 <=? n)%nat && (n <=? 57)%nat.

(** The single and the double quote, which [sanitizeString] removes. *)
Definition is_quote (c : ascii) : bool :=
  Ascii.eqb c "'" || Ascii.eqb c (ascii_of_nat 34).

Fixpoint trim_start (l : list ascii) : list ascii :=
  match l with
  | c :: l' => if is_space c then trim_start l' else l
  | [] => []
  end.

Definition trim_chars (l : list ascii) : list ascii :=
  rev (trim_start (rev (trim_start l))).

Definition trim (s : string) : string :=
  String.string_of_list_ascii (trim_chars (String.list_ascii_of_string s)).

Definition sanitizeString (str : option string) : option string :=
  match truthy_string str with
  | None => None
  | Some s =>
      let cleaned :=
        List.filter (fun c => negb (is_quote c))
          (trim_chars (String.list_ascii_of_string s)) in
      if (0 <? length cleaned)%nat then Some (String.string_of_list_ascii cleaned)
      else None
  end.

(** [x || d] on a string that may be [null]. *)
Definition or_text (x : option string) (d : string) : string :=
  match truthy_string x with Some s => s | None => d end.

(** [str.toLowerCase().replace(/[,$\s]/g, '').replace(/[^\d.k]/g, '')] *)
Definition cleanStr (s : string) : list ascii :=
  List.filter (fun c => is_digit c || Ascii.eqb c "." || Ascii.eqb c "k")
    (List.filter (fun c => negb (Ascii.eqb c "," || Ascii.eqb c "$" || is_space c))
       (String.list_ascii_of_string (Translator.toLowerCase s))).

(** [s.includes(c)] and [s.replace(c, '')] for one character. *)
Definition includes (c : ascii) (l : list ascii) : bool :=
  existsb (Ascii.eqb c) l.

Fixpoint remove_first (c : ascii) (l : list ascii) : list ascii :=
  match l with
  | d :: l' => if Ascii.eqb c d then l' else d :: remove_first c l'
  | [] => []
  end.

Section WithParseFloat.

(** [parseFloat]; [None] is NaN. *)
Variable parseFloat : string -> option Q.

Definition parseCurrency (str : option string) : option Z :=
  match truthy_string str with
  | None => None
  | Some s =>
      let cleanStr := cleanStr s in
      if includes "k" cleanStr then
        match parseFloat (String.string_of_list_ascii (remove_first "k" cleanStr)) with
        | Some num => Some (Aggregates.round (num * 1000 * 100))
        | None => None
        end
      else if includes "m" cleanStr then
        match parseFloat (String.string_of_list_ascii (remove_first "m" cleanStr)) with
        | Some num => Some (Aggregates.round (num * 1000000 * 100))
        | None => None
        end
      else
        match parseFloat (String.string_of_list_ascii cleanStr) with
        | Some num => if Qltb 0 num then Some (Aggregates.round (num * 100)) else None
        | None => None
        end
  end.

End WithParseFloat.

(** A mapping of [FIELD_MAPPINGS]: the column of the file for each target
    field, [None] where the file has none. *)
Abbreviation Mapping := (list (string * option string)).

Definition FIELD_MAPPINGS (fileName : string) : option Mapping :=
  if String.eqb fileName "salary_survey-1.csv" then
    Some [("timestamp", Some "Timestamp");
          ("employer", None);
          ("location", Some "Where are you located? (City/state/country)");
          ("job_title", Some "Job title");
          ("years_experience_industry",
           Some "How many years of post-college professional work experience do you have?");
          ("years_experience_company", None);
          ("annual_base_pay", Some "What is your annual salary?");
          ("signing_bonus", None);
          ("annual_bonus", None);
          ("stock_value", None);
          ("health_insurance_offered", None);
          ("annual_vacation_weeks", None);
          ("industry", Some "What industry do you work in?");
          ("employment_type", None);
          ("is_manager", None);
          ("level", None);
          ("required_hours_per_week", None);
          ("actual_hours_per_week", None);
          ("highest_level_of_formal_education", None);
          ("gender", None);
          ("final_question",
           Some "If your job title needs additional context, please clarify here:")]
  else if String.eqb fileName "salary_survey-2.csv" then
    Some [("timestamp", Some "Timestamp");
          ("employer", Some "Company Name");
          ("location", Some "Primary Location (City)");
          ("job_title", Some "Job Title In Company");
          ("years_experience_industry", Some "Years Experience in Industry");
          ("years_experience_company", Some "Years of Experience in Current Company  ");
          ("annual_base_pay", Some "Total Base Salary in 2018 (in USD)");
          ("signing_bonus", None);
          ("annual_bonus", Some "Total Bonus in 2018 (cumulative annual value in USD)");
          ("stock_value",
           Some "Total Stock Options/Equity in 2018 (cumulative annual value in USD)");
          ("health_insurance_offered", Some "Health Insurance Offered");
          ("annual_vacation_weeks", Some "Annual Vacation (in Weeks)");
          ("industry", Some "Industry in Company");
          ("employment_type", Some "Employment Type");
          ("is_manager", None);
          ("level", Some "Job Level");
          ("required_hours_per_week", Some "Required Hours Per Week");
          ("actual_hours_per_week", Some "Actual Hours Per Week");
          ("highest_level_of_formal_education",
           Some "Highest Level of Formal Education Completed");
          ("gender", Some "Gender");
          ("final_question",
           Some ("Final Question: What are the top skills (you define what that means) "
                 +:+ "that you believe will be necessary for job growth in your industry "
                 +:+ "over the next 10 years?"))]
  else if String.eqb fileName "salary_survey-3.csv" then
    Some [("timestamp", Some "Timestamp");
          ("employer", Some "Employer");
          ("location", Some "Location");
          ("job_title", Some "Job Title");
          ("years_experience_industry", Some "Years of Experience");
          ("years_experience_company", Some "Years at Employer");
          ("annual_base_pay", Some "Annual Base Pay");
          ("signing_bonus", Some "Signing Bonus");
          ("annual_bonus", Some "Annual Bonus");
          ("stock_value", Some "Annual Stock Value/Bonus");
          ("health_insurance_offered", None);
          ("annual_vacation_weeks", None);
          ("industry", None);
          ("employment_type", None);
          ("is_manager", None);
          ("level", None);
          ("required_hours_per_week", None);
          ("actual_hours_per_week", None);
          ("highest_level_of_formal_education", None);
          ("gender", Some "Gender");
          ("final_question", Some "Additional Comments")]
  else None.

(** [mappedData]: a field that is [null] or [undefined] has no entry. *)
Definition mapFields (mapping : Mapping) (row : gmap string string)
    : gmap string string :=
  foldl (fun (mappedData : gmap string string) entry =>
           let targetField := fst entry in
           match truthy_string (snd entry) with
           | Some sourceField =>
               match row !! sourceField with
               | Some v => <[targetField := v]> mappedData
               | None => delete targetField mappedData
               end
           | None => delete targetField mappedData
           end) ∅ mapping.

(** [row[field] && row[field].toString().trim()] *)
Definition filled (x : option string) : bool :=
  match truthy_string x with
  | Some s => negb (String.eqb (trim s) "")
  | None => false
  end.

Definition keyFields : list string :=
  ["employer"; "location"; "job_title"; "annual_base_pay"].

Definition calculateDataQuality (row : gmap string string) : Z :=
  let st :=
    foldl (fun (st : Z * Z) field =>
             let total := snd st + 25 in
             if filled (row !! field) then (fst st + 25, total) else (fst st, total))
      (0, 0) keyFields in
  Aggregates.round (inject_Z (fst st) / inject_Z (snd st) * 100).

(** The text columns and the quality score of the record [normalizeRecord]
    returns; the columns read with [parseDate], [parseNumber],
    [parseCurrency] and [parseBoolean] are left out. *)
Record TextColumns : Type := {
  employer : string;
  location : string;
  job_title : string;
  industry : string;
  employment_type : string;
  education_level : string;
  gender : string;
  additional_comments : string;
  data_quality_score : Z;
  source_file : string
}.

Definition normalizeRecord (row : gmap string string) (fileName : string)
    : option TextColumns :=
  match FIELD_MAPPINGS fileName with
  | None => None
  | Some mapping =>
      let mappedData := mapFields mapping row in
      Some
        {| employer := or_text (sanitizeString (mappedData !! "employer")) "Unknown Company";
           location := or_text (sanitizeString (mappedData !! "location")) "Unknown Location";
           job_title :=
             or_text (sanitizeString (mappedData !! "job_title")) "Unknown Position";
           industry := or_text (sanitizeString (mappedData !! "industry")) "Unknown Industry";
           employment_type :=
             or_text (sanitizeString (mappedData !! "employment_type")) "Unknown";
           education_level :=
             or_text (sanitizeString (mappedData !! "highest_level_of_formal_education"))
               "Unknown";
           gender := or_text (sanitizeString (mappedData !! "gender")) "Unknown";
           additional_comments :=
             or_text (sanitizeString (mappedData !! "final_question")) EmptyString;
           data_quality_score := calculateDataQuality mappedData;
           source_file := fileName |}
  end.

End Normalizer.

(** ** Observations on the fields *)

Module NormalizerRuns.
Import Normalizer.

(** The source column of a target field: the one of its last entry. *)
Definition source_of (mapping : Mapping) (targetField : string) : option string :=
  match List.find (fun entry => String.eqb (fst entry) targetField) (rev mapping) with
  | Some entry => truthy_string (snd entry)
  | None => None
  end.

(** The number of key fields that are filled. *)
Definition filled_count (row : gmap string string) : Z :=
  Z.of_nat (length (List.filter (fun field => filled (row !! field)) keyFields)).

(** A text with no quote character in it. *)
Definition quote_free (s : string) : Prop :=
  Forall (fun c => is_quote c = false) (String.list_ascii_of_string s).

(** The characters [parseCurrency] reads. *)
Definition read (c : ascii) : bool :=
  is_digit (Translator.lower c) || Ascii.eqb (Translator.lower c) "."
  || Ascii.eqb (Translator.lower c) "k".

(** The text columns of a record that are never empty. *)
Definition named (r : TextColumns) : list string :=
  [employer r; location r; job_title r; industry r; employment_type r;
   education_level r; gender r].

(** A row of the first file, and a [parseFloat] that reads whole numbers of
    up to two digits. *)
Definition row1 : gmap string string :=
  {["Job title" := "Data 'Engineer'";
    "Where are you located? (City/state/country)" := "  Berlin ";
    "What is your annual salary?" := "65,000"]}.

Definition two_digits (s : string) : option Q :=
  match String.list_ascii_of_string s with
  | [a] => if is_digit a then Some (inject_Z (Z.of_nat (nat_of_ascii a - 48))) else None
  | [a; b] =>
      if is_digit a && is_digit b
      then Some (inject_Z (Z.of_nat ((nat_of_ascii a - 48) * 10 + (nat_of_ascii b - 48))))
      else None
  | _ => None
  end.

End NormalizerRuns.

(** * Properties *)

(** ** Numbers *)

Lemma Qltb_lt x y : Qltb x y = true <-> (x < y)%Q.
Proof. unfold Qltb, Qlt. apply Z.ltb_lt. Qed.

Lemma Qltb_ge x y : Qltb x y = false <-> (y <= x)%Q.
Proof. unfold Qltb, Qle. rewrite Z.ltb_ge. reflexivity. Qed.

Lemma or_default_zero (x : option Z) : or_default x 0 = default 0 x.
Proof.
  destruct x as [n|]; simpl; [|reflexivity].
  destruct (Z.eqb_spec n 0); congruence.
Qed.

Lemma or_default_absent d : or_default None d = d.
Proof. reflexivity. Qed.

Lemma or_default_falsy d : or_default (Some 0) d = d.
Proof. reflexivity. Qed.

Lemma or_default_truthy n d : n <> 0 -> or_default (Some n) d = n.
Proof. intros Hn. simpl. destruct (Z.eqb_spec n 0); congruence. Qed.

(** ** Record transformer *)

Module TransformerFacts.
Import Transformer TransformerFixtures.

Lemma or_zero_number x n : holds_number x n -> or_zero x = ANum n.
Proof.
  intros [[-> ->]| ->]; [reflexivity|]. simpl.
  destruct (Z.eqb_spec n 0) as [->|]; reflexivity.
Qed.

(** The total of a record whose money columns are numbers. *)
Lemma total_of_numbers (r : CompensationRecord) b s k :
  holds_number (annual_base_pay r) b ->
  holds_number (annual_bonus r) s ->
  holds_number (stock_value r) k ->
  total_compensation (transformRecord r) = ANum (b + s + k).
Proof.
  intros Hb Hs Hk. unfold transformRecord. cbn [total_compensation].
  by rewrite (or_zero_number _ b Hb), (or_zero_number _ s Hs), (or_zero_number _ k Hk).
Qed.

(** The label is read off the total of the document. *)
Lemma range_of_total (r : CompensationRecord) :
  compensation_range (transformRecord r)
  = let u := (fun n => inject_Z n / 100)%Q
               <$> to_number (total_compensation (transformRecord r)) in
    if lt_num u 50000 then "Entry Level"
    else if lt_num u 100000 then "Mid Level"
    else if lt_num u 200000 then "Senior Level"
    else "Executive Level".
Proof. reflexivity. Qed.

(** The label the code gives to a total that is a number, by cases on the
    total in whole currency units. *)
Lemma range_cases (r : CompensationRecord) n :
  total_compensation (transformRecord r) = ANum n ->
  let d := transformRecord r in
  ((units n < 50000)%Q /\ compensation_range d = "Entry Level")
  \/ ((50000 <= units n < 100000)%Q /\ compensation_range d = "Mid Level")
  \/ ((100000 <= units n < 200000)%Q /\ compensation_range d = "Senior Level")
  \/ ((200000 <= units n)%Q /\ compensation_range d = "Executive Level").
Proof.
  intros Hn d. unfold d. rewrite range_of_total, Hn. cbv zeta.
  cbn [to_number fmap option_fmap option_map lt_num]. fold (units n).
  destruct (Qltb (units n) 50000) eqn:H1.
  { left. split; [by apply Qltb_lt | reflexivity]. }
  destruct (Qltb (units n) 100000) eqn:H2.
  { right; left. split; [|reflexivity].
    split; [by apply Qltb_ge | by apply Qltb_lt]. }
  destruct (Qltb (units n) 200000) eqn:H3.
  { right; right; left. split; [|reflexivity].
    split; [by apply Qltb_ge | by apply Qltb_lt]. }
  right; right; right. split; [by apply Qltb_ge | reflexivity].
Qed.

End TransformerFacts.

(** C4, counterexample.  A record whose total is 1 whole currency unit, well
    below 50,000, is not labelled "Entry": the transformer writes
    "Entry Level". *)
Lemma C4_label_counterexample :
  let d := Transformer.transformRecord TransformerFixtures.entry_record in
  Transformer.total_compensation d = ANum 100
  /\ (Transformer.units 100 < 50000)%Q
  /\ Transformer.compensation_range d = "Entry Level"
  /\ Transformer.compensation_range d <> "Entry".
Proof.
  split; [reflexivity|]. split; [reflexivity|]. split; [reflexivity | discriminate].
Qed.

(** C4, amended.  For every record whose money columns are numbers or
    absent, as they are in the payload of a change notification, with
    amounts and sums that a JavaScript number holds exactly, the
    transformer's total is base pay plus bonus plus stock value with absent
    fields counted as zero, and the range label is "Entry Level" when the
    total is below 50,000 whole currency units, "Mid Level" below 100,000,
    "Senior Level" below 200,000 and "Executive Level" otherwise. *)
Theorem C4_transformRecord_total_and_range
    (r : Transformer.CompensationRecord) (b s k : Z) :
  let d := Transformer.transformRecord r in
  Transformer.holds_number (Transformer.annual_base_pay r) b ->
  Transformer.holds_number (Transformer.annual_bonus r) s ->
  Transformer.holds_number (Transformer.stock_value r) k ->
  Transformer.safe b -> Transformer.safe s -> Transformer.safe k ->
  Transformer.safe (b + s) -> Transformer.safe (b + s + k) ->
  Transformer.total_compensation d = ANum (b + s + k)
  /\ ((Transformer.units (b + s + k) < 50000)%Q ->
      Transformer.compensation_range d = "Entry Level")
  /\ ((50000 <= Transformer.units (b + s + k) < 100000)%Q ->
      Transformer.compensation_range d = "Mid Level")
  /\ ((100000 <= Transformer.units (b + s + k) < 200000)%Q ->
      Transformer.compensation_range d = "Senior Level")
  /\ ((200000 <= Transformer.units (b + s + k))%Q ->
      Transformer.compensation_range d = "Executive Level").
Proof.
  intros d Hb Hs Hk _ _ _ _ _.
  pose proof (TransformerFacts.total_of_numbers r b s k Hb Hs Hk) as Ht.
  split; [exact Ht|].
  pose proof (TransformerFacts.range_cases r (b + s + k) Ht) as Hc.
  cbv zeta in Hc. fold d in Hc.
  repeat split; intros Hu;
    destruct Hc as [[H ?]|[[H ?]|[[H ?]|[H ?]]]]; try assumption;
    exfalso; destruct_and?; lra.
Qed.

Lemma C4_transformRecord_witness :
  Transformer.compensation_range
    (Transformer.transformRecord TransformerFixtures.entry_record) = "Entry Level"
  /\ Transformer.compensation_range
       (Transformer.transformRecord (TransformerFixtures.paid 7000000 (Some 500000)))
     = "Mid Level"
  /\ Transformer.compensation_range
       (Transformer.transformRecord (TransformerFixtures.paid 10000000 None))
     = "Senior Level"
  /\ Transformer.compensation_range
       (Transformer.transformRecord (TransformerFixtures.paid 20000000 (Some 0)))
     = "Executive Level".
Proof.
  assert (Hsafe : forall n, -1000000000 <= n <= 1000000000 -> Transformer.safe n).
  { intros n Hn. unfold Transformer.safe. change (2 ^ 53) with 9007199254740992. lia. }
  split; [|split; [|split]].
  - destruct (C4_transformRecord_total_and_range TransformerFixtures.entry_record
                100 0 0) as (_ & H & _);
      [right; reflexivity | left; split; reflexivity | left; split; reflexivity
      | apply Hsafe; lia | apply Hsafe; lia | apply Hsafe; lia | apply Hsafe; lia
      | apply Hsafe; lia |].
    apply H. reflexivity.
  - destruct (C4_transformRecord_total_and_range
                (TransformerFixtures.paid 7000000 (Some 500000)) 7000000 500000 0)
      as (_ & _ & H & _);
      [right; reflexivity | right; reflexivity | left; split; reflexivity
      | apply Hsafe; lia | apply Hsafe; lia | apply Hsafe; lia | apply Hsafe; lia
      | apply Hsafe; lia |].
    apply H. split; [discriminate | reflexivity].
  - destruct (C4_transformRecord_total_and_range
                (TransformerFixtures.paid 10000000 None) 10000000 0 0)
      as (_ & _ & _ & H & _);
      [right; reflexivity | left; split; reflexivity | left; split; reflexivity
      | apply Hsafe; lia | apply Hsafe; lia | apply Hsafe; lia | apply Hsafe; lia
      | apply Hsafe; lia |].
    apply H. split; [discriminate | reflexivity].
  - destruct (C4_transformRecord_total_and_range
                (TransformerFixtures.paid 20000000 (Some 0)) 20000000 0 0)
      as (_ & _ & _ & _ & H);
      [right; reflexivity | right; reflexivity | left; split; reflexivity
      | apply Hsafe; lia | apply Hsafe; lia | apply Hsafe; lia | apply Hsafe; lia
      | apply Hsafe; lia |].
    apply H. discriminate.
Defined.

(** A row as the bulk path reads it: the base pay is the text "12000000".
    The total is the text "1200000000", the base pay joined to the two
    zeros that stand for the absent bonus and stock, and the label is that
    of 12,000,000 whole currency units. *)
Example stored_row_total :
  let d := Transformer.transformRecord (TransformerFixtures.stored "12000000") in
  Transformer.total_compensation d = AText "1200000000"
  /\ Transformer.compensation_range d = "Executive Level".
Proof. split; reflexivity. Qed.

(** ** Fallback query router *)

Module RouterFacts.
Import Translator Router RouterRuns.

Section Runs.
Variable ENABLE_FALLBACK : bool.
Variable client_search : EsQuery -> Outcome EsResult.
Variable pool_query : string -> list Value -> Outcome PgResult.

Lemma search_run q t :
  search client_search q t = (t ++ [EsSearch q], search_outcome client_search q).
Proof.
  unfold search, search_outcome, clean_hits, try_catch, bind, record,
    modify, lift_outcome, throw, ret; simpl.
  destruct (client_search q) as [r|e]; [|reflexivity].
  destruct (hits_of r) as [h|]; [|reflexivity]; simpl.
  destruct (total h); reflexivity.
Qed.

Lemma query_run text params t :
  query pool_query text params t
  = (t ++ [PgQuery text params], pool_query text params).
Proof.
  unfold query, try_catch, bind, record, modify, lift_outcome, throw; simpl.
  destruct (pool_query text params); reflexivity.
Qed.

(** All of [queryWithFallback] with the gate open, by the outcome of
    [search]. *)
Lemma queryWithFallback_enabled q text params t :
  queryWithFallback true client_search pool_query q text params t
  = match search_outcome client_search q with
    | Returned r =>
        match hits_of r with
        | Some h =>
            if (0 <? length (hits h))%nat
            then (t ++ [EsSearch q], Returned (from_search h))
            else (t ++ [EsSearch q; PgQuery text params],
                  outcome_map from_relational (pool_query text params))
        | None =>
            (t ++ [EsSearch q; PgQuery text params],
             outcome_map from_relational (pool_query text params))
        end
    | Thrown _ =>
        (t ++ [EsSearch q; PgQuery text params],
         outcome_map from_relational (pool_query text params))
    end.
Proof.
  unfold queryWithFallback; simpl.
  unfold bind at 1. unfold try_catch at 1. unfold bind at 1.
  rewrite search_run.
  destruct (search_outcome client_search q) as [r|e]; simpl.
  - destruct (hits_of r) as [h|]; simpl.
    + destruct (0 <? length (hits h))%nat; simpl; [reflexivity|].
      unfold try_catch, bind. rewrite query_run, <- app_assoc. simpl.
      destruct (pool_query text params); reflexivity.
    + unfold try_catch, bind. rewrite query_run, <- app_assoc. simpl.
      destruct (pool_query text params); reflexivity.
  - unfold try_catch, bind. rewrite query_run, <- app_assoc. simpl.
    destruct (pool_query text params); reflexivity.
Qed.

Lemma queryWithFallback_disabled q text params t :
  queryWithFallback false client_search pool_query q text params t
  = (t ++ [PgQuery text params], outcome_map untagged (pool_query text params)).
Proof.
  unfold queryWithFallback; simpl. unfold bind. rewrite query_run.
  destruct (pool_query text params); reflexivity.
Qed.

End Runs.

End RouterFacts.

(** C1.  Through [queryWithFallback]: with the fallback configuration
    disabled only the relational query is run and the search store is not
    contacted; when the search throws, the relational query is run once after
    it and its result is returned tagged "postgresql"; and when that
    relational query throws as well, its error is what the caller gets, with
    no request after it. *)
Theorem C1_queryWithFallback_paths
    (client_search : Translator.EsQuery -> Outcome Router.EsResult)
    (pool_query : string -> list Value -> Outcome Router.PgResult)
    (esQuery : Translator.EsQuery) (pgQuery : string) (pgParams : list Value)
    (t : Router.Trace) :
  (let run := Router.queryWithFallback false client_search pool_query
                esQuery pgQuery pgParams t in
   run.1 = t ++ [Router.PgQuery pgQuery pgParams]
   /\ run.2 = RouterRuns.outcome_map RouterRuns.untagged (pool_query pgQuery pgParams))
  /\ (forall e,
        (Router.search client_search esQuery t).2 = Thrown e ->
        let run := Router.queryWithFallback true client_search pool_query
                     esQuery pgQuery pgParams t in
        run.1 = t ++ [Router.EsSearch esQuery; Router.PgQuery pgQuery pgParams]
        /\ (forall r, pool_query pgQuery pgParams = Returned r ->
              run.2 = Returned {| Router.rows := Router.pg_rows r;
                                  Router.rowCount := Router.pg_rowCount r;
                                  Router.source := Some "postgresql" |})
        /\ (forall e', pool_query pgQuery pgParams = Thrown e' -> run.2 = Thrown e')).
Proof.
  split.
  - rewrite RouterFacts.queryWithFallback_disabled. split; reflexivity.
  - intros e He. rewrite RouterFacts.search_run in He. simpl in He.
    rewrite RouterFacts.queryWithFallback_enabled, He. simpl.
    split; [reflexivity|]. split; intros ? ->; reflexivity.
Qed.

Module CompensationsFacts.
Import Translator Router RouterRuns RouterFacts.

Section Runs.
Variable ENABLE_FALLBACK : bool.
Variable client_search : EsQuery -> Outcome EsResult.
Variable pool_query : string -> list Value -> Outcome PgResult.
Variable filter : option Filter.
Variable sort : option (list SortItem).
Variable pagination : option Pagination.

Lemma compensations_run t :
  compensations ENABLE_FALLBACK client_search pool_query filter sort pagination t
  = if ENABLE_FALLBACK then
      match search_page client_search filter sort pagination with
      | Some c => (t ++ [EsSearch (esQuery filter sort pagination)], Returned c)
      | None =>
          relational_page pool_query filter sort pagination
            (t ++ [EsSearch (esQuery filter sort pagination)])
      end
    else relational_page pool_query filter sort pagination t.
Proof.
  assert (Hrel : forall t1,
    try_catch
      (let w := buildWhereClause filter in
       let! countResult := query pool_query (countQuery w) (whereParams w) in
       match pg_rows countResult with
       | [] => throw "TypeError: Cannot read properties of undefined"
       | row0 :: _ =>
           let! dataResult :=
             query pool_query (dataQuery w (buildOrderByClause sort))
               (whereParams w
                ++ [VInt (pageLimit pagination); VInt (pageOffset pagination)]) in
           ret (page (pg_rows dataResult) (parseInt (row0 !! "total"))
                  (pageLimit pagination) (pageOffset pagination) "postgresql")
       end)
      (fun _ => throw "Failed to fetch compensations") t1
    = relational_page pool_query filter sort pagination t1).
  { intros t1. unfold relational_page, try_catch, bind, count_request,
      data_request; simpl.
    rewrite query_run.
    destruct (pool_query _ _) as [cr|e] eqn:Hc; [|reflexivity].
    destruct (pg_rows cr) as [|row0 rest]; [reflexivity|].
    rewrite query_run, <- app_assoc; simpl.
    destruct (pool_query (dataQuery _ _) _); reflexivity. }
  unfold compensations, search_page.
  destruct ENABLE_FALLBACK.
  - unfold try_catch at 1. unfold bind at 1. unfold try_catch at 1.
    unfold bind at 1. rewrite search_run. fold (esQuery filter sort pagination).
    destruct (search_outcome client_search (esQuery filter sort pagination))
      as [r|e]; simpl.
    + destruct (hits_of r) as [h|]; simpl.
      * destruct (truthy_total (total h)); simpl; [reflexivity|].
        apply (Hrel (t ++ [EsSearch (esQuery filter sort pagination)])).
      * apply (Hrel (t ++ [EsSearch (esQuery filter sort pagination)])).
    + apply (Hrel (t ++ [EsSearch (esQuery filter sort pagination)])).
  - apply (Hrel t).
Qed.

(** The requests of a run, whatever the stores answer. *)
Lemma compensations_trace t :
  (compensations ENABLE_FALLBACK client_search pool_query filter sort pagination t).1
  = t ++ (if ENABLE_FALLBACK
          then EsSearch (esQuery filter sort pagination) ::
               match search_page client_search filter sort pagination with
               | Some _ => []
               | None =>
                   count_request filter ::
                   match pool_query (countQuery (buildWhereClause filter))
                           (whereParams (buildWhereClause filter)) with
                   | Returned countResult =>
                       match pg_rows countResult with
                       | [] => []
                       | _ :: _ => [data_request filter sort pagination]
                       end
                   | Thrown _ => []
                   end
               end
          else count_request filter ::
               match pool_query (countQuery (buildWhereClause filter))
                       (whereParams (buildWhereClause filter)) with
               | Returned countResult =>
                   match pg_rows countResult with
                   | [] => []
                   | _ :: _ => [data_request filter sort pagination]
                   end
               | Thrown _ => []
               end).
Proof.
  rewrite compensations_run.
  assert (Hrel : forall t1,
    (relational_page pool_query filter sort pagination t1).1
    = t1 ++ count_request filter ::
            match pool_query (countQuery (buildWhereClause filter))
                    (whereParams (buildWhereClause filter)) with
            | Returned countResult =>
                match pg_rows countResult with
                | [] => []
                | _ :: _ => [data_request filter sort pagination]
                end
            | Thrown _ => []
            end).
  { intros t1. unfold relational_page. cbv zeta.
    destruct (pool_query _ _) as [cr|e]; [|reflexivity].
    destruct (pg_rows cr); reflexivity. }
  destruct ENABLE_FALLBACK; [|apply Hrel].
  destruct (search_page client_search filter sort pagination); [reflexivity|].
  rewrite Hrel, <- app_assoc. reflexivity.
Qed.

(** The run that takes the search answer. *)
Lemma compensations_search_taken t r h :
  client_search (esQuery filter sort pagination) = Returned r ->
  hits_of r = Some h ->
  truthy_total (total h) = true ->
  ENABLE_FALLBACK = true ->
  compensations ENABLE_FALLBACK client_search pool_query filter sort pagination t
  = (t ++ [EsSearch (esQuery filter sort pagination)],
     Returned (page (map hit_row (hits h)) (total_value <$> total h)
                 (pageLimit pagination) (pageOffset pagination) "elasticsearch")).
Proof.
  intros Hr Hh Ht HE.
  assert (Hp : search_page client_search filter sort pagination
               = Some (page (map hit_row (hits h)) (total_value <$> total h)
                         (pageLimit pagination) (pageOffset pagination)
                         "elasticsearch")).
  { unfold search_page, search_outcome, clean_hits. rewrite Hr. cbv beta iota.
    rewrite Hh. cbn [mbind option_bind].
    destruct (total h) as [tot|] eqn:Htot; [|discriminate Ht].
    cbn [mbind option_bind]. cbv beta iota. rewrite Hh, Htot, Ht. reflexivity. }
  rewrite compensations_run, HE, Hp. reflexivity.
Qed.

(** The run on the relational path, when the store answers both
    statements. *)
Lemma compensations_relational_answered t countResult row0 rest dataResult :
  ENABLE_FALLBACK = false
  \/ (exists e, client_search (esQuery filter sort pagination) = Thrown e) ->
  pool_query (countQuery (buildWhereClause filter))
    (whereParams (buildWhereClause filter)) = Returned countResult ->
  pg_rows countResult = row0 :: rest ->
  pool_query (dataQuery (buildWhereClause filter) (buildOrderByClause sort))
    (whereParams (buildWhereClause filter)
     ++ [VInt (pageLimit pagination); VInt (pageOffset pagination)])
  = Returned dataResult ->
  compensations ENABLE_FALLBACK client_search pool_query filter sort pagination t
  = (t ++ (if ENABLE_FALLBACK then [EsSearch (esQuery filter sort pagination)] else [])
       ++ [count_request filter; data_request filter sort pagination],
     Returned (page (pg_rows dataResult) (parseInt (row0 !! "total"))
                 (pageLimit pagination) (pageOffset pagination) "postgresql")).
Proof.
  intros HE Hc Hrows Hd.
  assert (Hrel : forall t1,
    relational_page pool_query filter sort pagination t1
    = (t1 ++ [count_request filter; data_request filter sort pagination],
       Returned (page (pg_rows dataResult) (parseInt (row0 !! "total"))
                   (pageLimit pagination) (pageOffset pagination) "postgresql"))).
  { intros t1. unfold relational_page. cbv zeta. rewrite Hc, Hrows, Hd. reflexivity. }
  rewrite compensations_run.
  destruct ENABLE_FALLBACK.
  - destruct HE as [HE|[e He]]; [discriminate HE|].
    unfold search_page, search_outcome. rewrite He.
    rewrite Hrel, <- app_assoc. reflexivity.
  - rewrite Hrel. reflexivity.
Qed.

End Runs.

Lemma pageLimit_le pagination : pageLimit pagination <= 100.
Proof. unfold pageLimit. lia. Qed.

Lemma es_size filter sort pagination :
  size (body (buildElasticSearchQuery filter sort pagination)) = pageLimit pagination.
Proof. unfold buildElasticSearchQuery, pageLimit. by destruct filter. Qed.

End CompensationsFacts.

Lemma C1_queryWithFallback_witness :
  (Router.queryWithFallback true RouterFixtures.search_down RouterFixtures.pool_one_row
     RouterFixtures.by_id RouterFixtures.by_id_text [VStr "r1"] []).2
  = Returned {| Router.rows := [RouterFixtures.row1]; Router.rowCount := 1;
                Router.source := Some "postgresql" |}
  /\ (Router.queryWithFallback true RouterFixtures.search_down RouterFixtures.pool_down
        RouterFixtures.by_id RouterFixtures.by_id_text [VStr "r1"] []).2
     = Thrown "Connection terminated unexpectedly".
Proof.
  split.
  - destruct (C1_queryWithFallback_paths RouterFixtures.search_down
                RouterFixtures.pool_one_row RouterFixtures.by_id
                RouterFixtures.by_id_text [VStr "r1"] []) as [_ H].
    destruct (H "ConnectionError: connect ECONNREFUSED" eq_refl) as (_ & Hr & _).
    apply (Hr _ eq_refl).
  - destruct (C1_queryWithFallback_paths RouterFixtures.search_down
                RouterFixtures.pool_down RouterFixtures.by_id
                RouterFixtures.by_id_text [VStr "r1"] []) as [_ H].
    destruct (H "ConnectionError: connect ECONNREFUSED" eq_refl) as (_ & _ & He).
    apply (He _ eq_refl).
Defined.

(** C3, counterexample.  The search store answers cleanly, without error and
    with no hit.  [queryWithFallback] does not return that answer: it goes on
    to the relational store and returns its row tagged "postgresql".  The
    listing resolver does the same when the total of the clean answer is the
    number 0. *)
Lemma C3_clean_empty_counterexample :
  (Router.search RouterFixtures.search_empty RouterFixtures.by_id []).2
  = Returned {| Router.hits_of :=
                  Some {| Router.hits := []; Router.total := Some (Router.TotalObject 0) |} |}
  /\ Router.queryWithFallback true RouterFixtures.search_empty
       RouterFixtures.pool_one_row RouterFixtures.by_id
       RouterFixtures.by_id_text [VStr "r1"] []
     = ([Router.EsSearch RouterFixtures.by_id;
         Router.PgQuery RouterFixtures.by_id_text [VStr "r1"]],
        Returned {| Router.rows := [RouterFixtures.row1]; Router.rowCount := 1;
                    Router.source := Some "postgresql" |})
  /\ (Router.compensations true RouterFixtures.search_empty_number
        RouterFixtures.pool_one_row None None None []).2
     = Returned {| Router.data := [RouterFixtures.row1]; Router.totalCount := Some 1;
                   Router.hasNextPage := false; Router.hasPreviousPage := false;
                   Router.conn_source := "postgresql" |}.
Proof. split; [reflexivity | split; [reflexivity | reflexivity]]. Qed.

Module PrimaryPathFacts.
Import Translator Router RouterRuns RouterFacts CompensationsFacts.

Lemma relational_page_shape pool_query filter sort pagination t1 :
  let run := relational_page pool_query filter sort pagination t1 in
  (exists rest, run.1 = t1 ++ count_request filter :: rest)
  /\ (forall c, run.2 = Returned c -> conn_source c = "postgresql").
Proof.
  unfold relational_page; simpl.
  destruct (pool_query _ _) as [cr|e]; simpl.
  - destruct (pg_rows cr); simpl.
    + split; [by exists [] | discriminate].
    + split; [by eexists|].
      destruct (pool_query _ _); [|discriminate].
      by intros c [= <-].
  - split; [by exists [] | discriminate].
Qed.

Lemma search_page_none_secondary client_search pool_query filter sort pagination t :
  search_page client_search filter sort pagination = None ->
  let run := compensations true client_search pool_query filter sort pagination t in
  (exists rest,
     run.1 = t ++ EsSearch (esQuery filter sort pagination)
               :: count_request filter :: rest)
  /\ (forall c, run.2 = Returned c -> conn_source c = "postgresql").
Proof.
  intros Hn. rewrite compensations_run, Hn; simpl.
  destruct (relational_page_shape pool_query filter sort pagination
              (t ++ [EsSearch (esQuery filter sort pagination)])) as [[rest Hr] Hc].
  split; [|exact Hc].
  exists rest. rewrite Hr, <- app_assoc. reflexivity.
Qed.

End PrimaryPathFacts.

(** C3, amended.  On the PRIMARY path of the listing resolver
    ([Query.compensations]) a clean answer of the search store whose total is
    truthy (the object form, or a number other than 0) is returned at once
    with provenance "elasticsearch", also when it has no hit; a thrown error,
    or a clean answer whose total is the number 0, takes the request to the
    relational store.  In [queryWithFallback] a clean answer with no hit takes
    the request to the relational store as a thrown error does. *)
Theorem C3_primary_path
    (client_search : Translator.EsQuery -> Outcome Router.EsResult)
    (pool_query : string -> list Value -> Outcome Router.PgResult)
    (filter : option Translator.Filter) (sort : option (list Translator.SortItem))
    (pagination : option Translator.Pagination) (t : Router.Trace) :
  let q := Translator.buildElasticSearchQuery filter sort pagination in
  let w := Translator.buildWhereClause filter in
  let listing := Router.compensations true client_search pool_query
                   filter sort pagination t in
  let secondary :=
    (exists rest,
       listing.1 = t ++ Router.EsSearch q
                     :: Router.PgQuery (Router.countQuery w) (Translator.whereParams w)
                     :: rest)
    /\ (forall c, listing.2 = Returned c -> Router.conn_source c = "postgresql") in
  (forall r h,
     (Router.search client_search q t).2 = Returned r ->
     Router.hits_of r = Some h ->
     Router.truthy_total (Router.total h) = true ->
     listing = (t ++ [Router.EsSearch q],
                Returned (Router.page (map Router.hit_row (Router.hits h))
                            (Router.total_value <$> Router.total h)
                            (Translator.pageLimit pagination)
                            (Translator.pageOffset pagination) "elasticsearch")))
  /\ (forall e, (Router.search client_search q t).2 = Thrown e -> secondary)
  /\ (forall r h,
        (Router.search client_search q t).2 = Returned r ->
        Router.hits_of r = Some h ->
        Router.total h = Some (Router.TotalNumber 0) ->
        secondary)
  /\ (forall esQuery text params r h,
        (Router.search client_search esQuery t).2 = Returned r ->
        Router.hits_of r = Some h ->
        Router.hits h = [] ->
        Router.queryWithFallback true client_search pool_query esQuery text params t
        = (t ++ [Router.EsSearch esQuery; Router.PgQuery text params],
           RouterRuns.outcome_map RouterRuns.from_relational (pool_query text params))).
Proof.
  intros q w listing secondary.
  assert (Hsec : RouterRuns.search_page client_search filter sort pagination
                 = None -> secondary).
  { intros Hn.
    apply (PrimaryPathFacts.search_page_none_secondary client_search pool_query
             filter sort pagination t Hn). }
  split; [|split; [|split]].
  - intros r h Hs Hh Ht. unfold listing.
    rewrite RouterFacts.search_run in Hs; simpl in Hs.
    rewrite CompensationsFacts.compensations_run.
    unfold RouterRuns.search_page, RouterRuns.esQuery.
    fold q. by rewrite Hs, Hh, Ht.
  - intros e Hs. rewrite RouterFacts.search_run in Hs; simpl in Hs.
    apply Hsec.
    unfold RouterRuns.search_page, RouterRuns.esQuery.
    fold q. by rewrite Hs.
  - intros r h Hs Hh Ht. rewrite RouterFacts.search_run in Hs; simpl in Hs.
    apply Hsec.
    unfold RouterRuns.search_page, RouterRuns.esQuery.
    fold q. by rewrite Hs, Hh, Ht.
  - intros esQuery text params r h Hs Hh He.
    rewrite RouterFacts.search_run in Hs; simpl in Hs.
    by rewrite RouterFacts.queryWithFallback_enabled, Hs, Hh, He.
Qed.

Lemma C3_primary_path_witness :
  Router.compensations true RouterFixtures.search_empty RouterFixtures.pool_one_row
    None None None []
  = ([Router.EsSearch (Translator.buildElasticSearchQuery None None None)],
     Returned {| Router.data := []; Router.totalCount := Some 0;
                 Router.hasNextPage := false; Router.hasPreviousPage := false;
                 Router.conn_source := "elasticsearch" |})
  /\ (forall c,
        (Router.compensations true RouterFixtures.search_down
           RouterFixtures.pool_one_row None None None []).2 = Returned c ->
        Router.conn_source c = "postgresql")
  /\ (forall c,
        (Router.compensations true RouterFixtures.search_empty_number
           RouterFixtures.pool_one_row None None None []).2 = Returned c ->
        Router.conn_source c = "postgresql")
  /\ (Router.queryWithFallback true RouterFixtures.search_empty
        RouterFixtures.pool_one_row RouterFixtures.by_id RouterFixtures.by_id_text
        [VStr "r1"] []).2
     = Returned {| Router.rows := [RouterFixtures.row1]; Router.rowCount := 1;
                   Router.source := Some "postgresql" |}.
Proof.
  split; [|split; [|split]].
  - destruct (C3_primary_path RouterFixtures.search_empty RouterFixtures.pool_one_row
                None None None []) as (H & _).
    apply (H _ _ eq_refl eq_refl eq_refl).
  - destruct (C3_primary_path RouterFixtures.search_down RouterFixtures.pool_one_row
                None None None []) as (_ & H & _).
    destruct (H "ConnectionError: connect ECONNREFUSED" eq_refl) as [_ Hc].
    exact Hc.
  - destruct (C3_primary_path RouterFixtures.search_empty_number
                RouterFixtures.pool_one_row None None None []) as (_ & _ & H & _).
    destruct (H _ _ eq_refl eq_refl eq_refl) as [_ Hc].
    exact Hc.
  - destruct (C3_primary_path RouterFixtures.search_empty RouterFixtures.pool_one_row
                None None None []) as (_ & _ & _ & H).
    rewrite (H RouterFixtures.by_id RouterFixtures.by_id_text [VStr "r1"] _ _
               eq_refl eq_refl eq_refl).
    reflexivity.
Defined.

(** ** Pagination *)

(** C8.  Write [effective] for the least of 100 and the requested limit,
    20 standing for a limit that is absent or 0.  It is at most 100, and it
    is 100 when the requested limit is above 100.  A run of the listing
    resolver sends exactly these requests: when the search path is enabled,
    the search query, whose page size is [effective]; and, unless the search
    answer is taken, the count statement followed, when the count has a row,
    by the data statement whose parameters end with [effective] and the
    offset.  When the search answer is taken the run returns its hits as a
    page of size [effective]; when the relational store answers the run
    returns its rows as a page of size [effective].  So a limit above 100 is
    neither sent on nor refused. *)
Theorem C8_page_size_at_most_100
    (ENABLE_FALLBACK : bool)
    (client_search : Translator.EsQuery -> Outcome Router.EsResult)
    (pool_query : string -> list Value -> Outcome Router.PgResult)
    (filter : option Translator.Filter) (sort : option (list Translator.SortItem))
    (pagination : option Translator.Pagination) (t : Router.Trace) :
  let esQuery := Translator.buildElasticSearchQuery filter sort pagination in
  let w := Translator.buildWhereClause filter in
  let effective := Z.min (or_default (p ← pagination; Translator.limit p) 20) 100 in
  let offset' := or_default (p ← pagination; Translator.offset p) 0 in
  let count_stmt := Router.PgQuery (Router.countQuery w) (Translator.whereParams w) in
  let data_stmt :=
    Router.PgQuery (Router.dataQuery w (Translator.buildOrderByClause sort))
      (Translator.whereParams w ++ [VInt effective; VInt offset']) in
  let relational :=
    count_stmt ::
    match pool_query (Router.countQuery w) (Translator.whereParams w) with
    | Returned countResult =>
        match Router.pg_rows countResult with [] => [] | _ :: _ => [data_stmt] end
    | Thrown _ => []
    end in
  let run := Router.compensations ENABLE_FALLBACK client_search pool_query
               filter sort pagination t in
  effective <= 100
  /\ (forall l, (p ← pagination; Translator.limit p) = Some l -> 100 < l -> effective = 100)
  /\ Translator.size (Translator.body esQuery) = effective
  /\ run.1
     = t ++ (if ENABLE_FALLBACK
             then Router.EsSearch esQuery ::
                  match RouterRuns.search_page client_search filter sort pagination with
                  | Some _ => []
                  | None => relational
                  end
             else relational)
  /\ (ENABLE_FALLBACK = true ->
      forall r h,
        client_search esQuery = Returned r ->
        Router.hits_of r = Some h ->
        Router.truthy_total (Router.total h) = true ->
        run = (t ++ [Router.EsSearch esQuery],
               Returned (Router.page (map Router.hit_row (Router.hits h))
                           (Router.total_value <$> Router.total h)
                           effective offset' "elasticsearch")))
  /\ (ENABLE_FALLBACK = false \/ (exists e, client_search esQuery = Thrown e) ->
      forall countResult row0 rest dataResult,
        pool_query (Router.countQuery w) (Translator.whereParams w)
        = Returned countResult ->
        Router.pg_rows countResult = row0 :: rest ->
        pool_query (Router.dataQuery w (Translator.buildOrderByClause sort))
          (Translator.whereParams w ++ [VInt effective; VInt offset'])
        = Returned dataResult ->
        run = (t ++ (if ENABLE_FALLBACK then [Router.EsSearch esQuery] else [])
                 ++ [count_stmt; data_stmt],
               Returned (Router.page (Router.pg_rows dataResult)
                           (Router.parseInt (row0 !! "total"))
                           effective offset' "postgresql"))).
Proof.
  intros esQuery w effective offset' count_stmt data_stmt relational run.
  split; [apply CompensationsFacts.pageLimit_le|].
  split.
  { intros l Hl Hgt. unfold effective. rewrite Hl.
    rewrite or_default_truthy by lia. lia. }
  split; [apply CompensationsFacts.es_size|].
  split; [apply CompensationsFacts.compensations_trace|].
  split.
  - intros HE r h Hr Hh Ht.
    apply (CompensationsFacts.compensations_search_taken ENABLE_FALLBACK client_search
             pool_query filter sort pagination t r h Hr Hh Ht HE).
  - intros HE cr row0 rest dr Hc Hrows Hd.
    apply (CompensationsFacts.compensations_relational_answered
             ENABLE_FALLBACK client_search pool_query filter sort pagination t
             cr row0 rest dr HE Hc Hrows Hd).
Qed.

Lemma C8_page_size_witness :
  Router.compensations true RouterFixtures.search_down RouterFixtures.pool_one_row
    None None RouterFixtures.page500 []
  = ([Router.EsSearch
        {| Translator.index := "compensation_data";
           Translator.body := {| Translator.query := Translator.Match_all;
                                 Translator.sort := [];
                                 Translator.from := 0;
                                 Translator.size := 100 |} |};
      Router.PgQuery "SELECT COUNT(*) as total FROM compensation_data " [];
      Router.PgQuery
        "SELECT * FROM compensation_data  ORDER BY created_at DESC LIMIT $1 OFFSET $2"
        [VInt 100; VInt 0]],
     Returned {| Router.data := [RouterFixtures.row1]; Router.totalCount := Some 1;
                 Router.hasNextPage := false; Router.hasPreviousPage := false;
                 Router.conn_source := "postgresql" |})
  /\ Router.compensations true RouterFixtures.search_one_hit RouterFixtures.pool_down
       None None RouterFixtures.page500 []
     = ([Router.EsSearch
           {| Translator.index := "compensation_data";
              Translator.body := {| Translator.query := Translator.Match_all;
                                    Translator.sort := [];
                                    Translator.from := 0;
                                    Translator.size := 100 |} |}],
        Returned {| Router.data := [RouterFixtures.row1]; Router.totalCount := Some 101;
                    Router.hasNextPage := true; Router.hasPreviousPage := false;
                    Router.conn_source := "elasticsearch" |}).
Proof.
  split.
  - destruct (C8_page_size_at_most_100 true RouterFixtures.search_down
                RouterFixtures.pool_one_row None None RouterFixtures.page500 [])
      as (_ & _ & _ & _ & _ & H).
    exact (H (or_intror (ex_intro _ "ConnectionError: connect ECONNREFUSED" eq_refl))
             {| Router.pg_rows := [{["total" := VStr "1"]}]; Router.pg_rowCount := 1 |}
             {["total" := VStr "1"]} []
             {| Router.pg_rows := [RouterFixtures.row1]; Router.pg_rowCount := 1 |}
             eq_refl eq_refl eq_refl).
  - destruct (C8_page_size_at_most_100 true RouterFixtures.search_one_hit
                RouterFixtures.pool_down None None RouterFixtures.page500 [])
      as (_ & _ & _ & _ & H & _).
    exact (H eq_refl _ _ eq_refl eq_refl eq_refl).
Defined.

(** C10.  Write [sent] for 20 when the requested limit is 0 and for the
    least of the limit and 100 otherwise: it is 20 for the limit 0, 100 for
    a limit above 100, and the limit itself for every other limit, a
    negative one included.  A run of the listing resolver sends exactly
    these requests: when the search path is enabled, the search query, whose
    page size is [sent]; and, unless the search answer is taken, the count
    statement followed, when the count has a row, by the data statement
    whose parameters end with [sent] and the offset.  With a negative limit
    both stores are therefore sent that negative number, and the page
    returned is computed with it. *)
Theorem C10_zero_and_negative_limits
    (ENABLE_FALLBACK : bool)
    (client_search : Translator.EsQuery -> Outcome Router.EsResult)
    (pool_query : string -> list Value -> Outcome Router.PgResult)
    (filter : option Translator.Filter) (sort : option (list Translator.SortItem))
    (l : Z) (o : option Z) (t : Router.Trace) :
  let pagination := Some {| Translator.limit := Some l; Translator.offset := o |} in
  let esQuery := Translator.buildElasticSearchQuery filter sort pagination in
  let w := Translator.buildWhereClause filter in
  let sent := if l =? 0 then 20 else Z.min l 100 in
  let offset' := or_default o 0 in
  let count_stmt := Router.PgQuery (Router.countQuery w) (Translator.whereParams w) in
  let data_stmt :=
    Router.PgQuery (Router.dataQuery w (Translator.buildOrderByClause sort))
      (Translator.whereParams w ++ [VInt sent; VInt offset']) in
  let relational :=
    count_stmt ::
    match pool_query (Router.countQuery w) (Translator.whereParams w) with
    | Returned countResult =>
        match Router.pg_rows countResult with [] => [] | _ :: _ => [data_stmt] end
    | Thrown _ => []
    end in
  let run := Router.compensations ENABLE_FALLBACK client_search pool_query
               filter sort pagination t in
  (l = 0 -> sent = 20)
  /\ (100 < l -> sent = 100)
  /\ (l <> 0 -> l <= 100 -> sent = l)
  /\ (l < 0 -> sent = l)
  /\ Translator.size (Translator.body esQuery) = sent
  /\ run.1
     = t ++ (if ENABLE_FALLBACK
             then Router.EsSearch esQuery ::
                  match RouterRuns.search_page client_search filter sort pagination with
                  | Some _ => []
                  | None => relational
                  end
             else relational)
  /\ (ENABLE_FALLBACK = true ->
      forall r h,
        client_search esQuery = Returned r ->
        Router.hits_of r = Some h ->
        Router.truthy_total (Router.total h) = true ->
        run = (t ++ [Router.EsSearch esQuery],
               Returned (Router.page (map Router.hit_row (Router.hits h))
                           (Router.total_value <$> Router.total h)
                           sent offset' "elasticsearch")))
  /\ (ENABLE_FALLBACK = false \/ (exists e, client_search esQuery = Thrown e) ->
      forall countResult row0 rest dataResult,
        pool_query (Router.countQuery w) (Translator.whereParams w)
        = Returned countResult ->
        Router.pg_rows countResult = row0 :: rest ->
        pool_query (Router.dataQuery w (Translator.buildOrderByClause sort))
          (Translator.whereParams w ++ [VInt sent; VInt offset'])
        = Returned dataResult ->
        run = (t ++ (if ENABLE_FALLBACK then [Router.EsSearch esQuery] else [])
                 ++ [count_stmt; data_stmt],
               Returned (Router.page (Router.pg_rows dataResult)
                           (Router.parseInt (row0 !! "total"))
                           sent offset' "postgresql"))).
Proof.
  intros pagination esQuery w sent.
  assert (Hsent : (l = 0 -> sent = 20) /\ (100 < l -> sent = 100)
                  /\ (l <> 0 -> l <= 100 -> sent = l) /\ (l < 0 -> sent = l))
    by (unfold sent; destruct (Z.eqb_spec l 0); lia).
  assert (Hs : Translator.pageLimit pagination = sent)
    by (unfold Translator.pageLimit, pagination, sent; simpl;
        destruct (l =? 0); reflexivity).
  clearbody sent. subst sent.
  intros offset' count_stmt data_stmt relational run.
  destruct Hsent as (H0 & Hbig & Hmid & Hneg).
  split; [exact H0|]. split; [exact Hbig|]. split; [exact Hmid|].
  split; [exact Hneg|].
  split; [apply (CompensationsFacts.es_size filter sort pagination)|].
  split;
    [apply (CompensationsFacts.compensations_trace ENABLE_FALLBACK client_search
              pool_query filter sort pagination t)|].
  split.
  - intros HE r h Hr Hh Ht.
    apply (CompensationsFacts.compensations_search_taken ENABLE_FALLBACK client_search
             pool_query filter sort pagination t r h Hr Hh Ht HE).
  - intros HE cr row0 rest dr Hc Hrows Hd.
    apply (CompensationsFacts.compensations_relational_answered
             ENABLE_FALLBACK client_search pool_query filter sort pagination t
             cr row0 rest dr HE Hc Hrows Hd).
Qed.

Lemma C10_limits_witness :
  Router.compensations true RouterFixtures.search_down RouterFixtures.pool_one_row
    None None (Some {| Translator.limit := Some (-5); Translator.offset := None |}) []
  = ([Router.EsSearch
        {| Translator.index := "compensation_data";
           Translator.body := {| Translator.query := Translator.Match_all;
                                 Translator.sort := [];
                                 Translator.from := 0;
                                 Translator.size := -5 |} |};
      Router.PgQuery "SELECT COUNT(*) as total FROM compensation_data " [];
      Router.PgQuery
        "SELECT * FROM compensation_data  ORDER BY created_at DESC LIMIT $1 OFFSET $2"
        [VInt (-5); VInt 0]],
     Returned {| Router.data := [RouterFixtures.row1]; Router.totalCount := Some 1;
                 Router.hasNextPage := true; Router.hasPreviousPage := false;
                 Router.conn_source := "postgresql" |})
  /\ (Router.compensations false RouterFixtures.search_down RouterFixtures.pool_one_row
        None None (Some {| Translator.limit := Some 0; Translator.offset := None |}) []).1
     = [Router.PgQuery "SELECT COUNT(*) as total FROM compensation_data " [];
        Router.PgQuery
          "SELECT * FROM compensation_data  ORDER BY created_at DESC LIMIT $1 OFFSET $2"
          [VInt 20; VInt 0]].
Proof.
  split.
  - destruct (C10_zero_and_negative_limits true RouterFixtures.search_down
                RouterFixtures.pool_one_row None None (-5) None [])
      as (_ & _ & _ & _ & _ & _ & _ & H).
    exact (H (or_intror (ex_intro _ "ConnectionError: connect ECONNREFUSED" eq_refl))
             {| Router.pg_rows := [{["total" := VStr "1"]}]; Router.pg_rowCount := 1 |}
             {["total" := VStr "1"]} []
             {| Router.pg_rows := [RouterFixtures.row1]; Router.pg_rowCount := 1 |}
             eq_refl eq_refl eq_refl).
  - destruct (C10_zero_and_negative_limits false RouterFixtures.search_down
                RouterFixtures.pool_one_row None None 0 None [])
      as (_ & _ & _ & _ & _ & H & _).
    rewrite H. reflexivity.
Defined.

(** ** Bulk synchronisation *)

Module StreamerFacts.
Import Transformer Streamer StreamerRuns.


Lemma fetches_app t1 t2 : fetches (t1 ++ t2) = fetches t1 ++ fetches t2.
Proof. apply omap_app. Qed.

Lemma bulks_app t1 t2 : bulks (t1 ++ t2) = bulks t1 ++ bulks t2.
Proof. apply omap_app. Qed.

Lemma counts_app t1 t2 : counts (t1 ++ t2) = counts t1 ++ counts t2.
Proof. apply omap_app. Qed.

Lemma offsets_below_spec total j :
  (j < offsets_below total)%nat <-> BATCH_SIZE * Z.of_nat j < total.
Proof. unfold offsets_below, BATCH_SIZE. Z.div_mod_to_equations. lia. Qed.


Lemma window_empty (table : list CompensationRecord) j :
  (window_count (length table) <= j)%nat -> window table j = [].
Proof.
  intros Hj. apply length_zero_iff_nil. unfold window.
  rewrite length_take, length_drop.
  unfold window_count, BATCH_SIZE in *. Z.div_mod_to_equations. lia.
Qed.


Section Runs.
Variable table : list CompensationRecord.
Variable bulk_reply : nat -> list BulkOp -> Outcome BulkResponse.

Lemma attempt_run records ops retries c t :
  attempt bulk_reply records ops retries c t
  = match bulk_reply (nb t) ops with
    | Returned resp =>
        (t ++ [EsBulk ops], Returned (inl (succeeded records resp c)))
    | Thrown _ =>
        if MAX_RETRIES <=? retries + 1
        then (t ++ [EsBulk ops], Returned (inr (retries + 1, gave_up records c)))
        else (t ++ [EsBulk ops; Sleep ((retries + 1) * 1000)],
              Returned (inr (retries + 1, c)))
    end.
Proof.
  unfold attempt, try_catch, bind, esClient_bulk, bind, get, record, modify,
    lift_outcome, sleep, record, modify, ret; simpl.
  fold (nb t).
  destruct (bulk_reply (nb t) ops) as [resp|e]; [reflexivity|].
  destruct (MAX_RETRIES <=? retries + 1); [reflexivity|].
  by rewrite <- app_assoc.
Qed.

(** The events of a retry loop are bulk requests of the same body and
    pauses, at most as many requests as the ceiling leaves, and it ends with
    the counters of the same window. *)
Lemma retry_loop_run fuel records ops retries c t :
  (Z.to_nat (MAX_RETRIES - retries) <= fuel)%nat ->
  exists t2 c' m,
    retry_loop bulk_reply fuel records ops retries c t = (t ++ t2, Returned (Some c'))
    /\ offset c' = offset c
    /\ fetches t2 = [] /\ counts t2 = []
    /\ bulks t2 = replicate m ops
    /\ (m <= Z.to_nat (MAX_RETRIES - retries))%nat
    /\ (retries < MAX_RETRIES -> (1 <= m)%nat)
    /\ (forall resp, retries < MAX_RETRIES ->
          bulk_reply (nb t) ops = Returned resp ->
          t2 = [EsBulk ops] /\ c' = succeeded records resp c).
Proof.
  revert retries c t. induction fuel as [|fuel IH]; intros retries c t Hf.
  - simpl. destruct (Z.ltb_spec retries MAX_RETRIES); [unfold MAX_RETRIES in *; lia|].
    exists [], c, 0%nat. rewrite app_nil_r. repeat split; auto; lia.
  - simpl. destruct (Z.ltb_spec retries MAX_RETRIES) as [Hlt|Hge].
    2:{ exists [], c, 0%nat. rewrite app_nil_r. repeat split; auto; lia. }
    unfold bind at 1. rewrite attempt_run.
    destruct (bulk_reply (nb t) ops) as [resp|e] eqn:Hb.
    + exists [EsBulk ops], (succeeded records resp c), 1%nat.
      repeat split; auto; try congruence; unfold MAX_RETRIES in *; lia.
    + destruct (Z.leb_spec MAX_RETRIES (retries + 1)) as [Hm|Hm].
      * destruct (IH (retries + 1) (gave_up records c) (t ++ [EsBulk ops]))
          as (t2 & c' & m & -> & Ho & Hfe & Hco & Hbu & Hle & _);
          [unfold MAX_RETRIES in *; lia|].
        exists (EsBulk ops :: t2), c', (S m). rewrite <- app_assoc.
        repeat split; auto; try discriminate;
          [simpl; f_equal; exact Hbu | unfold MAX_RETRIES in *; lia | lia].
      * destruct (IH (retries + 1) c (t ++ [EsBulk ops; Sleep ((retries + 1) * 1000)]))
          as (t2 & c' & m & -> & Ho & Hfe & Hco & Hbu & Hle & _);
          [unfold MAX_RETRIES in *; lia|].
        exists (EsBulk ops :: Sleep ((retries + 1) * 1000) :: t2), c', (S m).
        rewrite <- app_assoc.
        repeat split; auto; try discriminate;
          [simpl; f_equal; exact Hbu | unfold MAX_RETRIES in *; lia | lia].
Qed.


Lemma window_count_reached :
  Z.of_nat (length table) <= BATCH_SIZE * Z.of_nat (window_count (length table)).
Proof. unfold window_count, BATCH_SIZE. Z.div_mod_to_equations. lia. Qed.

Lemma window_count_before j :
  (j < window_count (length table))%nat ->
  BATCH_SIZE * Z.of_nat j < Z.of_nat (length table).
Proof. unfold window_count, BATCH_SIZE. Z.div_mod_to_equations. lia. Qed.

Lemma window_length k :
  length (window table k)
  = Nat.min (Z.to_nat BATCH_SIZE) (length table - Z.to_nat (BATCH_SIZE * Z.of_nat k)).
Proof. unfold window. by rewrite length_take, length_drop. Qed.

Lemma window_nonempty j :
  (j < window_count (length table))%nat -> window table j <> [].
Proof.
  intros Hj Hnil. apply window_count_before in Hj.
  apply (f_equal length) in Hnil. rewrite window_length in Hnil.
  unfold BATCH_SIZE in *. change (length (@nil CompensationRecord)) with 0%nat in Hnil.
  lia.
Qed.

(** The loop from window [j] on, with [k] windows left. *)
Lemma stream_loop_run k : forall j fuel c t,
  (j + k = window_count (length table))%nat ->
  (k <= fuel)%nat ->
  offset c = BATCH_SIZE * Z.of_nat j ->
  exists t2 c' reps,
    stream_loop table bulk_reply fuel (Z.of_nat (length table)) c t
    = (t ++ t2, Returned (Some c'))
    /\ fetches t2
       = map (fun i => (BATCH_SIZE, BATCH_SIZE * Z.of_nat i)) (seq j k)
    /\ counts t2 = []
    /\ length reps = k
    /\ Forall (fun m => 1 <= m <= 3)%nat reps
    /\ bulks t2
       = concat (zip_with replicate reps
                   (map (fun i => bulkOps_of (window table i)) (seq j k)))
    /\ (never_throws bulk_reply ->
        bulks t2 = map (fun i => bulkOps_of (window table i)) (seq j k)).
Proof.
  induction k as [|k IH]; intros j fuel c t Hjk Hfuel Hoff.
  - exists [], c, []. rewrite app_nil_r.
    assert (Hcond : (offset c <? Z.of_nat (length table)) = false).
    { apply Z.ltb_ge. rewrite Hoff.
      replace j with (window_count (length table)) by lia.
      apply window_count_reached. }
    split; [|by repeat split].
    destruct fuel; simpl; by rewrite Hcond.
  - destruct fuel as [|fuel]; [lia|].
    assert (Hj : (j < window_count (length table))%nat) by lia.
    assert (Hcond : (offset c <? Z.of_nat (length table)) = true).
    { apply Z.ltb_lt. rewrite Hoff. by apply window_count_before. }
    cbn [stream_loop]. rewrite Hcond.
    unfold bind at 1. unfold pool_fetch at 1, bind at 1, record, modify, ret.
    cbv beta iota.
    assert (Hw : take (Z.to_nat BATCH_SIZE) (drop (Z.to_nat (offset c)) table)
                 = window table j) by (unfold window; by rewrite Hoff).
    rewrite Hw.
    assert (Hne : (length (window table j) =? 0)%nat = false).
    { apply Nat.eqb_neq. intros Hz. apply (window_nonempty j Hj).
      by apply length_zero_iff_nil. }
    rewrite Hne.
    unfold bind at 1.
    destruct (retry_loop_run (Z.to_nat MAX_RETRIES) (window table j)
                (bulkOps_of (window table j)) 0 c (t ++ [PgFetch BATCH_SIZE (offset c)]))
      as (t2r & c1 & m & -> & Ho1 & Hf1 & Hc1 & Hbu1 & Hle1 & Hge1 & Hb1);
      [reflexivity|].
    unfold bind at 1, sleep at 1, record, modify. cbv beta iota.
    destruct (IH (S j) fuel
                {| offset := offset c1 + BATCH_SIZE;
                   processedRecords := processedRecords c1;
                   failedRecords := failedRecords c1 |}
                (((t ++ [PgFetch BATCH_SIZE (offset c)]) ++ t2r) ++ [Sleep 100]))
      as (t2 & c' & reps & -> & Hf2 & Hc2 & Hlen & Hall & Hbu2 & Hb2);
      [lia | lia | simpl; lia |].
    exists (PgFetch BATCH_SIZE (offset c) :: t2r ++ Sleep 100 :: t2), c', (m :: reps).
    split; [by rewrite <- !app_assoc|].
    change (PgFetch BATCH_SIZE (offset c) :: t2r ++ Sleep 100 :: t2)
      with ([PgFetch BATCH_SIZE (offset c)] ++ t2r ++ [Sleep 100] ++ t2).
    split.
    { rewrite !fetches_app, Hf1, Hf2, Hoff. reflexivity. }
    split.
    { rewrite !counts_app, Hc1, Hc2. reflexivity. }
    split; [simpl; by rewrite Hlen|].
    split.
    { constructor; [|exact Hall]. split; [apply Hge1; reflexivity|].
      change (Z.to_nat (MAX_RETRIES - 0)) with 3%nat in Hle1. exact Hle1. }
    split.
    { rewrite !bulks_app, Hbu1, Hbu2. reflexivity. }
    intros Hnever.
    destruct (Hnever (nb (t ++ [PgFetch BATCH_SIZE (offset c)]))
                (bulkOps_of (window table j))) as [resp Hresp].
    destruct (Hb1 resp) as [-> _]; [reflexivity | exact Hresp |].
    simpl. f_equal. exact (Hb2 Hnever).
Qed.




Lemma stream_loop_end fuel totalRecords c t :
  totalRecords <= offset c ->
  stream_loop table bulk_reply fuel totalRecords c t = (t, Returned (Some c)).
Proof.
  intros Hge. apply Z.ltb_ge in Hge. destruct fuel; cbn [stream_loop]; by rewrite Hge.
Qed.

(** The loop from window [j] on, for any counted total: [k] windows are
    left that lie below the total and are not empty; the loop ends when the
    offset has reached the total, or on the page after them, which is
    empty. *)
Lemma stream_loop_pages totalRecords k : forall j fuel c t,
  (j + k = Nat.min (offsets_below totalRecords) (window_count (length table)))%nat ->
  (S k <= fuel)%nat ->
  offset c = BATCH_SIZE * Z.of_nat j ->
  exists t2 c' reps,
    stream_loop table bulk_reply fuel totalRecords c t = (t ++ t2, Returned (Some c'))
    /\ fetches t2
       = map (fun i => (BATCH_SIZE, BATCH_SIZE * Z.of_nat i))
           (seq j (if (window_count (length table) <? offsets_below totalRecords)%nat
                   then S k else k))
    /\ counts t2 = []
    /\ length reps = k
    /\ Forall (fun m => 1 <= m <= 3)%nat reps
    /\ bulks t2
       = concat (zip_with replicate reps
                   (map (fun i => bulkOps_of (window table i)) (seq j k)))
    /\ (never_throws bulk_reply ->
        bulks t2 = map (fun i => bulkOps_of (window table i)) (seq j k)).
Proof.
  induction k as [|k IH]; intros j fuel c t Hjk Hfuel Hoff.
  - destruct (Nat.ltb_spec (window_count (length table)) (offsets_below totalRecords))
      as [Hlt|Hge].
    + destruct fuel as [|fuel]; [lia|].
      assert (Hj : j = window_count (length table)) by lia.
      assert (Hcond : (offset c <? totalRecords) = true).
      { apply Z.ltb_lt. rewrite Hoff. apply offsets_below_spec. lia. }
      cbn [stream_loop]. rewrite Hcond.
      unfold bind at 1. unfold pool_fetch at 1, bind at 1, record, modify, ret.
      cbv beta iota.
      assert (Hw : take (Z.to_nat BATCH_SIZE) (drop (Z.to_nat (offset c)) table) = [])
        by (rewrite Hoff; apply (window_empty table j); lia).
      rewrite Hw. cbn [length Nat.eqb].
      exists [PgFetch BATCH_SIZE (offset c)], c, []. rewrite Hoff.
      repeat split; auto.
    + rewrite stream_loop_end.
      2:{ rewrite Hoff.
          destruct (Z.lt_ge_cases (BATCH_SIZE * Z.of_nat j) totalRecords) as [Hc|Hc];
            [|lia].
          apply offsets_below_spec in Hc. lia. }
      exists [], c, []. rewrite app_nil_r. repeat split; auto.
  - destruct fuel as [|fuel]; [lia|].
    assert (HjW : (j < offsets_below totalRecords)%nat) by lia.
    assert (HjE : (j < window_count (length table))%nat) by lia.
    assert (Hcond : (offset c <? totalRecords) = true).
    { apply Z.ltb_lt. rewrite Hoff. by apply offsets_below_spec. }
    cbn [stream_loop]. rewrite Hcond.
    unfold bind at 1. unfold pool_fetch at 1, bind at 1, record, modify, ret.
    cbv beta iota.
    assert (Hw : take (Z.to_nat BATCH_SIZE) (drop (Z.to_nat (offset c)) table)
                 = window table j) by (unfold window; by rewrite Hoff).
    rewrite Hw.
    assert (Hne : (length (window table j) =? 0)%nat = false).
    { apply Nat.eqb_neq. intros Hz. apply (window_nonempty j HjE).
      by apply length_zero_iff_nil. }
    rewrite Hne.
    unfold bind at 1.
    destruct (retry_loop_run (Z.to_nat MAX_RETRIES) (window table j)
                (bulkOps_of (window table j)) 0 c (t ++ [PgFetch BATCH_SIZE (offset c)]))
      as (t2r & c1 & m & -> & Ho1 & Hf1 & Hc1 & Hbu1 & Hle1 & Hge1 & Hb1);
      [reflexivity|].
    unfold bind at 1, sleep at 1, record, modify. cbv beta iota.
    destruct (IH (S j) fuel
                {| offset := offset c1 + BATCH_SIZE;
                   processedRecords := processedRecords c1;
                   failedRecords := failedRecords c1 |}
                (((t ++ [PgFetch BATCH_SIZE (offset c)]) ++ t2r) ++ [Sleep 100]))
      as (t2 & c' & reps & -> & Hf2 & Hc2 & Hlen & Hall & Hbu2 & Hb2);
      [lia | lia | simpl; lia |].
    exists (PgFetch BATCH_SIZE (offset c) :: t2r ++ Sleep 100 :: t2), c', (m :: reps).
    split; [by rewrite <- !app_assoc|].
    change (PgFetch BATCH_SIZE (offset c) :: t2r ++ Sleep 100 :: t2)
      with ([PgFetch BATCH_SIZE (offset c)] ++ t2r ++ [Sleep 100] ++ t2).
    split.
    { rewrite !fetches_app, Hf1, Hf2, Hoff.
      destruct (window_count (length table) <? offsets_below totalRecords)%nat;
        reflexivity. }
    split.
    { rewrite !counts_app, Hc1, Hc2. reflexivity. }
    split; [simpl; by rewrite Hlen|].
    split.
    { constructor; [|exact Hall]. split; [apply Hge1; reflexivity|].
      change (Z.to_nat (MAX_RETRIES - 0)) with 3%nat in Hle1. exact Hle1. }
    split.
    { rewrite !bulks_app, Hbu1, Hbu2. reflexivity. }
    intros Hnever.
    destruct (Hnever (nb (t ++ [PgFetch BATCH_SIZE (offset c)]))
                (bulkOps_of (window table j))) as [resp Hresp].
    destruct (Hb1 resp) as [-> _]; [reflexivity | exact Hresp |].
    simpl. f_equal. exact (Hb2 Hnever).
Qed.

Variable refresh_reply : Outcome unit.
Variable count_reply : Outcome Z.

(** The run around the loop, when the counted total is not 0. *)
Lemma stream_unfold totalRecords fuel :
  totalRecords <> 0 ->
  streamDataToElasticSearch table totalRecords bulk_reply refresh_reply count_reply
    fuel []
  = match stream_loop table bulk_reply fuel totalRecords
            {| offset := 0; processedRecords := 0; failedRecords := 0 |} [PgCount] with
    | (t1, Returned (Some c')) =>
        match refresh_reply, count_reply with
        | Returned _, Returned m =>
            (t1 ++ [EsRefresh; EsCount],
             Returned (Some (Synced (processedRecords c') (failedRecords c') m)))
        | Returned _, Thrown e => (t1 ++ [EsRefresh; EsCount], Thrown e)
        | Thrown e, _ => (t1 ++ [EsRefresh], Thrown e)
        end
    | (t1, Returned None) => (t1, Returned None)
    | (t1, Thrown e) => (t1, Thrown e)
    end.
Proof.
  intros Hz. apply Z.eqb_neq in Hz.
  unfold streamDataToElasticSearch, try_catch.
  unfold bind at 1. unfold pool_count at 1, bind at 1, record, modify, ret.
  cbv beta iota. rewrite Hz. change ([] ++ [PgCount]) with [PgCount].
  unfold bind at 1.
  destruct (stream_loop table bulk_reply fuel totalRecords _ [PgCount])
    as [t1 [[c'|]|e]]; [|reflexivity|reflexivity].
  unfold bind, record, modify, lift_outcome, ret, throw. cbv beta iota.
  destruct refresh_reply as [u|e]; [destruct count_reply as [m|e]|];
    by rewrite <- ?app_assoc.
Qed.

End Runs.

End StreamerFacts.

(** C5, counterexample.  The count read at the start is 2,500 and 1,000 rows
    are deleted before the pages are read, so 1,500 rows are there.  The
    second window has 500 rows, fewer than the window size, and the offset
    2000 is still below the counted total: the loop does not stop, it reads a
    third page at offset 2000, which is empty, and stops there. *)
Lemma C5_short_window_counterexample :
  let run := Streamer.streamDataToElasticSearch StreamerRuns.table1500 2500
               StreamerRuns.bulk_ok (Returned tt) (Returned 1500) 4 [] in
  length (StreamerRuns.window StreamerRuns.table1500 1) = 500%nat
  /\ StreamerRuns.fetches run.1 = [(1000, 0); (1000, 1000); (1000, 2000)]
  /\ map (fun b => Z.of_nat (length b) / 2) (StreamerRuns.bulks run.1) = [1000; 500]
  /\ run.2 = Returned (Some (Streamer.Synced 1500 0 1500)).
Proof. vm_compute. repeat split. Qed.

(** C5, amended.  With a counted total other than 0 and enough fuel for the
    loop: the row count is read once; the pages are read with limit 1000 at
    the offsets 0, 1000, 2000, ... in this order; a page is read exactly when
    its offset is below the total counted at the start and no page before it
    was empty, so the loop stops when the offset reaches that total or a page
    comes back empty, and a page with fewer than 1000 rows does not stop it;
    every page that is not empty is submitted as one bulk request, between
    one and three times, and exactly once when no bulk request throws; the run
    does not end for lack of fuel.  When the total counted is the number of
    rows that are there, the pages read are the windows of the table, and over
    2,500 rows there are exactly 3 windows, of 1000, 1000 and 500 rows. *)
Theorem C5_fixed_size_windows
    (table : list Transformer.CompensationRecord) (pool_total : Z)
    (bulk_reply : nat -> list Streamer.BulkOp -> Outcome Streamer.BulkResponse)
    (refresh_reply : Outcome unit) (count_reply : Outcome Z) (fuel : nat) :
  let W := StreamerRuns.offsets_below pool_total in
  let E := StreamerRuns.window_count (length table) in
  let n := Nat.min W E in
  let pages := if (E <? W)%nat then S n else n in
  let run := Streamer.streamDataToElasticSearch table pool_total bulk_reply
               refresh_reply count_reply fuel [] in
  pool_total <> 0 ->
  (S n <= fuel)%nat ->
  StreamerRuns.counts run.1 = [tt]
  /\ StreamerRuns.fetches run.1 = map (fun k => (1000, 1000 * Z.of_nat k)) (seq 0 pages)
  /\ (forall k, (k < pages)%nat <->
        1000 * Z.of_nat k < pool_total
        /\ forall i, (i < k)%nat -> StreamerRuns.window table i <> [])
  /\ (forall k, (k < n)%nat ->
        Z.of_nat (length (StreamerRuns.window table k)) < 1000 ->
        1000 * Z.of_nat (S k) < pool_total ->
        (S k < pages)%nat)
  /\ (exists reps,
        length reps = n
        /\ Forall (fun m => 1 <= m <= 3)%nat reps
        /\ StreamerRuns.bulks run.1
           = concat (zip_with replicate reps
                       (map (fun k => Streamer.bulkOps_of (StreamerRuns.window table k))
                          (seq 0 n))))
  /\ (StreamerRuns.never_throws bulk_reply ->
      StreamerRuns.bulks run.1
      = map (fun k => Streamer.bulkOps_of (StreamerRuns.window table k)) (seq 0 n))
  /\ run.2 <> Returned None
  /\ (pool_total = Z.of_nat (length table) ->
      pages = E
      /\ n = E
      /\ (length table = 2500%nat ->
          E = 3%nat
          /\ map (fun k => Z.of_nat (length (StreamerRuns.window table k))) (seq 0 E)
             = [1000; 1000; 500])).
Proof.
  intros W E n pages run Hz Hfuel.
  destruct (StreamerFacts.stream_loop_pages table bulk_reply pool_total n 0 fuel
              {| Streamer.offset := 0; Streamer.processedRecords := 0;
                 Streamer.failedRecords := 0 |} [Streamer.PgCount])
    as (t2 & c' & reps & Hrun & Hf & Hc & Hlen & Hall & Hbu & Hb);
    [reflexivity | exact Hfuel | reflexivity |].
  fold E W pages in Hf.
  assert (Hpair : exists tail,
            run.1 = [Streamer.PgCount] ++ t2 ++ tail
            /\ StreamerRuns.fetches tail = [] /\ StreamerRuns.counts tail = []
            /\ StreamerRuns.bulks tail = []
            /\ run.2 <> Returned None).
  { unfold run.
    rewrite (StreamerFacts.stream_unfold table bulk_reply refresh_reply count_reply
               pool_total fuel Hz), Hrun.
    destruct refresh_reply as [u|e]; [destruct count_reply as [m|e]|];
      eexists; (split; [cbn [fst]; rewrite <- app_assoc; reflexivity|]);
      repeat split; discriminate. }
  destruct Hpair as (tail & Ht & Hft & Hct & Hbt & Ho).
  assert (HE : forall i, (i < E)%nat -> StreamerRuns.window table i <> [])
    by (intros i Hi; by apply (StreamerFacts.window_nonempty table bulk_reply)).
  split.
  { rewrite Ht, !StreamerFacts.counts_app, Hc, Hct. reflexivity. }
  split.
  { rewrite Ht, !StreamerFacts.fetches_app, Hf, Hft, app_nil_r. reflexivity. }
  split.
  { intros k. unfold pages, n.
    pose proof (StreamerFacts.offsets_below_spec pool_total k) as Hk.
    fold W in Hk. change Streamer.BATCH_SIZE with 1000 in Hk.
    destruct (Nat.ltb_spec E W) as [Hlt|Hge]; split.
    - intros Hp. split; [apply Hk; lia|]. intros i Hi. apply HE. lia.
    - intros [Hb1 Hb2].
      destruct (Nat.lt_ge_cases k (S (Nat.min W E))) as [|Hbig]; [done|exfalso].
      apply (Hb2 E); [lia|]. apply StreamerFacts.window_empty. lia.
    - intros Hp. split; [apply Hk; lia|]. intros i Hi. apply HE. lia.
    - intros [Hb1 _]. apply Hk in Hb1. lia. }
  split.
  { intros k Hk Hshort Hnext.
    pose proof (StreamerFacts.offsets_below_spec pool_total (S k)) as HS.
    fold W in HS. change Streamer.BATCH_SIZE with 1000 in HS. apply HS in Hnext.
    assert (HEk : E = S k).
    { unfold StreamerRuns.window in Hshort.
      rewrite length_take, length_drop in Hshort.
      unfold n in Hk. unfold E, StreamerRuns.window_count, Streamer.BATCH_SIZE in *.
      Z.div_mod_to_equations. lia. }
    unfold pages, n. destruct (Nat.ltb_spec E W); lia. }
  split.
  { exists reps. split; [exact Hlen|]. split; [exact Hall|].
    rewrite Ht, !StreamerFacts.bulks_app, Hbu, Hbt, app_nil_r. reflexivity. }
  split.
  { intros Hnever.
    rewrite Ht, !StreamerFacts.bulks_app, (Hb Hnever), Hbt, app_nil_r. reflexivity. }
  split; [exact Ho|].
  intros Htotal.
  assert (HWE : W = E) by (unfold W, E; rewrite Htotal; reflexivity).
  split; [unfold pages, n; destruct (Nat.ltb_spec E W); lia|].
  split; [unfold n; lia|].
  intros Hlen2500.
  assert (HK : E = 3%nat) by (unfold E; rewrite Hlen2500; reflexivity).
  split; [exact HK|].
  rewrite HK. cbn [seq map].
  rewrite !StreamerFacts.window_length, Hlen2500. reflexivity.
Qed.

Lemma C5_fixed_size_windows_witness :
  StreamerRuns.fetches
    (Streamer.streamDataToElasticSearch StreamerRuns.table2500 2500 StreamerRuns.bulk_ok
       (Returned tt) (Returned 2500) 4 []).1
  = [(1000, 0); (1000, 1000); (1000, 2000)]
  /\ map (fun b => Z.of_nat (length b) / 2)
       (StreamerRuns.bulks
          (Streamer.streamDataToElasticSearch StreamerRuns.table2500 2500
             StreamerRuns.bulk_ok (Returned tt) (Returned 2500) 4 []).1)
     = [1000; 1000; 500]
  /\ map (fun k => Z.of_nat (length (StreamerRuns.window StreamerRuns.table2500 k)))
       (seq 0 (StreamerRuns.window_count (length StreamerRuns.table2500)))
     = [1000; 1000; 500].
Proof.
  assert (Hz : (2500 : Z) <> 0) by discriminate.
  assert (Hfuel : (S (Nat.min (StreamerRuns.offsets_below 2500)
                         (StreamerRuns.window_count (length StreamerRuns.table2500)))
                   <= 4)%nat)
    by (vm_compute; lia).
  destruct (C5_fixed_size_windows StreamerRuns.table2500 2500 StreamerRuns.bulk_ok
              (Returned tt) (Returned 2500) 4 Hz Hfuel)
    as (_ & Hf & _ & _ & _ & Hb & _ & H2500).
  split; [|split].
  - rewrite Hf. reflexivity.
  - rewrite Hb by (intros m b; eexists; reflexivity).
    vm_compute. reflexivity.
  - apply H2500; vm_compute; reflexivity.
Defined.



(** The run of the witness above, evaluated: the first window is given up
    after three requests and two pauses, the other two windows are indexed. *)
Example failed_window_run :
  let run := Streamer.streamDataToElasticSearch StreamerRuns.table2500 2500
               StreamerRuns.bulk_first_window_down (Returned tt) (Returned 1500) 3 [] in
  run.2 = Returned (Some (Streamer.Synced 1500 1000 1500))
  /\ StreamerRuns.sleeps run.1 = [1000; 2000; 100; 100; 100]
  /\ StreamerRuns.fetches run.1 = [(1000, 0); (1000, 1000); (1000, 2000)]
  /\ length (StreamerRuns.bulks run.1) = 5%nat.
Proof. vm_compute. repeat split. Qed.

(** ** Change capture *)

Module CaptureFacts.
Import Transformer Streamer CaptureRuns.

Section AnyClient.
Variable esClient_index : string -> SearchDocument -> EsStore -> EsStore * Outcome unit.
Variable esClient_delete : string -> EsStore -> EsStore * Outcome unit.

(** Nothing the client, the payload or the transformer throws leaves the
    listener. *)
Lemma on_notification_completes msg s :
  (on_notification esClient_index esClient_delete msg s).2 = Returned tt.
Proof.
  unfold on_notification, try_catch, bind.
  destruct msg as [p|]; simpl; [|reflexivity].
  destruct (String.eqb (operation p) "INSERT" || String.eqb (operation p) "UPDATE").
  - unfold bind. destruct (payload_data p) as [r|]; simpl; [|reflexivity].
    unfold on_store. destruct (esClient_index _ _ _) as [st [[]|e]]; reflexivity.
  - destruct (String.eqb (operation p) "DELETE"); simpl; [|reflexivity].
    unfold bind, on_store.
    destruct (esClient_delete _ _) as [st [[]|e]]; reflexivity.
Qed.

(** A delete event, by the answer of the client. *)
Lemma delete_thrown st lg k data st' e :
  esClient_delete k st = (st', Thrown e) ->
  on_notification esClient_index esClient_delete (delete_event k data)
    {| store := st; log := lg |}
  = ({| store := st';
        log := lg ++ [LogError "Failed to process real-time update:" e] |},
     Returned tt).
Proof.
  intros H. unfold on_notification, try_catch, bind, on_store; simpl.
  by rewrite H.
Qed.

Lemma delete_returned st lg k data st' :
  esClient_delete k st = (st', Returned tt) ->
  on_notification esClient_index esClient_delete (delete_event k data)
    {| store := st; log := lg |}
  = ({| store := st';
        log := lg ++ [LogDebug ("Real-time deleted document ID: " +:+ k)] |},
     Returned tt).
Proof.
  intros H. unfold on_notification, try_catch, bind, on_store; simpl.
  by rewrite H.
Qed.

End AnyClient.

Lemma delete_missing st lg k data :
  st !! k = None ->
  on_notification es_index es_delete (delete_event k data) {| store := st; log := lg |}
  = ({| store := st;
        log := lg ++ [LogError "Failed to process real-time update:"
                        "ResponseError: not_found (404)"] |},
     Returned tt).
Proof.
  intros Hk. unfold on_notification, try_catch, bind, on_store, es_delete; simpl.
  by rewrite Hk.
Qed.

Lemma delete_existing st lg k data d :
  st !! k = Some d ->
  on_notification es_index es_delete (delete_event k data) {| store := st; log := lg |}
  = ({| store := delete k st;
        log := lg ++ [LogDebug ("Real-time deleted document ID: " +:+ k)] |},
     Returned tt).
Proof.
  intros Hk. unfold on_notification, try_catch, bind, on_store, es_delete; simpl.
  by rewrite Hk.
Qed.

End CaptureFacts.

(** C7, counterexample.  The event [{operation: DELETE, id: k1}] arrives
    once when the search store holds no document of key k1 and once when it
    holds one.  Both runs end without throwing and with the same store, but
    they are not treated alike: the first takes the [catch] branch and logs
    the 404 of the client as a failure to process the update, the second
    logs the deletion. *)
Lemma C7_missing_key_logged_as_failure :
  let msg := CaptureRuns.delete_event "k1" None in
  let missing :=
    Streamer.on_notification Streamer.es_index Streamer.es_delete msg
      {| Streamer.store := ∅; Streamer.log := [] |} in
  let existing :=
    Streamer.on_notification Streamer.es_index Streamer.es_delete msg
      {| Streamer.store := <["k1" := CaptureRuns.k1_doc]> ∅; Streamer.log := [] |} in
  Streamer.log missing.1
  = [Streamer.LogError "Failed to process real-time update:"
       "ResponseError: not_found (404)"]
  /\ Streamer.log existing.1 = [Streamer.LogDebug "Real-time deleted document ID: k1"]
  /\ Streamer.store missing.1 = Streamer.store existing.1
  /\ missing.2 = existing.2
  /\ missing <> existing.
Proof.
  intros msg missing existing. unfold missing, existing, msg.
  rewrite (CaptureFacts.delete_missing ∅ [] "k1" None (lookup_empty "k1")).
  rewrite (CaptureFacts.delete_existing (<["k1" := CaptureRuns.k1_doc]> ∅) [] "k1" None
             CaptureRuns.k1_doc) by apply lookup_insert_eq.
  cbn [fst snd Streamer.log Streamer.store app].
  split; [reflexivity|]. split; [reflexivity|].
  split; [symmetry; apply delete_insert_id, lookup_empty|].
  split; [reflexivity|].
  intros H. apply (f_equal (fun x => Streamer.log x.1)) in H. discriminate H.
Qed.

(** C7, amended.  A delete event never throws out of the listener, and what
    it does is fixed by the answer of the search client alone.  When the
    client's delete throws, whatever the error, the listener takes its one
    [catch] branch: the error is logged under the message of a failed
    update and the event ends; when it returns, the deletion is logged.  No
    answer is told apart from the others, a 404 included.  With a search
    store that answers 404 for a key that has no document: the event on a
    missing key leaves the store as it was and logs that 404 as a failure;
    the event on a key that has a document removes the document and logs
    the deletion. *)
Theorem C7_delete_missing_key_completes
    (esClient_index : string -> Transformer.SearchDocument -> Streamer.EsStore
                      -> Streamer.EsStore * Outcome unit)
    (esClient_delete : string -> Streamer.EsStore -> Streamer.EsStore * Outcome unit)
    (st : gmap string Transformer.SearchDocument) (lg : list Streamer.LogEntry)
    (k : string) (data : option Transformer.CompensationRecord) :
  let msg := Some {| Streamer.operation := "DELETE"; Streamer.payload_id := k;
                     Streamer.payload_data := data |} in
  let s := {| Streamer.store := st; Streamer.log := lg |} in
  (forall st' e,
     esClient_delete k st = (st', Thrown e) ->
     Streamer.on_notification esClient_index esClient_delete msg s
     = ({| Streamer.store := st';
           Streamer.log :=
             lg ++ [Streamer.LogError "Failed to process real-time update:" e] |},
        Returned tt))
  /\ (forall st',
        esClient_delete k st = (st', Returned tt) ->
        Streamer.on_notification esClient_index esClient_delete msg s
        = ({| Streamer.store := st';
              Streamer.log :=
                lg ++ [Streamer.LogDebug ("Real-time deleted document ID: " +:+ k)] |},
           Returned tt))
  /\ (st !! k = None ->
      Streamer.on_notification Streamer.es_index Streamer.es_delete msg s
      = ({| Streamer.store := st;
            Streamer.log :=
              lg ++ [Streamer.LogError "Failed to process real-time update:"
                       "ResponseError: not_found (404)"] |},
         Returned tt))
  /\ (forall d,
        st !! k = Some d ->
        Streamer.on_notification Streamer.es_index Streamer.es_delete msg s
        = ({| Streamer.store := delete k st;
              Streamer.log :=
                lg ++ [Streamer.LogDebug ("Real-time deleted document ID: " +:+ k)] |},
           Returned tt)).
Proof.
  intros msg s. split; [|split; [|split]].
  - intros st' e H. apply CaptureFacts.delete_thrown. exact H.
  - intros st' H. apply CaptureFacts.delete_returned. exact H.
  - intros Hk. by apply CaptureFacts.delete_missing.
  - intros d Hk. by apply (CaptureFacts.delete_existing st lg k data d).
Qed.

Lemma C7_delete_missing_key_witness :
  Streamer.on_notification Streamer.es_index Streamer.es_delete
    (Some {| Streamer.operation := "DELETE"; Streamer.payload_id := "k1";
             Streamer.payload_data := None |})
    {| Streamer.store := ∅; Streamer.log := [] |}
  = ({| Streamer.store := ∅;
        Streamer.log := [Streamer.LogError "Failed to process real-time update:"
                           "ResponseError: not_found (404)"] |},
     Returned tt).
Proof.
  destruct (C7_delete_missing_key_completes Streamer.es_index Streamer.es_delete
              ∅ [] "k1" None) as (_ & _ & H & _).
  exact (H (lookup_empty "k1")).
Defined.

(** ** Equivalence of the two translations *)

Module EquivalenceFacts.
Import Translator Router Stores EquivalenceFixtures.

(** The translations agree on a range slot: both bounds are inclusive and
    carry the same values. *)
Lemma range_slot_inclusive (lo hi : Z) :
  let f := {| employer := None; jobTitleContains := None; locationContains := None;
              industry := None; gender := None;
              annualBasePay := Some {| min := Val lo; max := Val hi |};
              yearsExperienceIndustry := None; timestampAfter := None;
              timestampBefore := None; healthInsuranceOffered := Undefined;
              dataQualityScoreMin := Undefined |} in
  whereConditions (buildWhereClause (Some f))
  = [{| column := "annual_base_pay"; op := GE; param := 1 |};
     {| column := "annual_base_pay"; op := LE; param := 2 |}]
  /\ whereParams (buildWhereClause (Some f)) = [VInt lo; VInt hi]
  /\ Translator.query (body (buildElasticSearchQuery (Some f) None None))
     = Bool_must [RangeClause "annual_base_pay" (Some (VInt lo)) (Some (VInt hi))].
Proof. repeat split. Qed.

End EquivalenceFacts.

(** C2, at the failing input.  The filter has no fuzzy-text slot, only the
    boolean slot [healthInsuranceOffered = true].  The relational translation
    keeps the condition and selects the key "r1"; the search translation has
    an empty [bool.must] and selects "r1" and "r2".  With the allow-listed
    sort field ANNUAL_BASE_PAY the relational order is by [annual_base_pay]
    and the search order is by a field named "annualbase_pay". *)
Theorem C2_translations_diverge :
  let f := EquivalenceFixtures.insured_only in
  let table := [EquivalenceFixtures.r1; EquivalenceFixtures.r2] in
  let w := Translator.buildWhereClause (Some f) in
  let q := Translator.buildElasticSearchQuery (Some f) EquivalenceFixtures.by_base_pay None in
  Translator.has_fuzzy_slot f = false
  /\ Translator.whereClause w = "WHERE health_insurance_offered = $1"
  /\ Translator.whereParams w = [VBool true]
  /\ Translator.query (Translator.body q) = Translator.Bool_must []
  /\ Stores.keys (Stores.pg_select w table) = [VStr "r1"]
  /\ (Stores.keys <$> Stores.es_select q table) = Some [VStr "r1"; VStr "r2"]
  /\ Translator.buildOrderByClause EquivalenceFixtures.by_base_pay
     = "ORDER BY annual_base_pay DESC"
  /\ Translator.sort (Translator.body q) = [("annualbase_pay", "desc")].
Proof. vm_compute. repeat split. Qed.

(** ** Location statistics *)

(** C9, counterexample.  Over the three San Francisco rows the resolver
    reports one group with count 3 whose average is (120000+110000+95000)/3,
    which is 325000/3, about 108333.33; it is not 110833.33. *)
Lemma C9_average_counterexample :
  exists s,
    AggregateFixtures.stats_of AggregateFixtures.sf_table = Returned [s]
    /\ Aggregates.location s = "San Francisco"
    /\ Aggregates.count s = 3
    /\ (Aggregates.averageSalary s == (120000 + 110000 + 95000) / 3)%Q
    /\ ~ (Aggregates.averageSalary s == 11083333 # 100)%Q
    /\ (Aggregates.averageSalary s < 110833)%Q.
Proof.
  eexists. split; [vm_compute; reflexivity|].
  split; [reflexivity|]. split; [reflexivity|].
  split; [reflexivity|]. split; [discriminate | reflexivity].
Qed.

(** C9, amended.  Over a relational store that holds exactly the three San
    Francisco rows with base pay 12000000, 11000000 and 9500000 cents, the
    resolver returns one group, for "San Francisco", with count 3 and an
    average salary of (120000+110000+95000)/3 = 325000/3 whole currency units,
    which lies between 108333.33 and 108333.34; the median is 110000 and the
    minimum and maximum, in cents, are 9500000 and 12000000. *)
Theorem C9_locationStats_san_francisco :
  exists s,
    Aggregates.locationStats (Stores.location_stats AggregateFixtures.sf_table)
      None Undefined = Returned [s]
    /\ Aggregates.location s = "San Francisco"
    /\ Aggregates.count s = 3
    /\ (Aggregates.averageSalary s == 325000 # 3)%Q
    /\ (10833333 # 100 < Aggregates.averageSalary s < 10833334 # 100)%Q
    /\ (Aggregates.medianSalary s == 110000)%Q
    /\ Aggregates.minSalary s = 9500000
    /\ Aggregates.maxSalary s = 12000000.
Proof.
  eexists. split; [vm_compute; reflexivity|].
  repeat split.
Qed.

(** * Further properties of the resolvers *)

Module WhereFacts.
Import Translator TranslatorRuns.






End WhereFacts.



Module OrderFacts.
Import Translator TranslatorRuns.

Lemma order_field_allowed f : order_field f ∈ allow_list.
Proof.
  unfold order_field, allow_list.
  repeat match goal with
         | |- context [String.eqb ?a ?b] => destruct (String.eqb a b)
         end; set_solver.
Qed.

End OrderFacts.

(** X2.  The ORDER BY clause is never empty and names only columns of the
    fixed list, each followed by ASC or DESC, whatever field and direction
    strings the sort items carry: a field outside the list becomes
    [created_at], a direction other than DESC becomes ASC. *)
Theorem X2_order_by_allow_list (sort : option (list Translator.SortItem)) :
  exists items,
    Translator.buildOrderByClause sort = "ORDER BY " +:+ String.concat ", " items
    /\ items <> []
    /\ Forall (fun item =>
         exists col dir,
           item = col +:+ " " +:+ dir
           /\ col ∈ TranslatorRuns.allow_list
           /\ (dir = "ASC" \/ dir = "DESC")) items.
Proof.
  destruct sort as [[|i l]|].
  - exists ["created_at DESC"]. split; [reflexivity|]. split; [discriminate|].
    constructor; [|constructor].
    exists "created_at", "DESC". repeat split; [set_solver | by right].
  - eexists. split; [reflexivity|]. split; [discriminate|].
    apply Forall_forall. intros item Hin.
    apply list_elem_of_fmap in Hin as (si & -> & _).
    eexists (Translator.order_field (Translator.field si)), _.
    split; [reflexivity|]. split; [apply OrderFacts.order_field_allowed|].
    destruct (String.eqb _ _); auto.
  - exists ["created_at DESC"]. split; [reflexivity|]. split; [discriminate|].
    constructor; [|constructor].
    exists "created_at", "DESC". repeat split; [set_solver | by right].
Qed.

Lemma X2_order_by_witness :
  exists items,
    Translator.buildOrderByClause
      (Some [{| Translator.field := "id; DROP TABLE compensation_data";
                Translator.direction := "down" |}])
    = "ORDER BY " +:+ String.concat ", " items
    /\ Forall (fun item =>
         exists col dir,
           item = col +:+ " " +:+ dir
           /\ col ∈ TranslatorRuns.allow_list
           /\ (dir = "ASC" \/ dir = "DESC")) items.
Proof.
  destruct (X2_order_by_allow_list
              (Some [{| Translator.field := "id; DROP TABLE compensation_data";
                        Translator.direction := "down" |}]))
    as (items & Hclause & _ & Hitems).
  exists items. split; [exact Hclause | exact Hitems].
Defined.

Module MoneyFacts.
Import Resolvers.

(** [Math.round(c / 100)] on an integer [c] is the integer division of
    [c + 50] by 100. *)
Lemma round_cents (c : Z) : Aggregates.round (inject_Z c / 100) = (c + 50) / 100.
Proof.
  unfold Aggregates.round, Qfloor, Qdiv, Qmult, Qplus, Qinv, inject_Z; simpl.
  change (Z.pos (1 * 100 * 2)) with (100 * 2).
  change (Z.pos (1 * 100)) with 100.
  replace (c * 1 * 2 + 1 * 100) with ((c + 50) * 2) by lia.
  rewrite Z.div_mul_cancel_r by lia. reflexivity.
Qed.

Lemma chars_app (s1 s2 : string) :
  String.list_ascii_of_string (s1 +:+ s2)
  = String.list_ascii_of_string s1 ++ String.list_ascii_of_string s2.
Proof.
  induction s1 as [|a s1 IH]; [reflexivity|].
  change (String.list_ascii_of_string (String a (s1 +:+ s2))
          = a :: String.list_ascii_of_string s1 ++ String.list_ascii_of_string s2).
  cbn [String.list_ascii_of_string]. by rewrite IH.
Qed.

Lemma digits_from_snoc l : forall acc c d,
  digit_of c = Some d ->
  digits_from acc (l ++ [c]) = (fun v => 10 * v + d) <$> digits_from acc l.
Proof.
  induction l as [|a l IH]; intros acc c d Hc.
  - cbn [app digits_from]. by rewrite Hc.
  - cbn [app digits_from]. destruct (digit_of a); [by apply IH | reflexivity].
Qed.

(** A text that denotes [z], with a zero written after it, denotes [10 z]. *)
Lemma number_of_text_zero s z :
  number_of_text s = Some z -> s <> "" -> number_of_text (s +:+ "0") = Some (10 * z).
Proof.
  unfold number_of_text. rewrite chars_app.
  change (String.list_ascii_of_string "0") with ["0"%char].
  destruct (String.list_ascii_of_string s) as [|c l] eqn:Hl.
  { intros _ Hne. destruct s; [done | discriminate Hl]. }
  intros Hz _. cbn [app].
  assert (Hsnoc : forall acc, digits_from acc (l ++ ["0"%char])
                              = (fun v => 10 * v + 0) <$> digits_from acc l)
    by (intros acc; by apply digits_from_snoc).
  destruct (Ascii.eqb c "-").
  - destruct l as [|a l']; [discriminate Hz|].
    change ((a :: l') ++ ["0"%char]) with (a :: (l' ++ ["0"%char])).
    change (a :: (l' ++ ["0"%char])) with ((a :: l') ++ ["0"%char]).
    rewrite Hsnoc. destruct (digits_from 0 (a :: l')) as [v|]; [|discriminate Hz].
    injection Hz as <-. simpl. f_equal. lia.
  - destruct (Ascii.eqb c "+").
    + destruct l as [|a l']; [discriminate Hz|].
      change ((a :: l') ++ ["0"%char]) with (a :: (l' ++ ["0"%char])).
      change (a :: (l' ++ ["0"%char])) with ((a :: l') ++ ["0"%char]).
      rewrite Hsnoc. destruct (digits_from 0 (a :: l')) as [v|]; [|discriminate Hz].
      injection Hz as <-. simpl. f_equal. lia.
    + change (c :: l ++ ["0"%char]) with ((c :: l) ++ ["0"%char]).
      rewrite (digits_from_snoc (c :: l) 0 "0" 0) by reflexivity.
      rewrite Hz. simpl. f_equal. lia.
Qed.

(** The total of a row whose base pay is a text and whose bonus and stock
    are absent: the text with two zeros after it. *)
Lemma total_of_text (r : Transformer.CompensationRecord) b :
  Transformer.annual_base_pay r = Some (AText b) -> b <> "" ->
  Transformer.annual_bonus r = None -> Transformer.stock_value r = None ->
  Transformer.total_compensation (Transformer.transformRecord r)
  = AText ((b +:+ "0") +:+ "0").
Proof.
  intros Hb Hne Hs Hk. unfold Transformer.transformRecord.
  cbn [Transformer.total_compensation]. rewrite Hb, Hs, Hk.
  unfold or_zero at 1. cbn [truthy_amount].
  destruct (String.eqb_spec b ""); [done|]. reflexivity.
Qed.

End MoneyFacts.

(** X3.  [centsToDollars] gives null for null and for the number 0; for
    another number of cents it gives whole dollars that differ from the
    amount by at most 50 cents, a half being rounded up.  A text that is not
    empty is truthy and is converted as the number it denotes, so the text
    "0", which is what the relational driver delivers for a stored amount of
    0, gives 0 and not null.  The [totalCompensation] field of the API is that
    conversion of the total the streamer computes for the same row; for a row
    as the relational store delivers it, with the base pay as a text and no
    bonus and no stock, that total is the text with two zeros after it, and
    the field gives the number of cents of the base pay as if it were
    dollars.  (Amounts within the integers a JavaScript number holds
    exactly.) *)
Theorem X3_centsToDollars_rounding
    (c n : Z) (s : string) (r : Transformer.CompensationRecord) :
  Transformer.safe c ->
  Transformer.safe (100 * n) ->
  Resolvers.centsToDollars None = Resolvers.DNull
  /\ (Resolvers.centsToDollars (Some (ANum c)) = Resolvers.DNull <-> c = 0)
  /\ (c <> 0 ->
      exists d, Resolvers.centsToDollars (Some (ANum c)) = Resolvers.DWhole d
                /\ c - 50 < 100 * d <= c + 50)
  /\ (s <> "" -> number_of_text s = Some n ->
      Resolvers.centsToDollars (Some (AText s))
      = Resolvers.DWhole (Aggregates.round (Transformer.units n)))
  /\ Resolvers.totalCompensation r
     = Resolvers.centsToDollars
         (Some (Transformer.total_compensation (Transformer.transformRecord r)))
  /\ (Transformer.annual_base_pay r = Some (AText s) -> s <> "" ->
      Transformer.annual_bonus r = None -> Transformer.stock_value r = None ->
      number_of_text s = Some n ->
      Transformer.total_compensation (Transformer.transformRecord r)
      = AText ((s +:+ "0") +:+ "0")
      /\ Resolvers.totalCompensation r = Resolvers.DWhole n).
Proof.
  intros _ _. split; [reflexivity|]. split.
  { unfold Resolvers.centsToDollars. cbn [truthy_amount to_number].
    destruct (Z.eqb_spec c 0) as [->|Hc]; cbn [negb]; split; intros H;
      first [reflexivity | contradiction | discriminate H]. }
  split.
  { intros Hc. unfold Resolvers.centsToDollars. cbn [truthy_amount to_number].
    destruct (Z.eqb_spec c 0); [contradiction|]. cbn [negb].
    eexists. split; [reflexivity|]. rewrite MoneyFacts.round_cents.
    Z.div_mod_to_equations. lia. }
  split.
  { intros Hne Hn. unfold Resolvers.centsToDollars. cbn [truthy_amount to_number].
    destruct (String.eqb_spec s ""); [contradiction|]. cbn [negb].
    by rewrite Hn. }
  split; [reflexivity|].
  intros Hb Hne Hs Hk Hn.
  pose proof (MoneyFacts.total_of_text r s Hb Hne Hs Hk) as Ht.
  split; [exact Ht|].
  change (Resolvers.totalCompensation r)
    with (Resolvers.centsToDollars
            (Some (Transformer.total_compensation (Transformer.transformRecord r)))).
  rewrite Ht. unfold Resolvers.centsToDollars. cbn [truthy_amount to_number].
  assert (Hz : number_of_text ((s +:+ "0") +:+ "0") = Some (100 * n)).
  { rewrite (MoneyFacts.number_of_text_zero (s +:+ "0") (10 * n)).
    - f_equal. lia.
    - by apply MoneyFacts.number_of_text_zero.
    - destruct s; [done | discriminate]. }
  rewrite Hz.
  destruct (String.eqb_spec ((s +:+ "0") +:+ "0") "") as [He|_].
  { destruct s; discriminate He. }
  cbn [negb]. f_equal. rewrite MoneyFacts.round_cents.
  Z.div_mod_to_equations. lia.
Qed.

Lemma X3_centsToDollars_witness :
  Resolvers.centsToDollars (Some (AText "0")) = Resolvers.DWhole 0
  /\ Transformer.total_compensation
       (Transformer.transformRecord (TransformerFixtures.stored "12000000"))
     = AText "1200000000"
  /\ Resolvers.totalCompensation (TransformerFixtures.stored "12000000")
     = Resolvers.DWhole 12000000.
Proof.
  assert (Hsafe : forall m, -10000000000 <= m <= 10000000000 -> Transformer.safe m).
  { intros m Hm. unfold Transformer.safe. change (2 ^ 53) with 9007199254740992. lia. }
  split.
  - destruct (X3_centsToDollars_rounding 1 0 "0" TransformerFixtures.entry_record)
      as (_ & _ & _ & H & _); [apply Hsafe; lia | apply Hsafe; lia |].
    apply H; [discriminate | reflexivity].
  - destruct (X3_centsToDollars_rounding 1 12000000 "12000000"
                (TransformerFixtures.stored "12000000"))
      as (_ & _ & _ & _ & _ & H); [apply Hsafe; lia | apply Hsafe; lia |].
    apply H; [reflexivity | discriminate | reflexivity | reflexivity | reflexivity].
Defined.

Module CompensationFacts.
Import Translator Router RouterRuns RouterFacts Resolvers.

Section Runs.
Variable ENABLE_FALLBACK : bool.
Variable client_search : EsQuery -> Outcome EsResult.
Variable pool_query : string -> list Value -> Outcome PgResult.


End Runs.

End CompensationFacts.



(** X5.  [Query.health] never throws.  It reports "healthy" exactly when the
    relational probe returns, whether or not the search store answers the
    ping and whether or not the probe has a row; the search store is reported
    "connected" only on a healthy answer whose ping returned, and "unknown"
    on every unhealthy answer. *)
Theorem X5_health_never_throws
    (ENABLE_FALLBACK : bool)
    (pool_query : string -> list Value -> Outcome Router.PgResult)
    (client_ping : Outcome unit) (t : Router.Trace) :
  exists h,
    Resolvers.health ENABLE_FALLBACK pool_query client_ping t
    = (t ++ [Router.PgQuery "SELECT 1" []], Returned h)
    /\ (Resolvers.status h = "healthy"
        <-> exists r, pool_query "SELECT 1" [] = Returned r)
    /\ (Resolvers.status h = "healthy" \/ Resolvers.status h = "unhealthy")
    /\ (Resolvers.elasticsearch h = "connected"
        <-> (exists r, pool_query "SELECT 1" [] = Returned r)
            /\ client_ping = Returned tt)
    /\ (Resolvers.status h = "unhealthy" -> Resolvers.elasticsearch h = "unknown")
    /\ Resolvers.fallbackEnabled h = ENABLE_FALLBACK.
Proof.
  unfold Resolvers.health, try_catch. unfold bind at 1.
  rewrite RouterFacts.query_run.
  destruct (pool_query "SELECT 1" []) as [r|e]; simpl.
  - unfold bind, lift_outcome, ret. destruct client_ping as [[]|e]; simpl;
      eexists; (split; [reflexivity|]); simpl; repeat split; eauto;
      try discriminate; intros; destruct_and?; try discriminate; auto.
  - eexists; (split; [reflexivity|]); simpl; repeat split; eauto;
      try discriminate; intros; destruct_and?;
      repeat match goal with H : exists _, _ |- _ => destruct H end;
      try discriminate; auto.
Qed.

Lemma X5_health_witness :
  exists h,
    Resolvers.health true RouterFixtures.pool_down (Returned tt) []
    = ([Router.PgQuery "SELECT 1" []], Returned h)
    /\ Resolvers.elasticsearch h = "unknown".
Proof.
  destruct (X5_health_never_throws true RouterFixtures.pool_down (Returned tt) [])
    as (h & Hrun & Hhealthy & Hstatus & _ & Hunknown & _).
  exists h. split; [exact Hrun|].
  apply Hunknown. destruct Hstatus as [Hs|Hs]; [|exact Hs].
  apply Hhealthy in Hs. destruct Hs as [r Hr]. discriminate Hr.
Defined.

Module FragmentFacts.
Import Translator Router Stores EquivalenceRuns.

Lemma filter_ext_bool {A} (f g : A -> bool) (l : list A) :
  (forall x, f x = g x) ->
  filter (fun x => f x = true) l = filter (fun x => g x = true) l.
Proof.
  intros Hfg. induction l as [|x l IH]; [reflexivity|].
  rewrite !filter_cons, IH. destruct (decide (f x = true)) as [Hf|Hf];
    destruct (decide (g x = true)) as [Hg|Hg]; try reflexivity;
    rewrite Hfg in Hf; contradiction.
Qed.

(** A query that gives every document a verdict selects by that verdict. *)
Lemma es_select_pointwise (q : EsQuery) (b : Row -> bool) (docs : list Row) :
  (forall d, matches d (Translator.query (body q)) = Some (b d)) ->
  es_select q docs = Some (filter (fun d => b d = true) docs).
Proof.
  intros Hb. unfold es_select.
  assert (Hall : forallb (fun d => bool_decide
                   (is_Some (matches d (Translator.query (body q))))) docs = true).
  { apply forallb_forall. intros d _. rewrite Hb. by apply bool_decide_eq_true. }
  rewrite Hall. clear Hall. f_equal.
  induction docs as [|d docs IH]; [reflexivity|].
  rewrite !filter_cons, IH, Hb.
  destruct (decide (Some (b d) = Some true)) as [H1|H1];
    destruct (decide (b d = true)) as [H2|H2]; try reflexivity.
  - exfalso. apply H2. congruence.
  - exfalso. apply H1. congruence.
Qed.

Lemma falsy_slot s : bool_decide (is_Some (truthy_string s)) = false -> truthy_string s = None.
Proof.
  destruct (truthy_string s); [|reflexivity].
  intros H. apply bool_decide_eq_false in H. exfalso. apply H. by eexists.
Qed.

Ltac by_value :=
  repeat match goal with
         | |- context [col ?d ?c] =>
             let v := fresh "v" in
             generalize (col d c); intros v; destruct v
         end;
  simpl; try reflexivity;
  repeat match goal with
         | |- context [Qle_bool ?a ?b] => destruct (Qle_bool a b)
         | |- context [String.eqb ?a ?b] => destruct (String.eqb a b)
         end; reflexivity.

(** On the fragment both translations give every row the same verdict. *)
Lemma same_verdict (f : Filter) (d : Row) :
  common_fragment f = true ->
  matches d (Bool_must (buildMust f))
  = Some (forallb (holds (whereParams (buildWhereClause (Some f))) d)
            (whereConditions (buildWhereClause (Some f)))).
Proof.
  destruct f as [emp job loc ind gen base years after before health quality].
  unfold common_fragment, has_fuzzy_slot; simpl.
  intros H. repeat (apply andb_prop in H as [H ?]).
  apply negb_true_iff in H. repeat (apply orb_false_elim in H as [H ?]).
  repeat match goal with
         | H : negb _ = true |- _ => apply negb_true_iff in H
         | H : bool_decide (is_Some (truthy_string _)) = false |- _ =>
             apply falsy_slot in H
         end.
  destruct after, before, health, quality; try discriminate.
  unfold buildMust, buildWhereClause, buildConditions, when_truthy, opt_clause; simpl.
  repeat match goal with H : truthy_string _ = None |- _ => rewrite H; clear H end.
  destruct (truthy_string ind) as [s|];
    destruct base as [[[| |lo] [| |hi]]|]; try discriminate;
    destruct years as [[[| |ylo] [| |yhi]]|]; try discriminate;
    cbn; by_value.
Qed.

End FragmentFacts.

(** X6.  For a filter that sets only the industry slot and range slots with
    at least one bound each and no null bound, the relational conditions and
    the search clauses select the same rows of any table, in the same table
    order, whatever the sort and pagination: exact industry on both sides,
    inclusive bounds on both sides.  (The stores' meaning of the emitted
    conditions and clauses is that of [Stores].) *)
Theorem X6_common_fragment_selects_alike
    (f : Translator.Filter) (sort : option (list Translator.SortItem))
    (pagination : option Translator.Pagination) (table : list (gmap string Value)) :
  EquivalenceRuns.common_fragment f = true ->
  Stores.es_select (Translator.buildElasticSearchQuery (Some f) sort pagination) table
  = Some (Stores.pg_select (Translator.buildWhereClause (Some f)) table).
Proof.
  intros Hf.
  rewrite (FragmentFacts.es_select_pointwise _
             (fun d => forallb (Stores.holds
                          (Translator.whereParams (Translator.buildWhereClause (Some f))) d)
                         (Translator.whereConditions
                            (Translator.buildWhereClause (Some f))))).
  - reflexivity.
  - intros d. simpl. by apply FragmentFacts.same_verdict.
Qed.

Lemma X6_common_fragment_witness :
  Stores.keys
  <$> Stores.es_select
        (Translator.buildElasticSearchQuery
           (Some (EquivalenceRuns.tech_paid 10000000 15000000)) None None)
        ResolverFixtures.tech_table
  = Some [VStr "a"].
Proof.
  rewrite (X6_common_fragment_selects_alike
             (EquivalenceRuns.tech_paid 10000000 15000000) None None
             ResolverFixtures.tech_table eq_refl).
  reflexivity.
Defined.

Module AggregateFacts.
Import Translator Router RouterRuns Resolvers ResolverFixtures.

Section Runs.
Variable client_aggregations : EsAggQuery -> Outcome (option Json).
Variable pool_stats : WhereClause -> list Value -> Outcome (list StatsRow).

Lemma aggregate_run q t :
  aggregate client_aggregations q t = (t ++ [EsAggregate q], client_aggregations q).
Proof.
  unfold aggregate, try_catch, bind, note, modify, lift_outcome, throw; simpl.
  destruct (client_aggregations q); reflexivity.
Qed.

Lemma query_stats_run w params t :
  query_stats pool_stats w params t = (t ++ [PgAggregate w params], pool_stats w params).
Proof.
  unfold query_stats, try_catch, bind, note, modify, lift_outcome, throw; simpl.
  destruct (pool_stats w params); reflexivity.
Qed.

Lemma aggregateWithFallback_enabled q w params t :
  aggregateWithFallback true client_aggregations pool_stats q w params t
  = match taken (client_aggregations q) with
    | Some inner => (t ++ [EsAggregate q], Returned (FromSearch (Some inner)))
    | None =>
        (t ++ [EsAggregate q; PgAggregate w params],
         outcome_map (fun r => FromPool r (Some "postgresql")) (pool_stats w params))
    end.
Proof.
  assert (Hpool : forall t1,
    bind (query_stats pool_stats w params)
      (fun pgResult => ret (FromPool pgResult (Some "postgresql"))) t1
    = (t1 ++ [PgAggregate w params],
       outcome_map (fun r => FromPool r (Some "postgresql")) (pool_stats w params))).
  { intros t1. unfold bind. rewrite query_stats_run.
    destruct (pool_stats w params); reflexivity. }
  unfold aggregateWithFallback; simpl.
  unfold bind at 1. unfold try_catch at 1. unfold bind at 1.
  rewrite aggregate_run.
  destruct (client_aggregations q) as [[[| n |fields]|]|e]; simpl;
    try (etrans; [apply Hpool | by rewrite <- app_assoc]).
  - destruct (negb (Qeq_bool n 0)); simpl;
      (etrans; [apply Hpool | by rewrite <- app_assoc]).
  - unfold prop, bind, ret; simpl.
    destruct (field "aggregations" fields) as [inner|] eqn:Hin; simpl.
    + destruct inner as [| n |fs]; simpl; try reflexivity;
        try (etrans; [apply Hpool | by rewrite <- app_assoc]).
      destruct (negb (Qeq_bool n 0)); simpl; [reflexivity|].
      etrans; [apply Hpool | by rewrite <- app_assoc].
    + etrans; [apply Hpool | by rewrite <- app_assoc].
Qed.

Lemma aggregateWithFallback_disabled q w params t :
  aggregateWithFallback false client_aggregations pool_stats q w params t
  = (t ++ [PgAggregate w params],
     outcome_map (fun r => FromPool r None) (pool_stats w params)).
Proof.
  unfold aggregateWithFallback; simpl. unfold bind. rewrite query_stats_run.
  destruct (pool_stats w params); reflexivity.
Qed.

End Runs.

End AggregateFacts.

(** X7.  [aggregateWithFallback] takes the answer of the search store only
    when that answer is an object with a truthy member named [aggregations];
    since [aggregate] already hands back the [aggregations] of the response,
    an answer that holds the requested aggregations under their own names is
    not taken and the relational statement is run, as it is after an error;
    with the gate closed only the relational statement is run and its result
    is not tagged. *)
Theorem X7_aggregate_fallback
    (client_aggregations : Resolvers.EsAggQuery -> Outcome (option Resolvers.Json))
    (pool_stats : Translator.WhereClause -> list Value
                  -> Outcome (list Resolvers.StatsRow))
    (q : Resolvers.EsAggQuery) (w : Translator.WhereClause) (params : list Value)
    (t : list Resolvers.AggEvent) :
  let on := Resolvers.aggregateWithFallback true client_aggregations pool_stats
              q w params t in
  let off := Resolvers.aggregateWithFallback false client_aggregations pool_stats
               q w params t in
  let relational :=
    (t ++ [Resolvers.EsAggregate q; Resolvers.PgAggregate w params],
     RouterRuns.outcome_map (fun r => Resolvers.FromPool r (Some "postgresql"))
       (pool_stats w params)) in
  off = (t ++ [Resolvers.PgAggregate w params],
         RouterRuns.outcome_map (fun r => Resolvers.FromPool r None)
           (pool_stats w params))
  /\ (forall a, on.2 = Returned (Resolvers.FromSearch a) ->
        exists fields inner,
          client_aggregations q = Returned (Some (Resolvers.JObj fields))
          /\ Resolvers.field "aggregations" fields = Some inner
          /\ Resolvers.truthy (Some inner) = true
          /\ a = Some inner
          /\ on.1 = t ++ [Resolvers.EsAggregate q])
  /\ (forall fields,
        client_aggregations q = Returned (Some (Resolvers.JObj fields)) ->
        Resolvers.field "aggregations" fields = None ->
        on = relational)
  /\ (forall e, client_aggregations q = Thrown e -> on = relational).
Proof.
  intros on off relational. unfold on, off, relational.
  rewrite AggregateFacts.aggregateWithFallback_disabled,
    AggregateFacts.aggregateWithFallback_enabled.
  split; [reflexivity|]. split; [|split].
  - intros a. unfold ResolverFixtures.taken.
    destruct (client_aggregations q) as [[[| n |fields]|]|e]; simpl;
      try (destruct (pool_stats w params); discriminate).
    destruct (Resolvers.field "aggregations" fields) as [inner|] eqn:Hin;
      [|simpl; destruct (pool_stats w params); discriminate].
    destruct (Resolvers.truthy (Some inner)) eqn:Ht;
      [|simpl; destruct (pool_stats w params); discriminate].
    simpl. intros [= <-]. exists fields, inner. by repeat split.
  - intros fields Hr Hf. unfold ResolverFixtures.taken. by rewrite Hr, Hf.
  - intros e Hr. unfold ResolverFixtures.taken. by rewrite Hr.
Qed.

Lemma X7_aggregate_fallback_witness :
  (Resolvers.aggregateWithFallback true
     (fun _ => Returned (Some ResolverFixtures.named_answer))
     ResolverFixtures.pool_stats_one (Resolvers.statsQuery None)
     (Translator.buildWhereClause None) [] []).2
  = Returned (Resolvers.FromPool [ResolverFixtures.stats_row] (Some "postgresql"))
  /\ (Resolvers.aggregateWithFallback true
        (fun _ => Thrown "ConnectionError")
        ResolverFixtures.pool_stats_one (Resolvers.statsQuery None)
        (Translator.buildWhereClause None) [] []).2
     = Returned (Resolvers.FromPool [ResolverFixtures.stats_row] (Some "postgresql")).
Proof.
  split.
  - destruct (X7_aggregate_fallback
                (fun _ => Returned (Some ResolverFixtures.named_answer))
                ResolverFixtures.pool_stats_one (Resolvers.statsQuery None)
                (Translator.buildWhereClause None) [] []) as (_ & _ & H & _).
    rewrite (H _ eq_refl eq_refl). reflexivity.
  - destruct (X7_aggregate_fallback
                (fun _ => Thrown "ConnectionError")
                ResolverFixtures.pool_stats_one (Resolvers.statsQuery None)
                (Translator.buildWhereClause None) [] []) as (_ & _ & _ & H).
    rewrite (H _ eq_refl). reflexivity.
Defined.

Module StatsFacts.
Import Translator Router RouterRuns Resolvers ResolverFixtures.

(** Reading the answer of the search store does not touch the trace. *)
Lemma stats_of_search_state {S} (a : option Json) (st : S) :
  (stats_of_search a st).1 = st.
Proof.
  unfold stats_of_search, bind, prop, ret, throw.
  repeat match goal with
         | |- context [match ?x with Some _ => _ | None => _ end] =>
             destruct x as [[| ? | ?]|]; simpl; try reflexivity
         end.
Qed.

(** On an answer of the search store the mean stands for the median and the
    quartiles. *)
Lemma stats_of_search_mean {S} (a : option Json) (st st' : S) (s : CompensationStats) :
  stats_of_search a st = (st', Returned s) ->
  medianSalary s = averageSalary s
  /\ q1Salary s = averageSalary s
  /\ q3Salary s = averageSalary s
  /\ medianExperience s = averageExperience s.
Proof.
  unfold stats_of_search, bind, prop, ret, throw.
  repeat match goal with
         | |- context [match ?x with Some _ => _ | None => _ end] =>
             destruct x as [[| ? | ?]|]; simpl; try discriminate
         end;
    intros [= <- <-]; repeat split.
Qed.

Lemma stats_of_pool_state {S} (rows : list StatsRow) (st : S) :
  (stats_of_pool rows st).1 = st.
Proof. destruct rows; reflexivity. Qed.

(** Dollars with two decimals come back as the same cents. *)
Lemma round100_cents (q : Q) (c : Z) :
  (q == inject_Z c / 100)%Q -> round100 (Some q) = Some c.
Proof.
  intros Hq. unfold round100; simpl. f_equal. unfold Aggregates.round.
  assert (Hc : (q * 100 + (1 # 2) == inject_Z c / 100 * 100 + (1 # 2))%Q)
    by (by rewrite Hq).
  rewrite (Qfloor_comp _ _ Hc).
  unfold Qfloor, Qdiv, Qmult, Qplus, Qinv, inject_Z; simpl.
  change (Z.pos (1 * 100 * 1 * 2)) with 200.
  change (Z.pos (1 * 100 * 1)) with 100.
  Z.div_mod_to_equations. lia.
Qed.

Section Runs.
Variable ENABLE_FALLBACK : bool.
Variable client_aggregations : EsAggQuery -> Outcome (option Json).
Variable pool_stats : WhereClause -> list Value -> Outcome (list StatsRow).

Lemma compensationStats_run filter t :
  compensationStats ENABLE_FALLBACK client_aggregations pool_stats filter t
  = let w := buildWhereClause filter in
    match aggregateWithFallback ENABLE_FALLBACK client_aggregations pool_stats
            (statsQuery filter) w (whereParams w) t with
    | (t', Returned (FromSearch a)) =>
        (t', match (stats_of_search a t').2 with
             | Returned s => Returned s
             | Thrown _ => Thrown "Failed to calculate compensation statistics"
             end)
    | (t', Returned (FromPool rows _)) =>
        (t', match (stats_of_pool rows t').2 with
             | Returned s => Returned s
             | Thrown _ => Thrown "Failed to calculate compensation statistics"
             end)
    | (t', Thrown _) => (t', Thrown "Failed to calculate compensation statistics")
    end.
Proof.
  unfold compensationStats, try_catch, bind; simpl.
  destruct (aggregateWithFallback _ _ _ _ _ _ t) as [t' [[a|rows src]|e]];
    [| |reflexivity].
  - pose proof (stats_of_search_state a t') as Hst.
    destruct (stats_of_search a t') as [t'' [s|e]]; simpl in *; by subst.
  - pose proof (stats_of_pool_state rows t') as Hst.
    destruct (stats_of_pool rows t') as [t'' [s|e]]; simpl in *; by subst.
Qed.

End Runs.

End StatsFacts.

(** X8.  [Query.compensationStats] throws no error but "Failed to calculate
    compensation statistics".  When its only request was the one to the
    search store, the median and both quartiles it reports are the mean, and
    the median experience is the mean experience.  When the search store
    answers with the requested aggregations under their own names, the
    relational statement is run and the statistics are those of its first
    row; there a minimum given in dollars with two decimals comes back as the
    same number of cents. *)
Theorem X8_compensationStats
    (ENABLE_FALLBACK : bool)
    (client_aggregations : Resolvers.EsAggQuery -> Outcome (option Resolvers.Json))
    (pool_stats : Translator.WhereClause -> list Value
                  -> Outcome (list Resolvers.StatsRow))
    (filter : option Translator.Filter) (t : list Resolvers.AggEvent) :
  let w := Translator.buildWhereClause filter in
  let run := Resolvers.compensationStats ENABLE_FALLBACK client_aggregations
               pool_stats filter t in
  (forall e, run.2 = Thrown e -> e = "Failed to calculate compensation statistics")
  /\ (forall s, run = (t ++ [Resolvers.EsAggregate (Resolvers.statsQuery filter)],
                       Returned s) ->
        Resolvers.medianSalary s = Resolvers.averageSalary s
        /\ Resolvers.q1Salary s = Resolvers.averageSalary s
        /\ Resolvers.q3Salary s = Resolvers.averageSalary s
        /\ Resolvers.medianExperience s = Resolvers.averageExperience s)
  /\ (forall fields row rest cents,
        ENABLE_FALLBACK = true ->
        client_aggregations (Resolvers.statsQuery filter)
        = Returned (Some (Resolvers.JObj fields)) ->
        Resolvers.field "aggregations" fields = None ->
        pool_stats w (Translator.whereParams w) = Returned (row :: rest) ->
        (exists q, Resolvers.r_min_salary row = Some q
                   /\ (q == inject_Z cents / 100)%Q) ->
        exists s,
          run = (t ++ [Resolvers.EsAggregate (Resolvers.statsQuery filter);
                       Resolvers.PgAggregate w (Translator.whereParams w)],
                 Returned s)
          /\ Resolvers.count s = Some (Resolvers.r_count row)
          /\ Resolvers.averageSalary s = Resolvers.r_average_salary row
          /\ Resolvers.medianSalary s = Resolvers.r_median_salary row
          /\ Resolvers.minSalary s = Some cents).
Proof.
  intros w run. unfold run. rewrite StatsFacts.compensationStats_run.
  cbv zeta. fold w.
  split; [|split].
  - intros e.
    destruct (Resolvers.aggregateWithFallback ENABLE_FALLBACK client_aggregations
                pool_stats (Resolvers.statsQuery filter) w
                (Translator.whereParams w) t) as [t' [[a|rows src]|e0]];
      simpl.
    + destruct (Resolvers.stats_of_search a t').2; [discriminate | congruence].
    + destruct (Resolvers.stats_of_pool rows t').2; [discriminate | congruence].
    + congruence.
  - intros s. destruct ENABLE_FALLBACK.
    + rewrite AggregateFacts.aggregateWithFallback_enabled.
      destruct (ResolverFixtures.taken _) as [inner|].
      * destruct (Resolvers.stats_of_search (Some inner)
                    (t ++ [Resolvers.EsAggregate (Resolvers.statsQuery filter)]))
          as [t'' [s'|e]] eqn:Hs; simpl; [|discriminate].
        intros [= <-]. by apply (StatsFacts.stats_of_search_mean _ _ _ _ Hs).
      * destruct (pool_stats w (Translator.whereParams w)) as [rows|e]; simpl;
          intros [= Ht _]; apply app_inv_head in Ht; discriminate.
    + rewrite AggregateFacts.aggregateWithFallback_disabled.
      destruct (pool_stats w (Translator.whereParams w)) as [rows|e]; simpl;
        intros [= Ht _]; apply app_inv_head in Ht; discriminate.
  - intros fields row rest cents -> Hr Hf Hp (q & Hmin & Hq).
    rewrite AggregateFacts.aggregateWithFallback_enabled.
    unfold ResolverFixtures.taken. rewrite Hr, Hf, Hp. simpl.
    eexists. split; [reflexivity|]. simpl. repeat split.
    rewrite Hmin. by apply StatsFacts.round100_cents.
Qed.

Lemma X8_compensationStats_witness :
  exists s,
    (Resolvers.compensationStats true
       (fun _ => Returned (Some ResolverFixtures.named_answer))
       ResolverFixtures.pool_stats_one None []).2 = Returned s
    /\ Resolvers.minSalary s = Some 9500000
  /\ forall s',
       Resolvers.compensationStats true
         (fun _ => Returned (Some ResolverFixtures.wrapped_answer))
         ResolverFixtures.pool_stats_down None []
       = ([Resolvers.EsAggregate (Resolvers.statsQuery None)], Returned s') ->
       Resolvers.medianSalary s' = Resolvers.averageSalary s'.
Proof.
  destruct (X8_compensationStats true
              (fun _ => Returned (Some ResolverFixtures.named_answer))
              ResolverFixtures.pool_stats_one None []) as (_ & _ & H).
  destruct (H _ ResolverFixtures.stats_row [] 9500000 eq_refl eq_refl eq_refl
              eq_refl (ex_intro _ 95000%Q (conj eq_refl eq_refl)))
    as (s & Hrun & _ & _ & _ & Hmin).
  exists s. split; [by rewrite Hrun|]. split; [exact Hmin|].
  intros s' Hs'.
  destruct (X8_compensationStats true
              (fun _ => Returned (Some ResolverFixtures.wrapped_answer))
              ResolverFixtures.pool_stats_down None []) as (_ & H' & _).
  destruct (H' s' Hs') as (Hm & _). exact Hm.
Defined.

(** The path through the search store can be taken: the wrapped answer is
    read, and the mean is what the median reports. *)
Example stats_from_search_run :
  let run := Resolvers.compensationStats true
               (fun _ => Returned (Some ResolverFixtures.wrapped_answer))
               ResolverFixtures.pool_stats_down None [] in
  run.1 = [Resolvers.EsAggregate (Resolvers.statsQuery None)]
  /\ (exists s, run.2 = Returned s
                /\ Resolvers.count s = Some 3
                /\ Resolvers.medianSalary s = Some (10833333 / 100)%Q
                /\ Resolvers.minSalary s = Some 9500000).
Proof.
  split; [reflexivity|]. eexists. split; [reflexivity|]. vm_compute. repeat split.
Qed.

(** * Further properties of the streamer *)

Module LevelFacts.
Import Transformer StreamerObs.

Lemma or_defaultQ_value (x : option Q) : (or_defaultQ x 0 == default 0%Q x)%Q.
Proof.
  destruct x as [q|]; simpl; [|reflexivity].
  destruct (Qeq_bool q 0) eqn:Hq; [|reflexivity].
  apply Qeq_bool_iff in Hq. by rewrite Hq.
Qed.

Lemma Qltb_proper (x y b : Q) : (x == y)%Q -> Qltb x b = Qltb y b.
Proof.
  intros Hxy. destruct (Qltb x b) eqn:Hx, (Qltb y b) eqn:Hy; try reflexivity.
  - apply Qltb_lt in Hx. apply Qltb_ge in Hy. rewrite Hxy in Hx. lra.
  - apply Qltb_ge in Hx. apply Qltb_lt in Hy. rewrite Hxy in Hx. lra.
Qed.

End LevelFacts.

(** X9.  The experience level of a document depends on the years of industry
    experience alone, an absent value counting as zero: "Junior" below 2
    years (so also for an absent or negative value), "Mid-Level" below 5,
    "Senior" below 10 and "Expert" from 10 years on. *)
Theorem X9_experience_level (r : Transformer.CompensationRecord) :
  let e := StreamerObs.experience r in
  let level := Transformer.experience_level (Transformer.transformRecord r) in
  ((e < 2)%Q -> level = "Junior")
  /\ ((2 <= e < 5)%Q -> level = "Mid-Level")
  /\ ((5 <= e < 10)%Q -> level = "Senior")
  /\ ((10 <= e)%Q -> level = "Expert")
  /\ (Transformer.years_experience_industry r = None -> level = "Junior").
Proof.
  intros e level.
  assert (Hcases :
    ((e < 2)%Q /\ level = "Junior")
    \/ ((2 <= e < 5)%Q /\ level = "Mid-Level")
    \/ ((5 <= e < 10)%Q /\ level = "Senior")
    \/ ((10 <= e)%Q /\ level = "Expert")).
  { unfold level, Transformer.transformRecord; simpl.
    pose proof (LevelFacts.or_defaultQ_value (Transformer.years_experience_industry r))
      as Hv. fold (StreamerObs.experience r) in Hv. fold e in Hv.
    rewrite !(LevelFacts.Qltb_proper _ _ _ Hv).
    destruct (Qltb e 2) eqn:H1.
    { left. split; [by apply Qltb_lt | reflexivity]. }
    destruct (Qltb e 5) eqn:H2.
    { right; left. split; [|reflexivity]. split; [by apply Qltb_ge | by apply Qltb_lt]. }
    destruct (Qltb e 10) eqn:H3.
    { right; right; left. split; [|reflexivity].
      split; [by apply Qltb_ge | by apply Qltb_lt]. }
    right; right; right. split; [by apply Qltb_ge | reflexivity]. }
  split; [|split; [|split; [|split]]].
  1-4: intros Hu; destruct Hcases as [[H ?]|[[H ?]|[[H ?]|[H ?]]]]; try assumption;
    exfalso; destruct_and?; lra.
  intros Hnone. unfold level, Transformer.transformRecord; simpl.
  by rewrite Hnone.
Qed.

Lemma X9_experience_level_witness :
  Transformer.experience_level
    (Transformer.transformRecord TransformerFixtures.entry_record) = "Junior".
Proof.
  destruct (X9_experience_level TransformerFixtures.entry_record) as (_ & _ & _ & _ & H).
  apply H. reflexivity.
Defined.

Module BulkFacts.
Import Transformer Streamer StreamerRuns StreamerFacts StreamerObs.

Lemma bulkOps_of_cons r rs :
  bulkOps_of (r :: rs)
  = IndexAction INDEX_NAME (id r) :: Document (transformRecord r) :: bulkOps_of rs.
Proof. reflexivity. Qed.

Lemma bulkOps_of_length rs : length (bulkOps_of rs) = (2 * length rs)%nat.
Proof.
  induction rs as [|r rs IH]; [reflexivity|].
  rewrite bulkOps_of_cons. simpl. rewrite IH. lia.
Qed.

Lemma bulkOps_of_lookup rs : forall i r,
  rs !! i = Some r ->
  bulkOps_of rs !! (2 * i)%nat = Some (IndexAction INDEX_NAME (id r))
  /\ bulkOps_of rs !! (2 * i + 1)%nat = Some (Document (transformRecord r)).
Proof.
  induction rs as [|r0 rs IH]; intros i r Hi; [discriminate|].
  rewrite bulkOps_of_cons. destruct i as [|i].
  - injection Hi as ->. split; reflexivity.
  - replace (2 * S i)%nat with (S (S (2 * i))) by lia.
    replace (S (S (2 * i)) + 1)%nat with (S (S (2 * i + 1))) by lia.
    simpl in Hi. apply (IH i r Hi).
Qed.

End BulkFacts.

(** X10.  The body of a bulk request has two entries for each row of the
    window, in row order: an index action that names the index
    "compensation_data" and the key of the row, then the transformed row. *)
Theorem X10_bulk_body_pairs (records : list Transformer.CompensationRecord) :
  length (Streamer.bulkOps_of records) = (2 * length records)%nat
  /\ forall i r,
       records !! i = Some r ->
       Streamer.bulkOps_of records !! (2 * i)%nat
       = Some (Streamer.IndexAction "compensation_data" (Transformer.id r))
       /\ Streamer.bulkOps_of records !! (2 * i + 1)%nat
          = Some (Streamer.Document (Transformer.transformRecord r)).
Proof.
  split; [apply BulkFacts.bulkOps_of_length|].
  intros i r Hi. apply (BulkFacts.bulkOps_of_lookup records i r Hi).
Qed.

Lemma X10_bulk_body_witness :
  Streamer.bulkOps_of StreamerObs.three_rows !! 3%nat
  = Some (Streamer.Document
            (Transformer.transformRecord (TransformerFixtures.paid 200 None))).
Proof.
  destruct (X10_bulk_body_pairs StreamerObs.three_rows) as [_ H].
  destruct (H 1%nat (TransformerFixtures.paid 200 None) eq_refl) as [_ Hdoc].
  exact Hdoc.
Defined.

Module CompletenessFacts.
Import Transformer Streamer StreamerRuns StreamerFacts StreamerObs.

Section Runs.
Variable table : list CompensationRecord.
Variable bulk_reply : nat -> list BulkOp -> Outcome BulkResponse.




Variable refresh_reply : Outcome unit.
Variable count_reply : Outcome Z.

(** The whole run with its events and outcome written out. *)
Lemma stream_run_outcome fuel :
  table <> [] ->
  (window_count (length table) <= fuel)%nat ->
  exists t2 c',
    stream_loop table bulk_reply fuel (Z.of_nat (length table))
      {| offset := 0; processedRecords := 0; failedRecords := 0 |} [PgCount]
    = ([PgCount] ++ t2, Returned (Some c'))
    /\ streamDataToElasticSearch table (Z.of_nat (length table)) bulk_reply
         refresh_reply count_reply fuel []
       = match refresh_reply, count_reply with
         | Returned _, Returned m =>
             ([PgCount] ++ t2 ++ [EsRefresh; EsCount],
              Returned (Some (Synced (processedRecords c') (failedRecords c') m)))
         | Returned _, Thrown e => ([PgCount] ++ t2 ++ [EsRefresh; EsCount], Thrown e)
         | Thrown e, _ => ([PgCount] ++ t2 ++ [EsRefresh], Thrown e)
         end.
Proof.
  intros Hne Hfuel.
  destruct (stream_loop_run table bulk_reply (window_count (length table)) 0 fuel
              {| offset := 0; processedRecords := 0; failedRecords := 0 |}
              [PgCount]) as (t2 & c' & reps & Hrun & _);
    [lia | exact Hfuel | reflexivity |].
  exists t2, c'. split; [exact Hrun|].
  assert (Hz : (Z.of_nat (length table) =? 0) = false).
  { apply Z.eqb_neq. destruct table; [done | simpl; lia]. }
  unfold streamDataToElasticSearch, try_catch.
  unfold bind at 1. unfold pool_count at 1, bind at 1, record, modify, ret.
  cbv beta iota. rewrite Hz. change ([] ++ [PgCount]) with [PgCount].
  unfold bind at 1. rewrite Hrun.
  unfold bind, record, modify, lift_outcome, ret, throw. cbv beta iota.
  destruct refresh_reply as [u|e]; [destruct count_reply as [m|e]|];
    by rewrite <- ?app_assoc.
Qed.

End Runs.

End CompletenessFacts.



Module UpsertFacts.
Import Transformer Streamer StreamerObs.

Lemma upsert_run op k r s :
  op = "INSERT" \/ op = "UPDATE" ->
  on_notification es_index es_delete (event op k (Some r)) s
  = ({| store := <[k := transformRecord r]> (store s);
        log := log s ++ [LogDebug ("Real-time indexed document ID: " +:+ k)] |},
     Returned tt).
Proof. intros [-> | ->]; reflexivity. Qed.

Lemma delete_run k data s :
  on_notification es_index es_delete (event "DELETE" k data) s
  = match store s !! k with
    | Some _ => ({| store := delete k (store s);
                    log := log s ++ [LogDebug ("Real-time deleted document ID: " +:+ k)] |},
                 Returned tt)
    | None => ({| store := store s;
                  log := log s ++ [LogError "Failed to process real-time update:"
                                     "ResponseError: not_found (404)"] |},
               Returned tt)
    end.
Proof.
  unfold on_notification, try_catch, bind, on_store, es_delete, event; simpl.
  destruct (store s !! k); reflexivity.
Qed.

Section AnyClient.
Variable esClient_index : string -> SearchDocument -> EsStore -> EsStore * Outcome unit.
Variable esClient_delete : string -> EsStore -> EsStore * Outcome unit.

Lemma other_operation op k data s :
  op <> "INSERT" -> op <> "UPDATE" -> op <> "DELETE" ->
  on_notification esClient_index esClient_delete (event op k data) s = (s, Returned tt).
Proof.
  intros Hi Hu Hd. unfold on_notification, try_catch, bind, event; simpl.
  apply String.eqb_neq in Hi, Hu, Hd. by rewrite Hi, Hu, Hd.
Qed.

Lemma upsert_without_row op k s :
  op = "INSERT" \/ op = "UPDATE" ->
  on_notification esClient_index esClient_delete (event op k None) s
  = ({| store := store s;
        log := log s ++ [LogError "Failed to process real-time update:"
                           "TypeError: Cannot read properties of null"] |},
     Returned tt).
Proof. intros [-> | ->]; reflexivity. Qed.

End AnyClient.

End UpsertFacts.

(** X12.  An insert or update notification with a row puts the transformed
    row under the key of the notification and leaves the documents of all
    other keys as they were; delivering the same notification a second time
    leaves the search store as the first delivery left it; a delete
    notification for the key that follows removes the document, so the store
    is the one before the insert without the key. *)
Theorem X12_capture_upsert (op k : string) (r : Transformer.CompensationRecord)
    (data : option Transformer.CompensationRecord) (s : Streamer.HState) :
  op = "INSERT" \/ op = "UPDATE" ->
  let s1 := StreamerObs.after (StreamerObs.event op k (Some r)) s in
  Streamer.store s1 !! k = Some (Transformer.transformRecord r)
  /\ (forall k', k' <> k -> Streamer.store s1 !! k' = Streamer.store s !! k')
  /\ Streamer.store (StreamerObs.after (StreamerObs.event op k (Some r)) s1)
     = Streamer.store s1
  /\ Streamer.store (StreamerObs.after (StreamerObs.event "DELETE" k data) s1)
     = delete k (Streamer.store s).
Proof.
  intros Hop s1. unfold s1, StreamerObs.after.
  rewrite !(UpsertFacts.upsert_run op k r) by exact Hop.
  cbn [fst Streamer.store]. split; [apply lookup_insert_eq|].
  split; [intros k' Hk; by apply lookup_insert_ne|].
  split; [apply insert_insert_eq|].
  rewrite UpsertFacts.delete_run. cbn [Streamer.store].
  rewrite lookup_insert_eq. cbn [fst Streamer.store]. apply delete_insert_eq.
Qed.

Lemma X12_capture_upsert_witness :
  Streamer.store
    (StreamerObs.after
       (StreamerObs.event "UPDATE" "7" (Some (TransformerFixtures.paid 100 None)))
       {| Streamer.store := ∅; Streamer.log := [] |}) !! "7"
  = Some (Transformer.transformRecord (TransformerFixtures.paid 100 None)).
Proof.
  destruct (X12_capture_upsert "UPDATE" "7" (TransformerFixtures.paid 100 None) None
              {| Streamer.store := ∅; Streamer.log := [] |}) as [H _].
  - right. reflexivity.
  - exact H.
Defined.

(** X13.  Whatever the search client does when it is called, three kinds of
    notification leave the search store as it is: a payload that does not
    parse and an insert or update whose row is null are logged as errors,
    and an operation other than INSERT, UPDATE and DELETE changes neither
    the store nor the log.  None of them makes the listener throw. *)
Theorem X13_capture_ignored_events
    (esClient_index : string -> Transformer.SearchDocument -> Streamer.EsStore
                      -> Streamer.EsStore * Outcome unit)
    (esClient_delete : string -> Streamer.EsStore -> Streamer.EsStore * Outcome unit)
    (s : Streamer.HState) :
  let run := Streamer.on_notification esClient_index esClient_delete in
  (exists e, run None s
             = ({| Streamer.store := Streamer.store s;
                   Streamer.log := Streamer.log s
                     ++ [Streamer.LogError "Failed to process real-time update:" e] |},
                Returned tt))
  /\ (forall op k, op = "INSERT" \/ op = "UPDATE" ->
      exists e, run (StreamerObs.event op k None) s
                = ({| Streamer.store := Streamer.store s;
                      Streamer.log := Streamer.log s
                        ++ [Streamer.LogError "Failed to process real-time update:" e] |},
                   Returned tt))
  /\ (forall op k data, op <> "INSERT" -> op <> "UPDATE" -> op <> "DELETE" ->
      run (StreamerObs.event op k data) s = (s, Returned tt)).
Proof.
  intros run. split; [eexists; reflexivity|]. split.
  - intros op k Hop. eexists. by apply UpsertFacts.upsert_without_row.
  - intros op k data. apply UpsertFacts.other_operation.
Qed.

Lemma X13_capture_ignored_witness :
  Streamer.on_notification Streamer.es_index Streamer.es_delete
    (StreamerObs.event "TRUNCATE" "7" None)
    {| Streamer.store := ∅; Streamer.log := [] |}
  = ({| Streamer.store := ∅; Streamer.log := [] |}, Returned tt).
Proof.
  destruct (X13_capture_ignored_events Streamer.es_index Streamer.es_delete
              {| Streamer.store := ∅; Streamer.log := [] |}) as (_ & _ & H).
  apply H; discriminate.
Defined.

(** X14.  Over a table that is not empty, when refreshing the index throws,
    or the refresh succeeds and the final count throws, the run ends by
    throwing that same error, after every window of the table was read and,
    when no bulk request throws, after every window was submitted. *)
Theorem X14_refresh_or_count_failure
    (table : list Transformer.CompensationRecord)
    (bulk_reply : nat -> list Streamer.BulkOp -> Outcome Streamer.BulkResponse)
    (refresh_reply : Outcome unit) (count_reply : Outcome Z)
    (e : Error) (fuel : nat) :
  table <> [] ->
  (StreamerRuns.window_count (length table) <= fuel)%nat ->
  refresh_reply = Thrown e
  \/ (refresh_reply = Returned tt /\ count_reply = Thrown e) ->
  let run := Streamer.streamDataToElasticSearch table (Z.of_nat (length table))
               bulk_reply refresh_reply count_reply fuel [] in
  run.2 = Thrown e
  /\ StreamerRuns.fetches run.1
     = map (fun i => (Streamer.BATCH_SIZE, Streamer.BATCH_SIZE * Z.of_nat i))
         (seq 0 (StreamerRuns.window_count (length table)))
  /\ (StreamerRuns.never_throws bulk_reply ->
      StreamerRuns.bulks run.1
      = map (fun i => Streamer.bulkOps_of (StreamerRuns.window table i))
          (seq 0 (StreamerRuns.window_count (length table)))).
Proof.
  intros Hne Hfuel Hfail run.
  destruct (CompletenessFacts.stream_run_outcome table bulk_reply refresh_reply
              count_reply fuel Hne Hfuel) as (t2 & c' & Hloop & Hrun).
  destruct (StreamerFacts.stream_loop_run table bulk_reply
              (StreamerRuns.window_count (length table)) 0 fuel
              {| Streamer.offset := 0; Streamer.processedRecords := 0;
                 Streamer.failedRecords := 0 |} [Streamer.PgCount])
    as (t2' & c'' & reps & Hloop' & Hf & _ & _ & _ & _ & Hb);
    [lia | exact Hfuel | reflexivity |].
  rewrite Hloop in Hloop'. injection Hloop' as <- _.
  unfold run. rewrite Hrun.
  destruct Hfail as [-> | [-> ->]]; cbn [fst snd];
    (split; [reflexivity|]);
    rewrite ?StreamerFacts.fetches_app, ?StreamerFacts.bulks_app;
    change (StreamerRuns.fetches [Streamer.PgCount]) with (@nil (Z * Z));
    change (StreamerRuns.bulks [Streamer.PgCount]) with (@nil (list Streamer.BulkOp));
    cbn [app].
  - change (StreamerRuns.fetches [Streamer.EsRefresh]) with (@nil (Z * Z)).
    change (StreamerRuns.bulks [Streamer.EsRefresh]) with (@nil (list Streamer.BulkOp)).
    rewrite !app_nil_r. split; [exact Hf | exact Hb].
  - change (StreamerRuns.fetches [Streamer.EsRefresh; Streamer.EsCount])
      with (@nil (Z * Z)).
    change (StreamerRuns.bulks [Streamer.EsRefresh; Streamer.EsCount])
      with (@nil (list Streamer.BulkOp)).
    rewrite !app_nil_r. split; [exact Hf | exact Hb].
Qed.

Lemma X14_refresh_failure_witness :
  (Streamer.streamDataToElasticSearch StreamerObs.three_rows 3 StreamerRuns.bulk_ok
     (Thrown "index_not_found_exception") (Returned 3) 1 []).2
  = Thrown "index_not_found_exception".
Proof.
  destruct (X14_refresh_or_count_failure StreamerObs.three_rows StreamerRuns.bulk_ok
              (Thrown "index_not_found_exception") (Returned 3)
              "index_not_found_exception" 1) as [H _].
  - discriminate.
  - vm_compute. lia.
  - left. reflexivity.
  - exact H.
Defined.

Module EngineerFacts.
Import Translator Engineer.

Lemma has_push i c v col o x acc : has i c v acc -> has i c v (push col o x acc).
Proof.
  intros [Hc Hv]. unfold has, push; simpl.
  split; by apply lookup_app_l_Some.
Qed.

Lemma has_when_truthy i c v s k acc :
  (forall s' a, has i c v a -> has i c v (k s' a)) ->
  has i c v acc -> has i c v (when_truthy s k acc).
Proof. intros Hk Ha. unfold when_truthy. destruct (truthy_string s); auto. Qed.

Lemma has_when_defined {A} i c v (x : jsopt A) col o (inj : A -> Value) acc :
  has i c v acc -> has i c v (when_defined x (push col o) inj acc).
Proof.
  intros Ha. unfold when_defined. destruct (defined x); [by apply has_push | done].
Qed.

Lemma has_range {A} i c v col (r : option (Range A)) (inj : A -> Value) acc :
  has i c v acc -> has i c v (range_conditions col r inj acc).
Proof.
  intros Ha. unfold range_conditions. destruct r; [|done].
  by apply has_when_defined, has_when_defined.
Qed.

(** The condition on the job title is the first one, or the second one when
    the filter names an employer. *)
Lemma engineer_condition filter :
  exists i,
    has i {| column := "job_title"; op := ILIKE; param := S i |} (VStr "%engineer%")
      (buildConditions (engineerFilter filter)).
Proof.
  exists (match truthy_string (employer (engineerFilter filter)) with
          | Some _ => 1%nat | None => 0%nat end).
  unfold buildConditions.
  apply has_when_defined, has_when_defined.
  repeat match goal with
         | |- has _ _ _ (match ?x with Some _ => _ | None => _ end) =>
             destruct x; [apply has_push|]
         | |- has _ _ _ (range_conditions _ _ _ _) => apply has_range
         | |- has _ _ _ (when_truthy (gender _) _ _) =>
             apply has_when_truthy; [intros; by apply has_push|]
         | |- has _ _ _ (when_truthy (industry _) _ _) =>
             apply has_when_truthy; [intros; by apply has_push|]
         | |- has _ _ _ (when_truthy (locationContains _) _ _) =>
             apply has_when_truthy; [intros; by apply has_push|]
         end;
    (replace (jobTitleContains (engineerFilter filter)) with (Some "engineer")
       by (by destruct filter));
    unfold when_truthy at 1; cbn [truthy_string String.eqb Ascii.eqb Bool.eqb];
    unfold when_truthy; destruct (truthy_string (employer (engineerFilter filter)));
    split; reflexivity.
Qed.

End EngineerFacts.

(** X15.  The statement of the engineer statistics always carries a
    condition [job_title ILIKE $k] whose parameter is ['%engineer%'],
    whatever filter the caller gives, also none; so its [WHERE] clause is
    never empty and the conditions on the base pay are joined with [AND].  A
    value the caller gives in the slot of the job title is dropped, not
    combined: the clause is the same for every such value.  Every row the
    clause keeps has a job title that matches ['%engineer%']. *)
Theorem X15_engineer_filter (filter : option Translator.Filter) :
  let w := Engineer.engineerWhere filter in
  (exists i,
     Translator.whereConditions w !! i
     = Some {| Translator.column := "job_title"; Translator.op := Translator.ILIKE;
               Translator.param := S i |}
     /\ Translator.whereParams w !! i = Some (VStr "%engineer%"))
  /\ Engineer.engineerJoin filter = "AND"
  /\ (forall f x, Engineer.engineerWhere (Some (Engineer.with_job_title x f))
                  = Engineer.engineerWhere (Some f))
  /\ (forall table r, r ∈ Stores.pg_select w table ->
        Stores.value_ilike (Stores.col r "job_title") (VStr "%engineer%") = true).
Proof.
  intros w.
  destruct (EngineerFacts.engineer_condition filter) as (i & Hc & Hv).
  assert (Hw : Translator.whereConditions w
               = Translator.conditions
                   (Translator.buildConditions (Engineer.engineerFilter filter))
               /\ Translator.whereParams w
                  = Translator.params
                      (Translator.buildConditions (Engineer.engineerFilter filter)))
    by (split; reflexivity).
  destruct Hw as [Hwc Hwp].
  split; [exists i; by rewrite Hwc, Hwp|].
  split.
  { unfold Engineer.engineerJoin, Engineer.engineerWhere, Translator.buildWhereClause.
    cbn [Translator.whereClause].
    destruct (Translator.conditions
                (Translator.buildConditions (Engineer.engineerFilter filter)))
      as [|c0 cs] eqn:Hcs.
    - by rewrite lookup_nil in Hc.
    - reflexivity. }
  split; [intros f x; reflexivity|].
  intros table r Hr. unfold Stores.pg_select in Hr.
  apply list_elem_of_filter in Hr as [Hall _].
  rewrite forallb_forall in Hall.
  specialize (Hall {| Translator.column := "job_title"; Translator.op := Translator.ILIKE;
                      Translator.param := S i |}).
  unfold Stores.holds in Hall. cbn [Translator.param Translator.op Translator.column] in Hall.
  replace (S i - 1)%nat with i in Hall by lia.
  rewrite Hwp, Hv in Hall. apply Hall.
  apply list_elem_of_In. rewrite Hwc. by eapply list_elem_of_lookup_2.
Qed.

Lemma X15_engineer_filter_witness :
  Stores.pg_select (Engineer.engineerWhere None)
    [{["id" := VStr "1"; "job_title" := VStr "Senior Software Engineer"]};
     {["id" := VStr "2"; "job_title" := VStr "Accountant"]}]
  = [{["id" := VStr "1"; "job_title" := VStr "Senior Software Engineer"]}]
  /\ Stores.value_ilike
       (Stores.col {["id" := VStr "1"; "job_title" := VStr "Senior Software Engineer"]}
          "job_title") (VStr "%engineer%") = true.
Proof.
  split; [vm_compute; reflexivity|].
  destruct (X15_engineer_filter None) as (_ & _ & _ & H).
  apply (H [{["id" := VStr "1"; "job_title" := VStr "Senior Software Engineer"]};
            {["id" := VStr "2"; "job_title" := VStr "Accountant"]}]).
  vm_compute. left.
Defined.

Module TransactionFacts.
Import Connection.

Section Runs.
Variable pool_connect : Outcome unit.
Variable client_reply : string -> Outcome unit.
Context {A : Type}.
Variable callback : M TxTrace A.
Variable t : TxTrace.

(** The run once the client is acquired, by the outcomes of [BEGIN], of the
    callback and of [COMMIT]. *)
Lemma transaction_run :
  pool_connect = Returned tt ->
  transaction pool_connect client_reply callback t
  = let undo (t1 : TxTrace) (e : Error) : TxTrace * Outcome A :=
      (t1 ++ [Stmt "ROLLBACK"; Release],
       match client_reply "ROLLBACK" with
       | Returned _ => Thrown e
       | Thrown e' => Thrown e'
       end) in
    match client_reply "BEGIN" with
    | Thrown e => undo (t ++ [Acquire; Stmt "BEGIN"]) e
    | Returned _ =>
        match callback (t ++ [Acquire; Stmt "BEGIN"]) with
        | (t1, Thrown e) => undo t1 e
        | (t1, Returned r) =>
            match client_reply "COMMIT" with
            | Thrown e => undo (t1 ++ [Stmt "COMMIT"]) e
            | Returned _ => (t1 ++ [Stmt "COMMIT"; Release], Returned r)
            end
        end
    end.
Proof.
  intros Hc.
  unfold transaction, connect, try_finally, try_catch, release, client_query, bind,
    modify, lift_outcome, throw, ret.
  rewrite Hc. cbv zeta. rewrite <- !app_assoc. cbn [app].
  destruct (client_reply "BEGIN") as [u|e].
  - destruct (callback (t ++ [Acquire; Stmt "BEGIN"])) as [t1 [r|e]].
    + destruct (client_reply "COMMIT") as [u'|e].
      * by rewrite <- !app_assoc.
      * destruct (client_reply "ROLLBACK"); by rewrite <- !app_assoc.
    + destruct (client_reply "ROLLBACK"); by rewrite <- !app_assoc.
  - destruct (client_reply "ROLLBACK"); by rewrite <- !app_assoc.
Qed.

End Runs.

(** A trace that ends with its last [n] events. *)
Ltac ends_with n :=
  rewrite <- ?app_assoc; cbn [app];
  match goal with
  | |- exists t', ?l ++ ?m = _ =>
      exists (l ++ take (length m - n) m); by rewrite <- app_assoc
  end.

End TransactionFacts.

(** X16.  [transaction]: when no client can be acquired the error is thrown
    and nothing is released.  Once a client is acquired it is released as the
    last step of every run.  The run returns the result of the callback
    exactly when [BEGIN], the callback and [COMMIT] all succeed, and then no
    [ROLLBACK] is sent; in every other case [ROLLBACK] is sent just before
    the release and the run throws: the error of the failed step when
    [ROLLBACK] succeeds, the error of [ROLLBACK] when it fails too. *)
Theorem X16_transaction_release_and_rollback
    (pool_connect : Outcome unit) (client_reply : string -> Outcome unit)
    (A : Type) (callback : M Connection.TxTrace A) (t : Connection.TxTrace) :
  let run := Connection.transaction pool_connect client_reply callback t in
  let work := callback (t ++ [Connection.Acquire; Connection.Stmt "BEGIN"]) in
  (forall e, pool_connect = Thrown e -> run = (t, Thrown e))
  /\ (pool_connect = Returned tt ->
      (exists t', run.1 = t' ++ [Connection.Release])
      /\ (forall r,
            run.2 = Returned r
            <-> client_reply "BEGIN" = Returned tt /\ work.2 = Returned r
                /\ client_reply "COMMIT" = Returned tt)
      /\ (forall r, run.2 = Returned r ->
            run.1 = work.1 ++ [Connection.Stmt "COMMIT"; Connection.Release])
      /\ (forall e, run.2 = Thrown e ->
            (exists t', run.1
                        = t' ++ [Connection.Stmt "ROLLBACK"; Connection.Release])
            /\ (client_reply "ROLLBACK" = Returned tt ->
                client_reply "BEGIN" = Thrown e
                \/ work.2 = Thrown e
                \/ client_reply "COMMIT" = Thrown e)
            /\ (forall e', client_reply "ROLLBACK" = Thrown e' -> e = e'))).
Proof.
  intros run work. split.
  { intros e He. unfold run, Connection.transaction, Connection.connect, bind.
    by rewrite He. }
  intros Hc. unfold run.
  rewrite (TransactionFacts.transaction_run pool_connect client_reply callback t Hc).
  cbv zeta. unfold work.
  destruct (client_reply "BEGIN") as [[]|eb];
    [destruct (callback (t ++ [Connection.Acquire; Connection.Stmt "BEGIN"]))
       as [t1 [r1|ec]];
     [destruct (client_reply "COMMIT") as [[]|em]|]|];
    destruct (client_reply "ROLLBACK") as [[]|er]; cbn [fst snd];
    (split; [TransactionFacts.ends_with 1%nat|]);
    (split; [intros r; split; [intros H | intros (H1 & H2 & H3)];
             first [congruence | repeat split; congruence]|]);
    (split; [intros r H; first [discriminate H | reflexivity]|]);
    intros e H; first [discriminate H | injection H as <-];
    (split; [TransactionFacts.ends_with 2%nat|]);
    (split; [intros Hx; first [discriminate Hx | auto] | intros e' Hx; congruence]).
Qed.

Lemma X16_transaction_witness :
  Connection.transaction (Returned tt) Connection.all_fine
    (Connection.one_update Connection.all_fine) []
  = ([Connection.Acquire; Connection.Stmt "BEGIN";
      Connection.Stmt "UPDATE compensation_data SET gender = NULL";
      Connection.Stmt "COMMIT"; Connection.Release], Returned 1)
  /\ exists t',
       (Connection.transaction (Returned tt) Connection.commit_fails
          (Connection.one_update Connection.commit_fails) []).1
       = t' ++ [Connection.Stmt "ROLLBACK"; Connection.Release].
Proof.
  split; [reflexivity|].
  destruct (X16_transaction_release_and_rollback (Returned tt) Connection.commit_fails
              Z (Connection.one_update Connection.commit_fails) []) as [_ H].
  destruct (H eq_refl) as (_ & _ & _ & Hthrows).
  destruct (Hthrows "deadlock detected") as [Htrace _]; [reflexivity|].
  exact Htrace.
Defined.

Module ValidateFacts.
Import Loader LoaderRuns.

Lemma cap_money_le x c : cap_money x = Some c -> c <= 99999999999.
Proof.
  destruct x as [c0|]; simpl; [|discriminate].
  destruct (Z.eqb_spec c0 0), (Z.ltb_spec 99999999999 c0); simpl;
    intros Hcap; injection Hcap as <-; lia.
Qed.

Lemma cap_money_keeps c : c <= 99999999999 -> cap_money (Some c) = Some c.
Proof.
  intros Hc. simpl. destruct (Z.ltb_spec 99999999999 c); [lia|].
  by rewrite andb_false_r.
Qed.

Lemma cap_years_range x q : cap_years x = Some q -> (0 <= q <= 99)%Q.
Proof.
  unfold cap_years. destruct x as [y|]; [|discriminate].
  destruct (Qeq_bool y 0) eqn:Hz; simpl.
  - rewrite Hz. simpl. intros H; injection H as <-. apply Qeq_bool_iff in Hz. lra.
  - destruct (Qltb 99 y) eqn:Hbig; simpl.
    + intros H; injection H as <-. lra.
    + rewrite Hz. simpl. destruct (Qltb y 0) eqn:Hneg; [discriminate|].
      intros H; injection H as <-.
      apply Qltb_ge in Hbig, Hneg. lra.
Qed.

Lemma cap_years_keeps q : (0 <= q <= 99)%Q -> cap_years (Some q) = Some q.
Proof.
  intros [H0 H99]. unfold cap_years.
  assert (Hbig : Qltb 99 q = false) by (by apply Qltb_ge).
  rewrite Hbig, andb_false_r.
  assert (Hneg : Qltb q 0 = false) by (by apply Qltb_ge).
  by rewrite Hneg, andb_false_r.
Qed.

Lemma cap_money_idem x : cap_money (cap_money x) = cap_money x.
Proof.
  destruct (cap_money x) as [c|] eqn:Hx; [|reflexivity].
  apply cap_money_keeps. by eapply cap_money_le.
Qed.

Lemma cap_years_idem x : cap_years (cap_years x) = cap_years x.
Proof.
  destruct (cap_years x) as [q|] eqn:Hx; [|reflexivity].
  apply cap_years_keeps. by eapply cap_years_range.
Qed.

End ValidateFacts.

(** X17.  The validation of [insertBatch] numbers a record with its
    position in the batch, counted from 1.  After it no amount of money of
    the record is above 99999999999 cents and each of the two counts of
    years is null or between 0 and 99; amounts and years that are already
    within these bounds are kept as they are, and validating a validated
    record again changes nothing. *)
Theorem X17_validate_bounds (index : nat) (record : Loader.LoadRecord) :
  let v := Loader.validate index record in
  Loader.row_number v = Z.of_nat index + 1
  /\ Forall (fun a => forall c, a = Some c -> c <= 99999999999) (LoaderRuns.amounts v)
  /\ Forall (fun y => forall q, y = Some q -> (0 <= q <= 99)%Q) (LoaderRuns.years v)
  /\ (Forall (fun a => forall c, a = Some c -> c <= 99999999999)
        (LoaderRuns.amounts record) ->
      LoaderRuns.amounts v = LoaderRuns.amounts record)
  /\ (Forall (fun y => forall q, y = Some q -> (0 <= q <= 99)%Q)
        (LoaderRuns.years record) ->
      LoaderRuns.years v = LoaderRuns.years record)
  /\ Loader.validate index v = v.
Proof.
  intros v. split; [reflexivity|].
  split; [repeat constructor; intros c; apply ValidateFacts.cap_money_le|].
  split.
  { apply Forall_cons; split; [|apply Forall_cons; split; [|constructor]];
      intros q; apply ValidateFacts.cap_years_range. }
  split.
  { intros H. unfold LoaderRuns.amounts in *. cbn [Loader.annual_base_pay
      Loader.signing_bonus Loader.annual_bonus Loader.stock_value v Loader.validate].
    rewrite !Forall_cons in H. destruct H as (H1 & H2 & H3 & H4 & _).
    repeat f_equal;
      match goal with
      | |- Loader.cap_money ?x = ?x =>
          destruct x as [c|] eqn:Hx; [apply ValidateFacts.cap_money_keeps; auto | reflexivity]
      end. }
  split.
  { intros H. unfold LoaderRuns.years in *. cbn [Loader.years_experience_industry
      Loader.years_experience_company v Loader.validate].
    rewrite !Forall_cons in H. destruct H as (H1 & H2 & _).
    repeat f_equal;
      match goal with
      | |- Loader.cap_years ?x = ?x =>
          destruct x as [q|] eqn:Hx; [apply ValidateFacts.cap_years_keeps; auto | reflexivity]
      end. }
  unfold v, Loader.validate. cbn [Loader.timestamp Loader.employer Loader.location
    Loader.job_title Loader.years_experience_industry Loader.years_experience_company
    Loader.annual_base_pay Loader.signing_bonus Loader.annual_bonus Loader.stock_value
    Loader.health_insurance_offered Loader.annual_vacation_weeks Loader.industry
    Loader.employment_type Loader.required_hours_per_week Loader.actual_hours_per_week
    Loader.education_level Loader.gender Loader.additional_comments
    Loader.data_quality_score Loader.source_file Loader.row_number Loader.created_at
    Loader.updated_at].
  by rewrite !ValidateFacts.cap_money_idem, !ValidateFacts.cap_years_idem.
Qed.

Lemma X17_validate_bounds_witness :
  Loader.annual_base_pay
    (Loader.validate 0 (LoaderRuns.sample (Some 500000000000) (Some 120%Q)))
  = Some 99999999999
  /\ LoaderRuns.amounts (Loader.validate 4 (LoaderRuns.sample (Some 100) None))
     = LoaderRuns.amounts (LoaderRuns.sample (Some 100) None).
Proof.
  split; [reflexivity|].
  destruct (X17_validate_bounds 4 (LoaderRuns.sample (Some 100) None))
    as (_ & _ & _ & H & _).
  apply H. repeat constructor; intros c Hc; try discriminate Hc.
  injection Hc as <-. lia.
Defined.

Module StatementFacts.
Import Loader LoaderRuns.

Lemma slots_seq b : slots b = seq (S b) 24.
Proof.
  unfold slots.
  change (map (fun j => (b + j)%nat) (seq 1 24)) with (Nat.add b <$> seq 1 24).
  rewrite fmap_add_seq. by rewrite Nat.add_1_r.
Qed.

Lemma concat_slots {X} (l : list X) b :
  concat (imap (fun index _ => slots ((b + index) * 24)) l)
  = seq (b * 24 + 1) (24 * length l).
Proof.
  revert b. induction l as [|x l IH]; intros b.
  - by rewrite Nat.mul_0_r.
  - rewrite imap_cons. cbn [concat].
    rewrite (imap_ext _ (fun index _ => slots ((S b + index) * 24)))
      by (intros i y _; unfold compose; f_equal; lia).
    rewrite IH, slots_seq, Nat.add_0_r.
    replace (24 * length (x :: l))%nat with (24 + 24 * length l)%nat by (simpl; lia).
    rewrite seq_app. f_equal; [f_equal; lia | f_equal; lia].
Qed.

Lemma values_length (l : list LoadRecord) :
  length (flat_map values_of l) = (24 * length l)%nat.
Proof.
  induction l as [|r l IH]; [reflexivity|].
  cbn [flat_map]. rewrite length_app, IH. simpl. lia.
Qed.

Lemma values_lookup (l : list LoadRecord) : forall i k r,
  l !! i = Some r -> (k < 24)%nat ->
  flat_map values_of l !! (24 * i + k)%nat = values_of r !! k.
Proof.
  induction l as [|r0 l IH]; intros i k r Hi Hk; [done|].
  cbn [flat_map]. destruct i as [|i].
  - injection Hi as ->. rewrite Nat.mul_0_r. cbn [Nat.add].
    apply lookup_app_l. simpl. lia.
  - rewrite lookup_app_r by (simpl; lia).
    replace (24 * S i + k - length (values_of r0))%nat with (24 * i + k)%nat
      by (simpl; lia).
    by apply IH.
Qed.

End StatementFacts.

(** X18.  The insert statement for a batch of n records has n groups of 24
    placeholders, numbered 1 to 24n in order, and 24n values, so every
    placeholder has its value; the group of the record at position i holds
    the numbers 24i+1 to 24i+24, and the value under its placeholder 24i+22
    is the row number i+1.  An empty batch sends no statement; a batch that
    is not empty sends one statement, and what the pool throws for it is
    thrown on. *)
Theorem X18_insert_statement_aligned (records : list Loader.LoadRecord)
    (pool_insert : Loader.Statement -> Outcome unit) (t : Loader.Trace) :
  let st := Loader.insert_statement records in
  let n := length records in
  length (Loader.placeholders st) = n
  /\ concat (Loader.placeholders st) = seq 1 (24 * n)
  /\ length (Loader.values st) = (24 * n)%nat
  /\ (forall i r, records !! i = Some r ->
        Loader.placeholders st !! i = Some (seq (24 * i + 1) 24)
        /\ Loader.values st !! (24 * i + 22 - 1)%nat = Some (VInt (Z.of_nat i + 1)))
  /\ Loader.insertBatch pool_insert [] t = (t, Returned tt)
  /\ (records <> [] ->
      Loader.insertBatch pool_insert records t
      = (t ++ [Loader.PgInsert st], pool_insert st)).
Proof.
  intros st n. unfold st, Loader.insert_statement.
  cbn [Loader.placeholders Loader.values].
  split; [by rewrite !length_imap|].
  split.
  { rewrite (StatementFacts.concat_slots _ 0). by rewrite length_imap. }
  split; [by rewrite StatementFacts.values_length, length_imap|].
  split.
  { intros i r Hi. split.
    - rewrite !list_lookup_imap, Hi. cbn [fmap option_fmap option_map].
      rewrite StatementFacts.slots_seq. do 2 f_equal. lia.
    - replace (24 * i + 22 - 1)%nat with (24 * i + 21)%nat by lia.
      rewrite (StatementFacts.values_lookup _ i 21 (Loader.validate i r)); [reflexivity | | lia].
      by rewrite list_lookup_imap, Hi. }
  split; [reflexivity|].
  intros Hne. unfold Loader.insertBatch.
  destruct records as [|r0 rs]; [done|]. cbn [length Nat.eqb].
  unfold try_catch, bind, Loader.record, modify, lift_outcome, throw.
  by destruct (pool_insert _).
Qed.

Lemma X18_insert_statement_witness :
  Loader.values (Loader.insert_statement
                   [LoaderRuns.sample (Some 100) None; LoaderRuns.sample (Some 200) None])
    !! (24 * 1 + 22 - 1)%nat
  = Some (VInt 2).
Proof.
  destruct (X18_insert_statement_aligned
              [LoaderRuns.sample (Some 100) None; LoaderRuns.sample (Some 200) None]
              LoaderRuns.accept_all []) as (_ & _ & _ & H & _).
  destruct (H 1%nat (LoaderRuns.sample (Some 200) None) eq_refl) as [_ Hv].
  exact Hv.
Defined.

Module BatchFacts.
Import Loader LoaderRuns.

Lemma batch_count_reached n : (n <= batch_count n * 100)%nat.
Proof.
  unfold batch_count.
  pose proof (Nat.div_mod_eq (n + 99) 100) as Hd.
  pose proof (Nat.mod_upper_bound (n + 99) 100) as Hm. lia.
Qed.

Lemma batch_count_before j n : (j < batch_count n)%nat -> (j * 100 < n)%nat.
Proof.
  unfold batch_count.
  pose proof (Nat.div_mod_eq (n + 99) 100) as Hd.
  pose proof (Nat.mod_upper_bound (n + 99) 100) as Hm. lia.
Qed.

Lemma batch_length (records : list LoadRecord) j :
  length (batch records j) = Nat.min 100 (length records - j * 100).
Proof. unfold batch, batchSize. by rewrite length_take, length_drop. Qed.

Lemma batch_lookup (records : list LoadRecord) j i :
  (i < 100)%nat -> batch records j !! i = records !! (j * 100 + i)%nat.
Proof.
  intros Hi. unfold batch, batchSize.
  rewrite lookup_take_lt by exact Hi. by rewrite lookup_drop.
Qed.

Lemma batches_concat (records : list LoadRecord) c :
  concat (map (batch records) (seq 0 c)) = take (c * 100) records.
Proof.
  induction c as [|c IH]; [by rewrite take_0|].
  rewrite seq_S, map_app, concat_app, IH. cbn [map concat Nat.add].
  rewrite app_nil_r. unfold batch, batchSize.
  rewrite take_take_drop. f_equal. lia.
Qed.

Section Runs.
Variable pool_insert : Statement -> Outcome unit.
Variable records : list LoadRecord.

Lemma insertBatch_run (l : list LoadRecord) t :
  l <> [] ->
  insertBatch pool_insert l t
  = (t ++ [PgInsert (insert_statement l)], pool_insert (insert_statement l)).
Proof.
  intros Hne. unfold insertBatch.
  destruct l as [|r0 rs]; [done|]. cbn [length Nat.eqb].
  unfold try_catch, bind, record, modify, lift_outcome, throw.
  by destruct (pool_insert _).
Qed.

Lemma batch_nonempty j :
  (j < batch_count (length records))%nat -> batch records j <> [].
Proof.
  intros Hj Hnil. apply batch_count_before in Hj.
  apply (f_equal length) in Hnil. rewrite batch_length in Hnil.
  change (length (@nil LoadRecord)) with 0%nat in Hnil. lia.
Qed.

(** One turn of the loop on batch [j]. *)
Lemma insert_batches_step fuel j t :
  (j < batch_count (length records))%nat ->
  insert_batches pool_insert (S fuel) records (j * batchSize) t
  = match pool_insert (insert_statement (batch records j)) with
    | Returned _ =>
        insert_batches pool_insert fuel records (S j * batchSize)
          (t ++ [PgInsert (insert_statement (batch records j))])
    | Thrown e => (t ++ [PgInsert (insert_statement (batch records j))], Thrown e)
    end.
Proof.
  intros Hj. cbn [insert_batches].
  assert (Hlt : (j * batchSize <? length records)%nat = true).
  { apply Nat.ltb_lt. unfold batchSize. by apply batch_count_before. }
  rewrite Hlt. unfold bind at 1.
  fold (batch records j). rewrite insertBatch_run by (by apply batch_nonempty).
  replace (j * batchSize + batchSize)%nat with (S j * batchSize)%nat by lia.
  by destruct (pool_insert _).
Qed.

Lemma insert_batches_done fuel j t :
  (batch_count (length records) <= j)%nat ->
  insert_batches pool_insert fuel records (j * batchSize) t = (t, Returned (Some tt)).
Proof.
  intros Hj.
  assert (Hge : (j * batchSize <? length records)%nat = false).
  { apply Nat.ltb_ge. pose proof (batch_count_reached (length records)).
    unfold batchSize. nia. }
  destruct fuel; cbn [insert_batches]; by rewrite Hge.
Qed.

(** The loop from batch [j] on when the pool accepts the [k] batches left. *)
Lemma insert_batches_ok k : forall j fuel t,
  (j + k = batch_count (length records))%nat ->
  (k <= fuel)%nat ->
  (forall i, (j <= i < j + k)%nat ->
     pool_insert (insert_statement (batch records i)) = Returned tt) ->
  insert_batches pool_insert fuel records (j * batchSize) t
  = (t ++ sent records j k, Returned (Some tt)).
Proof.
  induction k as [|k IH]; intros j fuel t Hjk Hfuel Hok.
  - rewrite insert_batches_done by lia. unfold sent. by rewrite app_nil_r.
  - destruct fuel as [|fuel]; [lia|].
    rewrite insert_batches_step by lia.
    rewrite (Hok j) by lia.
    rewrite (IH (S j) fuel) by (try lia; intros i Hi; apply Hok; lia).
    unfold sent. cbn [seq map]. by rewrite <- app_assoc.
Qed.

(** The loop from batch [j] on when the pool rejects batch [j + d] and
    accepts the batches before it. *)
Lemma insert_batches_rejected d : forall j fuel t e,
  (j + d < batch_count (length records))%nat ->
  (d < fuel)%nat ->
  (forall i, (j <= i < j + d)%nat ->
     pool_insert (insert_statement (batch records i)) = Returned tt) ->
  pool_insert (insert_statement (batch records (j + d))) = Thrown e ->
  insert_batches pool_insert fuel records (j * batchSize) t
  = (t ++ sent records j (S d), Thrown e).
Proof.
  induction d as [|d IH]; intros j fuel t e Hjd Hfuel Hok Hbad.
  - destruct fuel as [|fuel]; [lia|].
    rewrite insert_batches_step by lia.
    rewrite Nat.add_0_r in Hbad. by rewrite Hbad.
  - destruct fuel as [|fuel]; [lia|].
    rewrite insert_batches_step by lia.
    rewrite (Hok j) by lia.
    rewrite (IH (S j) fuel _ e);
      [| lia | lia | intros i Hi; apply Hok; lia
       | by replace (S j + d)%nat with (j + S d)%nat by lia ].
    unfold sent. cbn [seq map]. by rewrite <- app_assoc.
Qed.

(** With enough fuel the loop ends: it returns or throws. *)
Lemma insert_batches_ends k : forall j fuel t,
  (j + k = batch_count (length records))%nat ->
  (k <= fuel)%nat ->
  exists t' o,
    insert_batches pool_insert fuel records (j * batchSize) t = (t', o)
    /\ o <> Returned None.
Proof.
  induction k as [|k IH]; intros j fuel t Hjk Hfuel.
  - rewrite insert_batches_done by lia. by eexists _, _.
  - destruct fuel as [|fuel]; [lia|].
    rewrite insert_batches_step by lia.
    destruct (pool_insert _); [apply IH; lia | by eexists _, _].
Qed.

End Runs.

Section Files.
Variable pool_insert : Statement -> Outcome unit.
Variable existsSync : string -> bool.
Variable loadCSVFile : string -> Outcome (list LoadRecord).
Variable fuel : nat.

(** The body of the loop over the files on a file that is read. *)
Lemma load_file_run f records total t :
  existsSync f = true ->
  loadCSVFile f = Returned records ->
  load_file pool_insert existsSync loadCSVFile fuel f total t
  = if (length records =? 0)%nat then (t, Returned (Some total))
    else
      match insert_batches pool_insert fuel records 0 t with
      | (t', Returned (Some _)) =>
          (t', Returned (Some (total + Z.of_nat (length records))))
      | (t', Returned None) => (t', Returned None)
      | (t', Thrown _) => (t', Returned (Some total))
      end.
Proof.
  intros Hex Hload.
  unfold load_file, try_catch, bind, lift_outcome, ret.
  rewrite Hex, Hload. cbn [negb].
  destruct (length records =? 0)%nat; [reflexivity|].
  destruct (insert_batches pool_insert fuel records 0 t) as [t' [[u|]|e]];
    reflexivity.
Qed.

Hypothesis enough : forall f records,
  loadCSVFile f = Returned records -> (batch_count (length records) <= fuel)%nat.

(** The body of the loop over the files never throws. *)
Lemma load_file_ends f total t :
  exists t' total',
    load_file pool_insert existsSync loadCSVFile fuel f total t
    = (t', Returned (Some total')).
Proof.
  unfold load_file. destruct (existsSync f); cbn [negb]; [|by eexists _, _].
  unfold try_catch, bind at 1, lift_outcome.
  destruct (loadCSVFile f) as [records|e] eqn:Hload; [|by eexists _, _].
  destruct (length records =? 0)%nat; [by eexists _, _|].
  unfold bind.
  destruct (insert_batches_ends pool_insert records (batch_count (length records))
              0 fuel t) as (t' & o & Hrun & Ho); [lia | by eapply enough |].
  change (0 * batchSize)%nat with 0%nat in Hrun. rewrite Hrun.
  destruct o as [[u|]|e]; [by eexists _, _ | done | by eexists _, _].
Qed.

Lemma load_files_ends files : forall total t,
  exists t' total',
    load_files pool_insert existsSync loadCSVFile fuel files total t
    = (t', Returned (Some total')).
Proof.
  induction files as [|f files IH]; intros total t; [by eexists _, _|].
  cbn [load_files]. unfold bind.
  destruct (load_file_ends f total t) as (t1 & total1 & ->).
  apply IH.
Qed.

End Files.

End BatchFacts.

(** X19.  [loadAllCSVData] sends the records of a file in batches of 100:
    when the pool accepts them, the statements sent are those of the
    batches 0, 1, ... in order, as many as the number of records divided by
    100 and rounded up; each batch holds between 1 and 100 records and the
    batches joined give the records of the file, in order.  The record at
    position k of the file is sent with the row number (k mod 100) + 1: the
    numbering starts again at 1 in every batch. *)
Theorem X19_batches_of_100
    (pool_insert : Loader.Statement -> Outcome unit)
    (records : list Loader.LoadRecord) (fuel : nat) (t : Loader.Trace) :
  let n := length records in
  let statement j := Loader.insert_statement (LoaderRuns.batch records j) in
  (LoaderRuns.batch_count n <= fuel)%nat ->
  (forall j, (j < LoaderRuns.batch_count n)%nat -> pool_insert (statement j) = Returned tt) ->
  Loader.insert_batches pool_insert fuel records 0 t
  = (t ++ map (fun j => Loader.PgInsert (statement j)) (seq 0 (LoaderRuns.batch_count n)),
     Returned (Some tt))
  /\ concat (map (LoaderRuns.batch records) (seq 0 (LoaderRuns.batch_count n))) = records
  /\ (forall j, (j < LoaderRuns.batch_count n)%nat ->
        (1 <= length (LoaderRuns.batch records j) <= 100)%nat)
  /\ (forall k r, records !! k = Some r ->
        Loader.values (statement (k / 100)%nat) !! (24 * (k mod 100) + 22 - 1)%nat
        = Some (VInt (Z.of_nat (k mod 100) + 1))).
Proof.
  intros n statement Hfuel Hok. split.
  { apply (BatchFacts.insert_batches_ok pool_insert records
             (LoaderRuns.batch_count n) 0 fuel t); [reflexivity | exact Hfuel |].
    intros i Hi. apply Hok. lia. }
  split.
  { rewrite BatchFacts.batches_concat. apply take_ge.
    apply BatchFacts.batch_count_reached. }
  split.
  { intros j Hj. rewrite BatchFacts.batch_length.
    apply BatchFacts.batch_count_before in Hj. fold n. lia. }
  intros k r Hk. unfold statement.
  pose proof (Nat.div_mod_eq k 100) as Hd.
  pose proof (Nat.mod_upper_bound k 100) as Hm.
  assert (Hb : LoaderRuns.batch records (k / 100) !! (k mod 100)%nat = Some r).
  { rewrite BatchFacts.batch_lookup by lia. rewrite <- Hk. f_equal. lia. }
  unfold Loader.insert_statement. cbn [Loader.values].
  replace (24 * (k mod 100) + 22 - 1)%nat with (24 * (k mod 100) + 21)%nat by lia.
  rewrite (StatementFacts.values_lookup _ (k mod 100) 21
             (Loader.validate (k mod 100) r)); [reflexivity | | lia].
  by rewrite list_lookup_imap, Hb.
Qed.

Lemma X19_batches_witness :
  LoaderRuns.inserts
    (Loader.insert_batches LoaderRuns.accept_all 3 LoaderRuns.file250 0 []).1
  = [Loader.insert_statement (LoaderRuns.batch LoaderRuns.file250 0);
     Loader.insert_statement (LoaderRuns.batch LoaderRuns.file250 1);
     Loader.insert_statement (LoaderRuns.batch LoaderRuns.file250 2)]
  /\ length (LoaderRuns.batch LoaderRuns.file250 2) = 50%nat.
Proof.
  destruct (X19_batches_of_100 LoaderRuns.accept_all LoaderRuns.file250 3 [])
    as (Hrun & _).
  - vm_compute. lia.
  - intros j _. reflexivity.
  - rewrite Hrun. split; reflexivity.
Defined.

(** X20.  When the pool rejects batch m of a file and accepted the batches
    before it, the statements of the batches 0 to m are the only ones sent
    for the file: the batches before m stay inserted, nothing undoes them,
    and the batches after m are never sent.  The error does not leave the
    loop body, and the count of loaded records is left as it was: the records
    of the batches that were inserted are not counted.  When every batch is
    accepted the count grows by the number of records of the file. *)
Theorem X20_rejected_batch
    (pool_insert : Loader.Statement -> Outcome unit)
    (existsSync : string -> bool)
    (loadCSVFile : string -> Outcome (list Loader.LoadRecord))
    (fileName : string) (records : list Loader.LoadRecord)
    (fuel : nat) (totalRecords : Z) (t : Loader.Trace) :
  let n := length records in
  let statement j := Loader.insert_statement (LoaderRuns.batch records j) in
  let run := Loader.load_file pool_insert existsSync loadCSVFile fuel fileName
               totalRecords t in
  existsSync fileName = true ->
  loadCSVFile fileName = Returned records ->
  (LoaderRuns.batch_count n <= fuel)%nat ->
  (forall m e,
     (m < LoaderRuns.batch_count n)%nat ->
     (forall j, (j < m)%nat -> pool_insert (statement j) = Returned tt) ->
     pool_insert (statement m) = Thrown e ->
     run = (t ++ map (fun j => Loader.PgInsert (statement j)) (seq 0 (S m)),
            Returned (Some totalRecords)))
  /\ ((forall j, (j < LoaderRuns.batch_count n)%nat ->
         pool_insert (statement j) = Returned tt) ->
      run = (t ++ map (fun j => Loader.PgInsert (statement j))
                    (seq 0 (LoaderRuns.batch_count n)),
             Returned (Some (totalRecords + Z.of_nat n)))).
Proof.
  intros n statement run Hex Hload Hfuel.
  unfold run.
  rewrite (BatchFacts.load_file_run pool_insert existsSync loadCSVFile fuel fileName
             records totalRecords t Hex Hload).
  split.
  - intros m e Hm Hok Hbad.
    assert (Hlen : (length records =? 0)%nat = false).
    { apply Nat.eqb_neq. apply BatchFacts.batch_count_before in Hm. fold n. lia. }
    rewrite Hlen.
    pose proof (BatchFacts.insert_batches_rejected pool_insert records m 0 fuel t e)
      as Hrun.
    change (0 * Loader.batchSize)%nat with 0%nat in Hrun.
    rewrite Hrun; [reflexivity | exact Hm | fold n; lia
                   | intros i Hi; apply Hok; lia | exact Hbad].
  - intros Hok.
    destruct (length records =? 0)%nat eqn:Hlen.
    + apply Nat.eqb_eq in Hlen. unfold n. rewrite Hlen.
      change (LoaderRuns.batch_count 0) with 0%nat. cbn [seq map].
      change (Z.of_nat 0) with 0. by rewrite app_nil_r, Z.add_0_r.
    + pose proof (BatchFacts.insert_batches_ok pool_insert records
                    (LoaderRuns.batch_count n) 0 fuel t) as Hrun.
      change (0 * Loader.batchSize)%nat with 0%nat in Hrun.
      rewrite Hrun; [reflexivity | reflexivity | exact Hfuel
                     | intros i Hi; apply Hok; lia].
Qed.

Lemma X20_rejected_batch_witness :
  Loader.load_file LoaderRuns.reject_marked (fun _ => true)
    (fun _ => Returned (LoaderRuns.file250
                        ++ [LoaderRuns.sample (Some 123456) None]
                        ++ LoaderRuns.file250))
    6 "salary_survey-3.csv" 7 []
  = (map (fun j => Loader.PgInsert
                     (Loader.insert_statement
                        (LoaderRuns.batch
                           (LoaderRuns.file250 ++ [LoaderRuns.sample (Some 123456) None]
                            ++ LoaderRuns.file250) j)))
       [0; 1; 2]%nat,
     Returned (Some 7)).
Proof.
  destruct (X20_rejected_batch LoaderRuns.reject_marked (fun _ => true)
              (fun _ => Returned (LoaderRuns.file250
                                  ++ [LoaderRuns.sample (Some 123456) None]
                                  ++ LoaderRuns.file250))
              "salary_survey-3.csv"
              (LoaderRuns.file250 ++ [LoaderRuns.sample (Some 123456) None]
               ++ LoaderRuns.file250) 6 7 [])
    as [H _]; [reflexivity | reflexivity | vm_compute; lia |].
  apply (H 2%nat "value out of range").
  - vm_compute. lia.
  - intros j Hj. destruct j as [|[|j]]; [vm_compute; reflexivity
                                        | vm_compute; reflexivity | lia].
  - vm_compute. reflexivity.
Defined.

(** X21.  With fuel for the batches of every file, [loadAllCSVData] always
    ends the process, and the exit code does not depend on the files: it is
    0 exactly when the connection, ANALYZE, the count and the sample query
    succeed, also when files were missing, could not be read or had batches
    rejected, and 1 otherwise.  When the connection fails no file is read
    and nothing is inserted. *)
Theorem X21_exit_code
    (pool_connect : Outcome unit) (pool_insert : Loader.Statement -> Outcome unit)
    (analyze_reply count_reply sample_reply : Outcome unit)
    (existsSync : string -> bool)
    (loadCSVFile : string -> Outcome (list Loader.LoadRecord))
    (fuel : nat) (t : Loader.Trace) :
  let run := Loader.loadAllCSVData pool_connect pool_insert analyze_reply count_reply
               sample_reply existsSync loadCSVFile fuel t in
  (forall f records, loadCSVFile f = Returned records ->
     (LoaderRuns.batch_count (length records) <= fuel)%nat) ->
  run.2 = Some (match pool_connect, analyze_reply, count_reply, sample_reply with
                | Returned _, Returned _, Returned _, Returned _ => 0
                | _, _, _, _ => 1
                end)
  /\ (forall e, pool_connect = Thrown e -> run.1 = t ++ [Loader.PgConnect]).
Proof.
  intros run Hfuel. unfold run, Loader.loadAllCSVData.
  unfold bind at 1. unfold Loader.record at 1, modify.
  unfold bind at 1. unfold lift_outcome at 1.
  destruct pool_connect as [u|e]; [|split; [reflexivity | intros e' _; reflexivity]].
  unfold bind at 1.
  destruct (BatchFacts.load_files_ends pool_insert existsSync loadCSVFile fuel Hfuel
              Loader.csvFiles 0 (t ++ [Loader.PgConnect])) as (t1 & total & ->).
  split; [|intros e He; discriminate He].
  unfold bind, Loader.record, modify, lift_outcome, ret.
  destruct analyze_reply; [|reflexivity].
  destruct count_reply; [|reflexivity].
  destruct sample_reply; reflexivity.
Qed.

Lemma X21_exit_code_witness :
  (Loader.loadAllCSVData (Returned tt) LoaderRuns.reject_marked (Returned tt)
     (Returned tt) (Returned tt) (fun _ => true)
     (fun _ => Returned [LoaderRuns.sample (Some 123456) None]) 1 []).2
  = Some 0.
Proof.
  destruct (X21_exit_code (Returned tt) LoaderRuns.reject_marked (Returned tt)
              (Returned tt) (Returned tt) (fun _ => true)
              (fun _ => Returned [LoaderRuns.sample (Some 123456) None]) 1 [])
    as [H _].
  - intros f records Hr. injection Hr as <-. vm_compute. lia.
  - exact H.
Defined.

Module NormalizerFacts.
Import Normalizer NormalizerRuns.

Lemma truthy_string_some (x : option string) s :
  truthy_string x = Some s -> x = Some s /\ s <> "".
Proof.
  destruct x as [s'|]; simpl; [|discriminate].
  destruct (String.eqb_spec s' ""); [discriminate|].
  intros Hs; injection Hs as <-. done.
Qed.

(** [mappedData] holds for a target field what the row holds in the column
    the mapping names for it. *)
Lemma mapFields_lookup (row : gmap string string) k (mapping : Mapping) :
  mapFields mapping row !! k
  = match source_of mapping k with Some src => row !! src | None => None end.
Proof.
  unfold mapFields, source_of.
  induction mapping as [|e mapping IH] using rev_ind; [reflexivity|].
  rewrite foldl_app, rev_app_distr. cbn [foldl rev app List.find].
  destruct (String.eqb_spec (fst e) k) as [->|Hne].
  - destruct (truthy_string (snd e)) as [src|]; [|apply lookup_delete_eq].
    destruct (row !! src); [apply lookup_insert_eq | apply lookup_delete_eq].
  - destruct (truthy_string (snd e)) as [src|];
      [destruct (row !! src)|];
      rewrite ?lookup_insert_ne, ?lookup_delete_ne by done; exact IH.
Qed.

Lemma quality_counts mapped :
  calculateDataQuality mapped = 25 * filled_count mapped.
Proof.
  unfold calculateDataQuality, filled_count, keyFields.
  cbn [foldl List.filter fst snd].
  destruct (filled (mapped !! "employer")), (filled (mapped !! "location")),
    (filled (mapped !! "job_title")), (filled (mapped !! "annual_base_pay"));
    reflexivity.
Qed.

Lemma filled_count_range mapped : 0 <= filled_count mapped <= 4.
Proof.
  unfold filled_count, keyFields. cbn [List.filter].
  destruct (filled (mapped !! "employer")), (filled (mapped !! "location")),
    (filled (mapped !! "job_title")), (filled (mapped !! "annual_base_pay"));
    simpl; lia.
Qed.

Lemma string_of_chars_empty l : String.string_of_list_ascii l = "" -> l = [].
Proof. destruct l; [done | discriminate]. Qed.

Lemma sanitizeString_some str s :
  sanitizeString str = Some s -> s <> "" /\ quote_free s.
Proof.
  unfold sanitizeString. destruct (truthy_string str) as [s0|]; [|discriminate].
  cbv zeta.
  set (cleaned := List.filter _ _).
  destruct (Nat.ltb_spec 0 (length cleaned)) as [Hlen|]; [|discriminate].
  intros Hs; injection Hs as <-. split.
  - intros He. apply string_of_chars_empty in He. rewrite He in Hlen. simpl in Hlen. lia.
  - unfold quote_free. rewrite String.list_ascii_of_string_of_list_ascii.
    apply Forall_forall. intros c Hc. apply list_elem_of_In in Hc.
    apply filter_In in Hc as [_ Hc]. by apply negb_true_iff in Hc.
Qed.

Lemma or_text_sanitized str d :
  d <> "" -> quote_free d ->
  or_text (sanitizeString str) d <> "" /\ quote_free (or_text (sanitizeString str) d).
Proof.
  intros Hd Hq. unfold or_text.
  destruct (truthy_string (sanitizeString str)) as [s|] eqn:Hs; [|done].
  apply truthy_string_some in Hs as [Hs _]. by apply sanitizeString_some in Hs.
Qed.

Lemma or_text_quote_free str d :
  quote_free d -> quote_free (or_text (sanitizeString str) d).
Proof.
  intros Hq. unfold or_text.
  destruct (truthy_string (sanitizeString str)) as [s|] eqn:Hs; [|done].
  apply truthy_string_some in Hs as [Hs _].
  apply sanitizeString_some in Hs as [_ Hs]. exact Hs.
Qed.

(** The characters [cleanStr] keeps of the first character of a text. *)
Lemma cleanStr_cons c s :
  cleanStr (String c s)
  = (if negb (Ascii.eqb (Translator.lower c) "," || Ascii.eqb (Translator.lower c) "$"
              || is_space (Translator.lower c))
        && (is_digit (Translator.lower c) || Ascii.eqb (Translator.lower c) "."
            || Ascii.eqb (Translator.lower c) "k")
     then [Translator.lower c] else []) ++ cleanStr s.
Proof.
  unfold cleanStr.
  cbn [Translator.toLowerCase String.list_ascii_of_string List.filter].
  destruct (negb _); cbn [List.filter andb]; [|reflexivity].
  destruct (_ || _ || _); reflexivity.
Qed.

Lemma cleanStr_skip s1 c s2 :
  read c = false -> cleanStr (s1 +:+ String c s2) = cleanStr (s1 +:+ s2).
Proof.
  intros Hc. induction s1 as [|a s1 IH].
  - change (cleanStr (String c s2) = cleanStr s2).
    rewrite cleanStr_cons. unfold read in Hc. rewrite Hc.
    by rewrite andb_false_r.
  - change (cleanStr (String a (s1 +:+ String c s2)) = cleanStr (String a (s1 +:+ s2))).
    by rewrite !cleanStr_cons, IH.
Qed.

Lemma kept_not_m (p : ascii -> bool) l :
  p "m"%char = false -> includes "m" (List.filter p l) = false.
Proof.
  intros Hp. unfold includes. induction l as [|a l IH]; [reflexivity|].
  cbn [List.filter]. destruct (p a) eqn:Ha; [|exact IH].
  cbn [existsb]. rewrite IH, orb_false_r.
  destruct (Ascii.eqb_spec "m" a) as [<-|]; [congruence | reflexivity].
Qed.

Lemma append_nonempty s1 c s2 : s1 +:+ String c s2 <> "".
Proof. destruct s1; discriminate. Qed.

(** The first file has no column for the employer and none for the gender. *)
Lemma first_file_mapping :
  exists mapping,
    FIELD_MAPPINGS "salary_survey-1.csv" = Some mapping
    /\ source_of mapping "employer" = None
    /\ source_of mapping "gender" = None.
Proof.
  eexists. split; [vm_compute; reflexivity|].
  split; vm_compute; reflexivity.
Qed.

End NormalizerFacts.

(** X22.  The quality score [calculateDataQuality] gives is 25 for each of
    the four key fields employer, location, job title and annual base pay
    that is present and not blank, so it is between 0 and 100.  The mapping of
    salary_survey-1.csv names no column for the employer, so no row of that
    file scores above 75. *)
Theorem X22_data_quality (row : gmap string string) :
  (forall mapped,
     Normalizer.calculateDataQuality mapped = 25 * NormalizerRuns.filled_count mapped
     /\ 0 <= Normalizer.calculateDataQuality mapped <= 100)
  /\ (forall r, Normalizer.normalizeRecord row "salary_survey-1.csv" = Some r ->
        Normalizer.data_quality_score r <= 75).
Proof.
  split.
  - intros mapped. rewrite NormalizerFacts.quality_counts.
    pose proof (NormalizerFacts.filled_count_range mapped). split; [reflexivity | lia].
  - intros r Hr. unfold Normalizer.normalizeRecord in Hr.
    destruct NormalizerFacts.first_file_mapping as (mapping & Hm & He & _).
    rewrite Hm in Hr. cbv zeta in Hr. injection Hr as <-.
    cbn [Normalizer.data_quality_score].
    rewrite NormalizerFacts.quality_counts.
    unfold NormalizerRuns.filled_count, Normalizer.keyFields. cbn [List.filter].
    rewrite (NormalizerFacts.mapFields_lookup row "employer"), He.
    cbn [Normalizer.filled truthy_string].
    destruct (Normalizer.filled (Normalizer.mapFields mapping row !! "location")),
      (Normalizer.filled (Normalizer.mapFields mapping row !! "job_title")),
      (Normalizer.filled (Normalizer.mapFields mapping row !! "annual_base_pay"));
      cbn [length]; lia.
Qed.

Lemma X22_data_quality_witness :
  Normalizer.data_quality_score
    (default {| Normalizer.employer := EmptyString; Normalizer.location := EmptyString;
                Normalizer.job_title := EmptyString; Normalizer.industry := EmptyString;
                Normalizer.employment_type := EmptyString;
                Normalizer.education_level := EmptyString;
                Normalizer.gender := EmptyString;
                Normalizer.additional_comments := EmptyString;
                Normalizer.data_quality_score := 0;
                Normalizer.source_file := EmptyString |}
       (Normalizer.normalizeRecord NormalizerRuns.row1 "salary_survey-1.csv"))
  <= 75.
Proof.
  destruct (X22_data_quality NormalizerRuns.row1) as [_ H].
  destruct (Normalizer.normalizeRecord NormalizerRuns.row1 "salary_survey-1.csv")
    as [r|] eqn:Hr.
  - exact (H r eq_refl).
  - simpl. lia.
Defined.

(** X23.  What [sanitizeString] returns is null or a text that is not empty
    and holds no single or double quote.  So in a normalised record the
    employer, the location, the job title, the industry, the employment
    type, the education level and the gender are never empty, and no text
    column holds a quote; a file without a mapping gives no record.  For
    salary_survey-1.csv, which has no column for them, the employer is always
    'Unknown Company' and the gender 'Unknown'. *)
Theorem X23_text_columns (row : gmap string string) (fileName : string) :
  (forall str s, Normalizer.sanitizeString str = Some s ->
     s <> "" /\ NormalizerRuns.quote_free s)
  /\ (forall r, Normalizer.normalizeRecord row fileName = Some r ->
        Forall (fun s => s <> "" /\ NormalizerRuns.quote_free s) (NormalizerRuns.named r)
        /\ NormalizerRuns.quote_free (Normalizer.additional_comments r)
        /\ (fileName = "salary_survey-1.csv" ->
            Normalizer.employer r = "Unknown Company"
            /\ Normalizer.gender r = "Unknown"))
  /\ (Normalizer.FIELD_MAPPINGS fileName = None ->
      Normalizer.normalizeRecord row fileName = None).
Proof.
  split; [apply NormalizerFacts.sanitizeString_some|].
  split; [|by intros Hm; unfold Normalizer.normalizeRecord; rewrite Hm].
  intros r Hr. unfold Normalizer.normalizeRecord in Hr.
  destruct (Normalizer.FIELD_MAPPINGS fileName) as [mapping|] eqn:Hm; [|discriminate].
  cbv zeta in Hr. injection Hr as <-.
  unfold NormalizerRuns.named.
  cbn [Normalizer.employer Normalizer.location Normalizer.job_title Normalizer.industry
       Normalizer.employment_type Normalizer.education_level Normalizer.gender
       Normalizer.additional_comments].
  split; [|split].
  - repeat (apply Forall_cons; split;
            [apply NormalizerFacts.or_text_sanitized;
             [discriminate | unfold NormalizerRuns.quote_free; simpl; repeat constructor]|]).
    constructor.
  - apply NormalizerFacts.or_text_quote_free. constructor.
  - intros ->.
    destruct NormalizerFacts.first_file_mapping as (mapping1 & Hm1 & He & Hg).
    rewrite Hm1 in Hm. injection Hm as <-.
    rewrite (NormalizerFacts.mapFields_lookup row "employer"),
      (NormalizerFacts.mapFields_lookup row "gender"), He, Hg.
    split; reflexivity.
Qed.

Lemma X23_text_columns_witness :
  Normalizer.job_title <$> Normalizer.normalizeRecord NormalizerRuns.row1
                             "salary_survey-1.csv"
  = Some "Data Engineer"
  /\ exists r,
       Normalizer.normalizeRecord NormalizerRuns.row1 "salary_survey-1.csv" = Some r
       /\ Normalizer.employer r = "Unknown Company".
Proof.
  split; [vm_compute; reflexivity|].
  destruct (Normalizer.normalizeRecord NormalizerRuns.row1 "salary_survey-1.csv")
    as [r|] eqn:Hr; [|vm_compute in Hr; discriminate Hr].
  exists r. split; [reflexivity|].
  destruct (X23_text_columns NormalizerRuns.row1 "salary_survey-1.csv") as (_ & H & _).
  destruct (H r Hr) as (_ & _ & Hfile).
  destruct (Hfile eq_refl) as [He _]. exact He.
Defined.

(** X24.  Whatever [parseFloat] reads, [parseCurrency] reads only the digits,
    the dots and the letters k and K of its text: a character of any other
    kind can be taken out of the text, when something is left, without
    changing the result.  So a minus sign is dropped and an m is not read as
    millions: the cleaned text never holds an m, and the branch for the
    millions is not taken. *)
Theorem X24_parseCurrency_reads_digits
    (parseFloat : string -> option Q) (s1 s2 : string) (c : ascii) :
  (NormalizerRuns.read c = false -> s1 +:+ s2 <> "" ->
   Normalizer.parseCurrency parseFloat (Some (s1 +:+ String c s2))
   = Normalizer.parseCurrency parseFloat (Some (s1 +:+ s2)))
  /\ NormalizerRuns.read "m" = false
  /\ NormalizerRuns.read "-" = false
  /\ (forall s, Normalizer.includes "m" (Normalizer.cleanStr s) = false).
Proof.
  split; [|split; [reflexivity | split; [reflexivity|]]].
  - intros Hc Hne. unfold Normalizer.parseCurrency.
    assert (H1 : truthy_string (Some (s1 +:+ String c s2)) = Some (s1 +:+ String c s2)).
    { simpl. destruct (String.eqb_spec (s1 +:+ String c s2) ""); [|reflexivity].
      by destruct (NormalizerFacts.append_nonempty s1 c s2). }
    assert (H2 : truthy_string (Some (s1 +:+ s2)) = Some (s1 +:+ s2)).
    { simpl. by destruct (String.eqb_spec (s1 +:+ s2) ""). }
    rewrite H1, H2. cbv zeta. by rewrite NormalizerFacts.cleanStr_skip.
  - intros s. unfold Normalizer.cleanStr. by apply NormalizerFacts.kept_not_m.
Qed.

Lemma X24_parseCurrency_witness :
  Normalizer.parseCurrency NormalizerRuns.two_digits (Some "-50k") = Some 5000000
  /\ Normalizer.parseCurrency NormalizerRuns.two_digits (Some "15m")
     = Normalizer.parseCurrency NormalizerRuns.two_digits (Some "15").
Proof.
  split.
  - destruct (X24_parseCurrency_reads_digits NormalizerRuns.two_digits
                EmptyString "50k" "-") as [H _].
    etrans; [apply H; [reflexivity | discriminate]|]. vm_compute. reflexivity.
  - destruct (X24_parseCurrency_reads_digits NormalizerRuns.two_digits
                "15" EmptyString "m") as [H _].
    apply H; [reflexivity | discriminate].
Defined.
